(** * A2A payments agent: executor, intent routing and transport client

    A shallow embedding of the advanced agent (the [Executor] class: intent
    detection, task handlers, streaming and push-notification paths, the
    [execute] entry point), of the test client (the requests it builds, the
    listener it puts on a streamed response, the stop test of its loops) and
    of the bearer token middleware of the server, together with the
    properties the specification states about them and further properties
    of the code.

    Conventions.
    - A JavaScript string is a [string]: the sequence of its bytes in UTF-8.
      Source literals are copied as they are.  White space ([\s], [trim])
      and line terminators (where [.] stops) are those of JavaScript, read
      in UTF-8; [\d], [\w] and the letters matched under the [i] flag are
      ASCII, as they are in a pattern without the [u] flag.  Case mapping
      ([toLowerCase]) is given on ASCII, which is where every keyword of the
      agent lives.
    - An integer-valued Number is a [Z]; a Number that is the result of a
      floating-point multiplication (the weather simulation) is a binary64
      [spec_float] and is multiplied with [SFmul 53 1024].
    - Metadata objects and HTTP header objects are [gmap string _].
    - The event bus, the clock, [uuidv4], [Math.random], [eval] and the plan
      id of the server configuration are parameters of the executor. *)

From Stdlib Require Import ZArith Lia List Ascii String Bool DecimalString.
From Stdlib Require Import Floats.SpecFloat.
From stdpp Require Import base option gmap strings list.

Set Warnings "-register-all".

Open Scope string_scope.
Open Scope Z_scope.

(** ** JavaScript string operations *)

Module JsString.

(** The line feed character, written [\n] in the source. *)
Definition LF : ascii := ascii_of_nat 10.
Definition nl : string := String LF "".

Definition code (c : ascii) : nat := nat_of_ascii c.

Definition inRange (lo hi : nat) (c : ascii) : bool :=
  (Nat.leb lo (code c)) && (Nat.leb (code c) hi).

Definition isUpper (c : ascii) : bool := inRange 65 90 c.
Definition isLower (c : ascii) : bool := inRange 97 122 c.

(** [\d] *)
Definition isDigit (c : ascii) : bool := inRange 48 57 c.

(** [\w] is [[A-Za-z0-9_]]. *)
Definition isWordChar (c : ascii) : bool :=
  isUpper c || isLower c || isDigit c || Nat.eqb (code c) 95.

(** White space and line terminators of JavaScript, the characters of
    [\s] and those [trim] removes.  The ones of one byte: tab, line feed,
    vertical tab, form feed, carriage return and space. *)
Definition isSpace (c : ascii) : bool :=
  inRange 9 13 c || Nat.eqb (code c) 32.

(** The one of two bytes: U+00A0. *)
Definition isSpace2 (c1 c2 : ascii) : bool :=
  Nat.eqb (code c1) 194 && Nat.eqb (code c2) 160.

(** The ones of three bytes: U+1680, U+2000 to U+200A, U+2028, U+2029,
    U+202F, U+205F, U+3000 and U+FEFF. *)
Definition isSpace3 (c1 c2 c3 : ascii) : bool :=
  (Nat.eqb (code c1) 225 && Nat.eqb (code c2) 154 && Nat.eqb (code c3) 128)
  || (Nat.eqb (code c1) 226 && Nat.eqb (code c2) 128
      && (inRange 128 138 c3 || inRange 168 169 c3 || Nat.eqb (code c3) 175))
  || (Nat.eqb (code c1) 226 && Nat.eqb (code c2) 129 && Nat.eqb (code c3) 159)
  || (Nat.eqb (code c1) 227 && Nat.eqb (code c2) 128 && Nat.eqb (code c3) 128)
  || (Nat.eqb (code c1) 239 && Nat.eqb (code c2) 187 && Nat.eqb (code c3) 191).

(** [.] matches everything but a line terminator: line feed, carriage
    return, U+2028 and U+2029. *)
Definition isLineTerminator (c : ascii) : bool :=
  Nat.eqb (code c) 10 || Nat.eqb (code c) 13.

(** U+2028 and U+2029, of three bytes. *)
Definition isLineTerminator3 (c1 c2 c3 : ascii) : bool :=
  Nat.eqb (code c1) 226 && Nat.eqb (code c2) 128 && inRange 168 169 c3.

(** A line terminator at the head of [s]. *)
Definition lineTerminatorAt (s : string) : bool :=
  match s with
  | String c1 r1 =>
      isLineTerminator c1
      || match r1 with
         | String c2 (String c3 _) => isLineTerminator3 c1 c2 c3
         | _ => false
         end
  | EmptyString => false
  end.

Definition charIn (set : string) (c : ascii) : bool :=
  existsb (Ascii.eqb c) (list_ascii_of_string set).

(** [[+\-*/()]] *)
Definition isOperatorChar (c : ascii) : bool := charIn "+-*/()" c.

(** [[0-9+\-*/().]] *)
Definition isExpressionChar (c : ascii) : bool :=
  isDigit c || charIn "+-*/()." c.

(** The class of the two quote characters (codes 39 and 34). *)
Definition isQuote (c : ascii) : bool :=
  Nat.eqb (code c) 39 || Nat.eqb (code c) 34.

Definition lowerChar (c : ascii) : ascii :=
  if isUpper c then ascii_of_nat (code c + 32) else c.

(** [s.toLowerCase()] on the letters of ASCII; every other byte is left
    as it is. *)
Fixpoint toLowerCase (s : string) : string :=
  match s with
  | EmptyString => EmptyString
  | String c s' => String (lowerChar c) (toLowerCase s')
  end.

(** [s.startsWith(p)] *)
Fixpoint startsWith (s p : string) : bool :=
  match p, s with
  | EmptyString, _ => true
  | String _ _, EmptyString => false
  | String a p', String b s' => Ascii.eqb a b && startsWith s' p'
  end.

(** [s.includes(needle)] *)
Fixpoint includes (s needle : string) : bool :=
  startsWith s needle
  || match s with
     | EmptyString => false
     | String _ s' => includes s' needle
     end.

(** [words.some(w => s.includes(w))] *)
Definition includesAny (s : string) (words : list string) : bool :=
  existsb (includes s) words.

(** [/[set]/.test(s)] for a one-character class. *)
Fixpoint testClass (cls : ascii -> bool) (s : string) : bool :=
  match s with
  | EmptyString => false
  | String c s' => cls c || testClass cls s'
  end.

(** Replacing [/[^set]/g] by the empty string: every character outside
    the class goes. *)
Fixpoint keepClass (cls : ascii -> bool) (s : string) : string :=
  match s with
  | EmptyString => EmptyString
  | String c s' => if cls c then String c (keepClass cls s') else keepClass cls s'
  end.

Fixpoint dropWhile (cls : ascii -> bool) (s : string) : string :=
  match s with
  | EmptyString => EmptyString
  | String c s' => if cls c then dropWhile cls s' else s
  end.

Fixpoint takeWhile (cls : ascii -> bool) (s : string) : string :=
  match s with
  | EmptyString => EmptyString
  | String c s' => if cls c then String c (takeWhile cls s') else EmptyString
  end.

(** One white-space character at the head of [s]: the text after it. *)
Definition spaceAt (s : string) : option string :=
  match s with
  | EmptyString => None
  | String c1 r1 =>
      if isSpace c1 then Some r1
      else
        match r1 with
        | EmptyString => None
        | String c2 r2 =>
            if isSpace2 c1 c2 then Some r2
            else
              match r2 with
              | EmptyString => None
              | String c3 r3 => if isSpace3 c1 c2 c3 then Some r3 else None
              end
        end
  end.

(** The text without the white space it starts with. *)
Fixpoint dropSpaces (s : string) : string :=
  match s with
  | EmptyString => EmptyString
  | String c1 r1 =>
      if isSpace c1 then dropSpaces r1
      else
        match r1 with
        | EmptyString => s
        | String c2 r2 =>
            if isSpace2 c1 c2 then dropSpaces r2
            else
              match r2 with
              | EmptyString => s
              | String c3 r3 => if isSpace3 c1 c2 c3 then dropSpaces r3 else s
              end
        end
  end.

(** The text without the white space it ends with: it is cut where
    nothing but white space follows. *)
Fixpoint trimEnd (s : string) : string :=
  match s with
  | EmptyString => EmptyString
  | String c r =>
      if String.eqb (dropSpaces s) EmptyString then EmptyString
      else String c (trimEnd r)
  end.

(** [s.trim()] *)
Definition trim (s : string) : string := trimEnd (dropSpaces s).

(** ** Pieces of the regular expressions of the handlers

    A matcher takes the text at the current position and returns the text
    left after the match, or [None]. *)

(** A literal under the [i] flag. *)
Fixpoint matchLiteral (lit s : string) : option string :=
  match lit, s with
  | EmptyString, _ => Some s
  | String _ _, EmptyString => None
  | String a lit', String b s' =>
      if Ascii.eqb (lowerChar a) (lowerChar b) then matchLiteral lit' s' else None
  end.

(** [(w1|w2|...)]: the alternatives are tried from left to right.  No
    alternative used here is a prefix of another, so at most one matches at
    a position and nothing is lost by committing to the first. *)
Fixpoint matchAlternatives (alts : list string) (s : string) : option string :=
  match alts with
  | [] => None
  | w :: rest =>
      match matchLiteral w s with
      | Some s' => Some s'
      | None => matchAlternatives rest s
      end
  end.

(** [\s+], greedy.  What follows it in each pattern starts with a
    character that is not white space, so giving characters back never
    helps and the greedy choice is the match. *)
Definition matchSpaces (s : string) : option string :=
  match spaceAt s with
  | Some _ => Some (dropSpaces s)
  | None => None
  end.

(** [c+] for a class, greedy, with the matched text. *)
Definition matchClassPlus (cls : ascii -> bool) (s : string) : option (string * string) :=
  match s with
  | String c _ =>
      if cls c then Some (takeWhile cls s, dropWhile cls s) else None
  | EmptyString => None
  end.

(** [.*?body], started at the head of [s]: the lazy star takes as few
    characters as it can, and it never takes a line terminator. *)
Fixpoint lazyDotThen {A} (body : string -> option A) (s : string) : option A :=
  match body s with
  | Some r => Some r
  | None =>
      match s with
      | EmptyString => None
      | String c s' => if lineTerminatorAt s then None else lazyDotThen body s'
      end
  end.

(** The first match of an unanchored pattern: the leftmost start that
    matches.  Returns the text before the match and the matcher's result.
    The starts are tried byte after byte.  A start inside a character of
    several bytes is no start of JavaScript, and it is harmless where the
    bytes before it are bytes that [.] takes, the earlier start then
    matching too; it is not after the first byte of U+2028 or U+2029,
    where [.] stops: these three bytes are passed at once. *)
Fixpoint firstMatch {A} (pat : string -> option A) (s : string) : option (string * A) :=
  match pat s with
  | Some r => Some (EmptyString, r)
  | None =>
      match s with
      | EmptyString => None
      | String c1 s1 =>
          let next :=
            match firstMatch pat s1 with
            | Some (before, r) => Some (String c1 before, r)
            | None => None
            end in
          match s1 with
          | String c2 (String c3 s3) =>
              if isLineTerminator3 c1 c2 c3 then
                match firstMatch pat s3 with
                | Some (before, r) => Some (String c1 (String c2 (String c3 before)), r)
                | None => None
                end
              else next
          | _ => next
          end
      end
  end.

(** Replacing the first match of a pattern (no [g] flag) by the empty
    string. *)
Definition removeFirst (pat : string -> option string) (s : string) : string :=
  match firstMatch pat s with
  | Some (before, after) => before +:+ after
  | None => s
  end.

(** Interpolation of an integer-valued Number in a template literal. *)
Definition showZ (z : Z) : string := NilZero.string_of_int (Z.to_int z).

End JsString.

(** ** JavaScript Numbers of the weather simulation (binary64) *)

Module JsNumber.

Definition prec : Z := 53.
Definition emax : Z := 1024.

(** [x * y] *)
Definition mul (x y : spec_float) : spec_float := SFmul prec emax x y.

(** [x + y] *)
Definition add (x y : spec_float) : spec_float := SFadd prec emax x y.

(** The Number denoted by an integer literal, and [array.length]. *)
Definition ofZ (z : Z) : spec_float := binary_normalize prec emax z 0 false.

(** The integer below a finite value [(-1)^s * m * 2^e]. *)
Definition floorInt (s : bool) (m : positive) (e : Z) : Z :=
  let v := if s then Zneg m else Zpos m in
  if 0 <=? e then v * 2 ^ e else v / 2 ^ (- e).

(** [Math.floor(x)] *)
Definition floor (x : spec_float) : spec_float :=
  match x with
  | S754_finite s m e => binary_normalize prec emax (floorInt s m e) 0 s
  | _ => x
  end.

(** The integer a Number is, when it is one. *)
Definition toInteger (x : spec_float) : option Z :=
  match x with
  | S754_zero _ => Some 0
  | S754_finite s m e =>
      let v := if s then Zneg m else Zpos m in
      if 0 <=? e then Some (v * 2 ^ e)
      else if v mod 2 ^ (- e) =? 0 then Some (v / 2 ^ (- e)) else None
  | _ => None
  end.

(** [array[x]]: an element for an integer index inside the array,
    [undefined] otherwise. *)
Definition index {A} (l : list A) (x : spec_float) : option A :=
  match toInteger x with
  | Some k => if 0 <=? k then nth_error l (Z.to_nat k) else None
  | None => None
  end.

(** A Number that is not negative and whose integer part is below [C]. *)
Definition belowInt (C : Z) (x : spec_float) : Prop :=
  match x with
  | S754_zero s => s = false
  | S754_finite s m e => s = false /\ 0 <= floorInt false m e <= C - 1
  | _ => False
  end.

(** Shifting [m0] right by [k] bits: what is kept is below [m0], and the
    round bit says that at least half a unit was cut. *)
Definition shrInv (m0 : Z) (k : nat) (mrs : shr_record) : Prop :=
  0 <= shr_m mrs
  /\ shr_m mrs * 2 ^ Z.of_nat k <= m0
  /\ (shr_r mrs = true -> (1 <= k)%nat /\ shr_m mrs * 2 ^ Z.of_nat k + 2 ^ (Z.of_nat k - 1) <= m0).

(** What [Math.random()] may return: a binary64 value [r] with
    [0 <= r < 1]. *)
Definition isUnitDraw (r : spec_float) : bool :=
  valid_binary prec emax r
  && SFleb (S754_zero false) r
  && SFltb r (ofZ 1).

End JsNumber.

(** ** Data model *)

Inductive TaskState := submitted | working | completed | failed.

Inductive Role := user | agent.

(** What [eval] hands back: an integer-valued Number, or any other value,
    kept with the text a template literal prints for it. *)
Inductive JsValue :=
| JsInt (n : Z)
| JsOther (shown : string).

(** A thrown value: an [Error] object with its message, or anything else,
    kept with the text [String(error)] gives. *)
Inductive Thrown :=
| ErrorObject (message : string)
| ThrownValue (shown : string).

(** The object returned by [simulateWeatherAPI]. *)
Record WeatherData := {
  location : string;
  description : option string;
  temperature : spec_float;
  humidity : spec_float;
  windSpeed : spec_float;
  weatherTimestamp : N
}.

Inductive MetaValue :=
| MInt (n : Z)
| MStr (s : string)
| MBool (b : bool)
| MJs (v : JsValue)
| MWeather (w : WeatherData).

Abbreviation Metadata := (gmap string MetaValue).

Inductive Part :=
| TextPart (text : string)
| OtherPart (kind : string).

Record Message := {
  role : Role;
  messageId : string;
  parts : list Part;
  messageMetadata : option Metadata;
  messageTaskId : option string;
  messageContextId : option string
}.

Record TaskStatus := {
  state : TaskState;
  message : option Message;
  timestamp : N
}.

Record Task := {
  id : string;
  taskContextId : string;
  taskStatus : TaskStatus;
  artifacts : list (list Part);
  history : list Message;
  taskMetadata : option Metadata
}.

Record TaskStatusUpdateEvent := {
  taskId : string;
  contextId : string;
  status : TaskStatus;
  final : bool;
  metadata : option Metadata
}.

(** What is published on the event bus: the task record, or a status
    update. *)
Inductive Event :=
| TaskEvent (t : Task)
| StatusUpdate (u : TaskStatusUpdateEvent).

Record TaskHandlerResult := {
  resultParts : list Part;
  resultMetadata : option Metadata;
  resultState : option TaskState
}.

Record RequestContext := {
  requestTaskId : string;
  requestContextId : string;
  userMessage : Message;
  task : option Task
}.

(** [event.final === true]; a task record has no such field. *)
Definition isFinal (e : Event) : bool :=
  match e with
  | TaskEvent _ => false
  | StatusUpdate u => final u
  end.

(** The calls made on the event bus. *)
Inductive BusCall :=
| Publish (e : Event)
| Finished.

Definition isFinalPublish (c : BusCall) : bool :=
  match c with
  | Publish e => isFinal e
  | Finished => false
  end.

(** The events of a bus log, in the order they were published. *)
Fixpoint publishedEvents (log : list BusCall) : list Event :=
  match log with
  | [] => []
  | Publish e :: rest => e :: publishedEvents rest
  | Finished :: rest => publishedEvents rest
  end.

(** The metadata of an event binds [creditsUsed] to an integer of at least
    one. *)
Definition hasCredits (md : Metadata) : Prop :=
  exists n : Z, md !! "creditsUsed" = Some (MInt n) /\ 1 <= n.

(** ** The transport client: the requests it sends *)

Module Client.

(** JSON values of the request payloads. *)
Inductive Json :=
| JNull
| JBool (b : bool)
| JNum (n : Z)
| JStr (s : string)
| JArr (items : list Json)
| JObj (fields : list (string * Json)).

(** The argument of [fetch]. *)
Record Request := {
  url : string;
  method : string;
  headers : gmap string string;
  body : Json
}.

(** Truthiness of an optional string argument: [undefined] and the empty
    string are falsy. *)
Definition truthy (s : option string) : bool :=
  match s with
  | Some v => negb (String.eqb v "")
  | None => false
  end.

(** The header object every method starts from, and the conditional
    [if (bearerToken) headers["Authorization"] = `Bearer ${bearerToken}`]. *)
Definition baseHeaders : gmap string string :=
  {[ "Content-Type" := "application/json" ]}.

Definition withBearer (bearerToken : option string) (hs : gmap string string)
  : gmap string string :=
  match bearerToken with
  | Some token =>
      if truthy bearerToken then <[ "Authorization" := "Bearer " +:+ token ]> hs else hs
  | None => hs
  end.

(** Truthiness of a JSON value: [null], [false], [0] and the empty string
    are falsy. *)
Definition truthyJson (v : Json) : bool :=
  match v with
  | JNull => false
  | JBool b => b
  | JNum n => negb (Z.eqb n 0)
  | JStr s => negb (String.eqb s "")
  | JArr _ => true
  | JObj _ => true
  end.

Definition textMessage (messageId message : string) : Json :=
  JObj [ ("messageId", JStr messageId);
         ("role", JStr "user");
         ("parts", JArr [ JObj [ ("kind", JStr "text"); ("text", JStr message) ] ]) ].

Section Requests.
(** [config.baseUrl] and the id drawn by [uuidv4()]. *)
Variable baseUrl : string.
Variable messageId : string.

(** The request of [sendMessage(message, bearerToken)]. *)
Definition sendMessage (message : string) (bearerToken : option string) : Request :=
  let payload :=
    JObj [ ("jsonrpc", JStr "2.0");
           ("method", JStr "message/send");
           ("params",
             JObj [ ("message", textMessage messageId message);
                    ("configuration", JObj [ ("blocking", JBool false) ]) ]) ] in
  let headers := withBearer bearerToken baseHeaders in
  {| url := baseUrl; method := "POST"; headers := headers; body := payload |}.

(** The request of [sendStreamingMessage(message, bearerToken,
    pushNotification)]. *)
Definition sendStreamingMessage (message : string) (bearerToken : option string)
    (pushNotification : option Json) : Request :=
  let params := [ ("message", textMessage messageId message) ] in
  let params :=
    match pushNotification with
    | Some cfg =>
        if truthyJson cfg then (params ++ [ ("pushNotification", cfg) ])%list else params
    | None => params
    end in
  let payload :=
    JObj [ ("jsonrpc", JStr "2.0");
           ("method", JStr "message/stream");
           ("params", JObj params) ] in
  let headers := withBearer bearerToken baseHeaders in
  {| url := baseUrl; method := "POST"; headers := headers; body := payload |}.

(** The request of [setPushNotificationConfig(taskId,
    pushNotificationConfig, bearerToken)]. *)
Definition setPushNotificationConfig (taskId : string) (pushNotificationConfig : Json)
    (bearerToken : option string) : Request :=
  let payload :=
    JObj [ ("jsonrpc", JStr "2.0");
           ("method", JStr "tasks/pushNotificationConfig/set");
           ("params",
             JObj [ ("taskId", JStr taskId);
                    ("pushNotificationConfig", pushNotificationConfig) ]);
           ("id", JNum 1) ] in
  let headers := withBearer bearerToken baseHeaders in
  {| url := baseUrl; method := "POST"; headers := headers; body := payload |}.
End Requests.

End Client.

(** ** The transport client: what it does with what comes back

    The listener [sendStreamingMessage] puts on the response body, the
    stop test it shares with the loops of [payments-client.ts], the JSON a
    status update of the executor is on the wire, and the token the
    server-side middleware reads from the request. *)

Module ClientStream.
Import JsString Client.

(** [s.slice(n)] *)
Fixpoint sliceFrom (n : nat) (s : string) : string :=
  match n, s with
  | O, _ => s
  | S n', String _ s' => sliceFrom n' s'
  | S _, EmptyString => EmptyString
  end.

(** [i = s.indexOf(sep)] with the two slices [s.slice(0, i)] and
    [s.slice(i + sep.length)]; [None] when the index is -1. *)
Fixpoint cutAt (sep s : string) : option (string * string) :=
  if startsWith s sep then Some (EmptyString, sliceFrom (String.length sep) s)
  else
    match s with
    | EmptyString => None
    | String c s' =>
        match cutAt sep s' with
        | Some (before, after) => Some (String c before, after)
        | None => None
        end
    end.

(** [s.split(LF)] *)
Fixpoint splitLines (s : string) : list string :=
  match s with
  | EmptyString => [ EmptyString ]
  | String c s' =>
      if Ascii.eqb c LF then EmptyString :: splitLines s'
      else
        match splitLines s' with
        | line :: lines => String c line :: lines
        | [] => [ String c EmptyString ]
        end
  end.

(** The separator of two events of the stream: two line feeds. *)
Definition blankLine : string := String LF (String LF EmptyString).

(** A member of an object.  An object is given by its members, a key
    listed once; reading a member of [undefined], of [null] or of a value
    that is not an object gives [undefined] for the keys read here. *)
Fixpoint field (key : string) (fields : list (string * Json)) : option Json :=
  match fields with
  | [] => None
  | (k, v) :: rest => if String.eqb k key then Some v else field key rest
  end.

(** [v?.key] *)
Definition member (key : string) (v : option Json) : option Json :=
  match v with
  | Some (JObj fields) => field key fields
  | _ => None
  end.

(** [v === true] *)
Definition isTrue (v : option Json) : bool :=
  match v with
  | Some (JBool true) => true
  | _ => false
  end.

(** [data?.result?.status?.final === true] *)
Definition isFinalFrame (data : Json) : bool :=
  isTrue (member "final" (member "status" (member "result" (Some data)))).

(** What the listener writes on the console. *)
Inductive Output :=
| StreamingEvent (data : Json)
| FinalEventReceived
| ErrorParsingEvent.

(** An output that does not report a final event. *)
Definition quiet (o : Output) : bool :=
  match o with
  | StreamingEvent data => negb (isFinalFrame data)
  | FinalEventReceived => false
  | ErrorParsingEvent => true
  end.

(** The state the listener closes over. *)
Record StreamState := {
  buffer : string;
  streamClosed : bool;
  console : list Output
}.

(** Before the first chunk. *)
Definition listening : StreamState :=
  {| buffer := EmptyString; streamClosed := false; console := [] |}.

(** A listener that has not closed the stream holds no complete event. *)
Definition settled (st : StreamState) : Prop :=
  streamClosed st = false /\ cutAt blankLine (buffer st) = None.

Section Listener.
(** [JSON.parse]; [None] when it throws. *)
Variable jsonParse : string -> option Json.
(** [chunk.toString("utf8")]: the text a chunk of bytes decodes to.  A
    chunk that is well-formed UTF-8 is its own text; bytes that are not,
    such as the two pieces of a character cut by the end of the chunk,
    become U+FFFD. *)
Variable toStringUtf8 : string -> string.

(** [rawEvent.split(LF).find((line) => line.startsWith("data:"))] *)
Definition dataLineOf (rawEvent : string) : option string :=
  List.find (fun line => startsWith line "data:") (splitLines rawEvent).

(** The body of the loop for one raw event: what it logs, and whether it
    destroys the stream and breaks out of the loop. *)
Definition processEvent (rawEvent : string) : list Output * bool :=
  match dataLineOf rawEvent with
  | Some dataLine =>
      if truthy (Some dataLine) then
        match jsonParse (trim (sliceFrom 5 dataLine)) with
        | Some data =>
            if isFinalFrame data then ([ StreamingEvent data; FinalEventReceived ], true)
            else ([ StreamingEvent data ], false)
        | None => ([ ErrorParsingEvent ], false)
        end
      else ([], false)
  | None => ([], false)
  end.

(** [while ((eventEnd = buffer.indexOf(blankLine)) !== -1) { ... }], with
    at most [fuel] more iterations after the current one.  Returns the
    buffer left, whether the stream was destroyed, and what was logged. *)
Fixpoint drain (fuel : nat) (buffer : string) : string * bool * list Output :=
  match cutAt blankLine buffer with
  | None => (buffer, false, [])
  | Some (rawEvent, rest) =>
      match processEvent rawEvent with
      | (out, true) => (rest, true, out)
      | (out, false) =>
          match fuel with
          | O => (rest, false, out)
          | S fuel' =>
              let '(leftover, closed, more) := drain fuel' rest in
              (leftover, closed, (out ++ more)%list)
          end
      end
  end.

(** Each iteration takes at least two characters off the buffer, so its
    length is fuel enough. *)
Definition drainAll (buffer : string) : string * bool * list Output :=
  drain (String.length buffer) buffer.

(** The listener of the [data] event: [buffer += chunk.toString("utf8")],
    then the loop. *)
Definition onData (chunk : string) (st : StreamState) : StreamState :=
  let '(leftover, closed, out) := drainAll (buffer st +:+ toStringUtf8 chunk) in
  {| buffer := leftover;
     streamClosed := streamClosed st || closed;
     console := (console st ++ out)%list |}.

(** The response body emits its chunks in order.  Once the listener has
    destroyed the stream, no more [data] event is emitted. *)
Fixpoint receive (chunks : list string) (st : StreamState) : StreamState :=
  match chunks with
  | [] => st
  | chunk :: later =>
      if streamClosed st then st else receive later (onData chunk st)
  end.

(** All the chunks as one. *)
Fixpoint joined (chunks : list string) : string :=
  match chunks with
  | [] => EmptyString
  | chunk :: later => chunk +:+ joined later
  end.

(** The loops of [payments-client.ts] over the events of a stream:
    [for await (const event of stream) { log; if (final) { log; break } }]. *)
Fixpoint consume (stream : list Json) : list Output :=
  match stream with
  | [] => []
  | event :: later =>
      StreamingEvent event
      :: (if isFinalFrame event then [ FinalEventReceived ] else consume later)
  end.
End Listener.

(** *** A status update on the wire *)

Section Wire.
(** [Date.prototype.toISOString], and the JSON of a message and of a
    metadata object. *)
Variable isoString : N -> string.
Variable messageJson : Message -> Json.
Variable metadataJson : Metadata -> Json.

Definition stateJson (st : TaskState) : Json :=
  JStr match st with
       | submitted => "submitted"
       | working => "working"
       | completed => "completed"
       | failed => "failed"
       end.

(** [{ state, message, timestamp }]; a member that is [undefined] is left
    out by [JSON.stringify]. *)
Definition statusJson (s : TaskStatus) : Json :=
  JObj ([ ("state", stateJson (state s)) ]
        ++ match message s with
           | Some m => [ ("message", messageJson m) ]
           | None => []
           end
        ++ [ ("timestamp", JStr (isoString (timestamp s))) ])%list.

(** [{ kind: "status-update", taskId, contextId, status, final, metadata }] *)
Definition statusUpdateJson (u : TaskStatusUpdateEvent) : Json :=
  JObj ([ ("kind", JStr "status-update");
          ("taskId", JStr (taskId u));
          ("contextId", JStr (contextId u));
          ("status", statusJson (status u));
          ("final", JBool (final u)) ]
        ++ match metadata u with
           | Some md => [ ("metadata", metadataJson md) ]
           | None => []
           end)%list.
End Wire.

(** *** The middleware of the server *)

(** The token [bearerTokenMiddleware] extracts:
    [authHeader && authHeader.startsWith("Bearer ")], then
    [authHeader.substring(7)]. *)
Definition bearerTokenOf (authHeader : option string) : option string :=
  match authHeader with
  | Some header =>
      if truthy authHeader && startsWith header "Bearer " then Some (sliceFrom 7 header)
      else None
  | None => None
  end.

(** [typeof v === "object"] for a value that is truthy. *)
Definition isObject (v : Json) : bool :=
  match v with
  | JObj _ | JArr _ => true
  | _ => false
  end.

(** The token it puts in [req.body.metadata.bearerToken], under
    [bearerToken && req.body && typeof req.body === "object"].  The request
    is the one the client built: the server reads the header under its
    lower-case name and the body as parsed JSON. *)
Definition injectedBearerToken (req : Request) : option string :=
  let bearerToken := bearerTokenOf (headers req !! "Authorization") in
  if truthy bearerToken && isObject (body req) then bearerToken else None.

End ClientStream.

(** ** Effects of the executor

    An operation either returns or throws, and it changes the world it runs
    in: the calls the event bus accepted, how many calls were made on it,
    the pending timers, the clock and how many ids and random numbers were
    drawn.  What was published before a throw stays published. *)

Inductive Completion (A : Type) :=
| Normal (a : A)
| Throw (e : Thrown).
Arguments Normal {A} a.
Arguments Throw {A} e.

(** The continuation of [finalizePushNotificationTask] that waits on its
    timer. *)
Inductive Job :=
| FinalizePush (taskId contextId : string).

Record World := {
  busLog : list BusCall;
  busAttempts : nat;
  timers : list (N * Job);
  now : N;
  uuids : nat;
  draws : nat
}.

Definition M (A : Type) : Type := World -> Completion A * World.

Definition ret {A} (a : A) : M A := fun w => (Normal a, w).

Definition bind {A B} (c : M A) (k : A -> M B) : M B :=
  fun w =>
    match c w with
    | (Normal a, w') => k a w'
    | (Throw e, w') => (Throw e, w')
    end.

(** [try { body } catch (error) { handler }] *)
Definition tryCatch {A} (body : M A) (handler : Thrown -> M A) : M A :=
  fun w =>
    match body w with
    | (Normal a, w') => (Normal a, w')
    | (Throw e, w') => handler e w'
    end.

(** A computation without effects that may throw. *)
Definition liftC {A} (c : Completion A) : M A := fun w => (c, w).

Declare Scope exec_scope.
Delimit Scope exec_scope with exec.
Notation "x <- c1 ;; c2" := (bind c1 (fun x => c2))
  (at level 20, c1 at level 99, c2 at level 200, only parsing) : exec_scope.
Notation "c1 ;; c2" := (bind c1 (fun _ => c2))
  (at level 100, c2 at level 200, only parsing, right associativity) : exec_scope.
Open Scope exec_scope.

Definition withLog (w : World) (log : list BusCall) : World :=
  {| busLog := log; busAttempts := busAttempts w; timers := timers w; now := now w;
     uuids := uuids w; draws := draws w |}.

Definition countUuid (w : World) : World :=
  {| busLog := busLog w; busAttempts := busAttempts w; timers := timers w; now := now w;
     uuids := S (uuids w); draws := draws w |}.

Definition countAttempt (w : World) : World :=
  {| busLog := busLog w; busAttempts := S (busAttempts w); timers := timers w; now := now w;
     uuids := uuids w; draws := draws w |}.

Definition withTimers (w : World) (ts : list (N * Job)) : World :=
  {| busLog := busLog w; busAttempts := busAttempts w; timers := ts; now := now w;
     uuids := uuids w; draws := draws w |}.

Definition withNow (w : World) (t : N) : World :=
  {| busLog := busLog w; busAttempts := busAttempts w; timers := timers w; now := t;
     uuids := uuids w; draws := draws w |}.

(** [new Date()], read as the clock in milliseconds. *)
Definition dateNow : M N := fun w => (Normal (now w), w).

(** [await new Promise((resolve) => setTimeout(resolve, ms))] *)
Definition sleep (ms : N) : M unit :=
  fun w => (Normal tt, withNow w (now w + ms)%N).

(** [setTimeout] for a continuation that runs in the background. *)
Definition setTimer (ms : N) (job : Job) : M unit :=
  fun w => (Normal tt, withTimers w (timers w ++ [((now w + ms)%N, job)])).

(** A world in which nothing has happened yet. *)
Definition initialWorld : World :=
  {| busLog := []; busAttempts := 0%nat; timers := []; now := 0%N;
     uuids := 0%nat; draws := 0%nat |}.

(** The behaviour of an event bus: given how many calls were made on it,
    the calls it accepted and the call being made, whether the call throws,
    and what. *)
Definition BusBehaviour : Type := nat -> list BusCall -> BusCall -> option Thrown.

(** An event bus that never throws, one whose [finished()] throws, one
    that refuses the task record, and one whose first call throws. *)
Definition reliableBus : BusBehaviour :=
  fun _ _ _ => None.

Definition finishedThrowsBus : BusBehaviour :=
  fun _ _ c =>
    match c with
    | Finished => Some (ErrorObject "stream closed")
    | Publish _ => None
    end.

Definition taskRecordRefusingBus : BusBehaviour :=
  fun _ _ c =>
    match c with
    | Publish (TaskEvent _) => Some (ErrorObject "unknown task")
    | _ => None
    end.

Definition firstCallThrowsBus : BusBehaviour :=
  fun n _ _ =>
    match n with
    | O => Some (ErrorObject "bus unavailable")
    | S _ => None
    end.

(** The draw one half. *)
Definition oneHalf : spec_float := S754_finite false 4503599627370496 (-53).

(** ** A decoder of UTF-8

    [Buffer.prototype.toString] is a parameter of the listener of the
    streaming client.  This decoder is one instance of it: it reads
    well-formed sequences as they are and puts U+FFFD for every maximal
    run of bytes that starts a sequence and does not complete it, and for
    every byte that starts none. *)

Module SampleUtf8.
Import JsString.

(** U+FFFD in UTF-8. *)
Definition replacement : string :=
  String (ascii_of_nat 239) (String (ascii_of_nat 191) (String (ascii_of_nat 189) EmptyString)).

(** A sequence that has begun: its bytes so far, how many bytes it needs
    after the next one, and the range the next one must be in. *)
Record Sequence := {
  pending : string;
  more : nat;
  lower : nat;
  upper : nat
}.

(** What a byte gives when no sequence has begun: the text it is, or the
    sequence it begins. *)
Definition start (b : ascii) : string * option Sequence :=
  let n := code b in
  let begins (k lo hi : nat) :=
    (EmptyString,
     Some {| pending := String b EmptyString; more := k; lower := lo; upper := hi |}) in
  if Nat.leb n 127 then (String b EmptyString, None)
  else if Nat.leb 194 n && Nat.leb n 223 then begins 0%nat 128%nat 191%nat
  else if Nat.eqb n 224 then begins 1%nat 160%nat 191%nat
  else if Nat.eqb n 237 then begins 1%nat 128%nat 159%nat
  else if Nat.leb 225 n && Nat.leb n 239 then begins 1%nat 128%nat 191%nat
  else if Nat.eqb n 240 then begins 2%nat 144%nat 191%nat
  else if Nat.eqb n 244 then begins 2%nat 128%nat 143%nat
  else if Nat.leb 241 n && Nat.leb n 243 then begins 2%nat 128%nat 191%nat
  else (replacement, None).

Fixpoint decodeFrom (st : option Sequence) (s : string) : string :=
  match s with
  | EmptyString =>
      match st with
      | Some _ => replacement
      | None => EmptyString
      end
  | String b r =>
      match st with
      | None => let '(out, st') := start b in out +:+ decodeFrom st' r
      | Some q =>
          if Nat.leb (lower q) (code b) && Nat.leb (code b) (upper q) then
            match more q with
            | O => (pending q +:+ String b EmptyString) +:+ decodeFrom None r
            | S k =>
                decodeFrom
                  (Some {| pending := pending q +:+ String b EmptyString;
                           more := k; lower := 128; upper := 191 |})
                  r
            end
          else
            let '(out, st') := start b in
            replacement +:+ (out +:+ decodeFrom st' r)
      end
  end.

Definition toStringUtf8 (chunk : string) : string := decodeFrom None chunk.

End SampleUtf8.

(** ** An evaluator for sums and products of integer literals

    [eval] is a parameter of the executor.  This evaluator is one instance
    of it: on expressions built from decimal integer literals, [+], [-],
    [*] and parentheses it returns the value JavaScript computes, and it
    reports everything else as a syntax error. *)

Module SampleEval.
Import JsString.

Fixpoint digitsValue (acc : Z) (s : string) : Z :=
  match s with
  | EmptyString => acc
  | String c s' => digitsValue (10 * acc + Z.of_nat (code c - 48)) s'
  end.

Definition parseLiteral (s : string) : option (Z * string) :=
  match matchClassPlus isDigit s with
  | Some (ds, rest) =>
      if (startsWith ds "0" && Nat.ltb 1 (String.length ds))%bool then None
      else Some (digitsValue 0 ds, rest)
  | None => None
  end.

Fixpoint parseExpr (fuel : nat) (s : string) : option (Z * string) :=
  match fuel with
  | O => None
  | S fuel' =>
      let atom (t : string) : option (Z * string) :=
        match t with
        | String "("%char r =>
            match parseExpr fuel' r with
            | Some (v, String ")"%char r') => Some (v, r')
            | _ => None
            end
        | _ => parseLiteral t
        end in
      let term :=
        fix products (n : nat) (acc : Z) (t : string) : option (Z * string) :=
          match n, t with
          | S n', String "*"%char r =>
              match atom r with
              | Some (v, r') => products n' (acc * v) r'
              | None => None
              end
          | O, String "*"%char _ => None
          | _, _ => Some (acc, t)
          end in
      let sums :=
        fix sums (n : nat) (acc : Z) (t : string) : option (Z * string) :=
          match n, t with
          | S n', String op r =>
              if Ascii.eqb op "+"%char || Ascii.eqb op "-"%char then
                match atom r with
                | Some (v, r') =>
                    match term fuel' v r' with
                    | Some (p, r'') =>
                        sums n' (if Ascii.eqb op "+"%char then acc + p else acc - p) r''
                    | None => None
                    end
                | None => None
                end
              else Some (acc, t)
          | _, _ => Some (acc, t)
          end in
      match atom s with
      | Some (v, r) =>
          match term fuel' v r with
          | Some (p, r') => sums fuel' p r'
          | None => None
          end
      | None => None
      end
  end.

Definition eval (expression : string) : Completion JsValue :=
  match parseExpr (S (String.length expression)) expression with
  | Some (v, EmptyString) => Normal (JsInt v)
  | _ => Throw (ErrorObject "Unexpected token")
  end.

End SampleEval.

(** A request that carries one text part and no task record. *)
Definition textRequest (taskId contextId text : string) : RequestContext :=
  {| requestTaskId := taskId;
     requestContextId := contextId;
     userMessage :=
       {| role := user;
          messageId := "m-1";
          parts := [ TextPart text ];
          messageMetadata := None;
          messageTaskId := None;
          messageContextId := None |};
     task := None |}.

(** What the properties below read off an event: the task record, or the
    state, parts, [final] flag and metadata of a status update. *)
Inductive EventSummary :=
| TaskRecord
| Update (st : TaskState) (content : list Part) (isLast : bool) (md : option Metadata).

Definition summary (e : Event) : EventSummary :=
  match e with
  | TaskEvent _ => TaskRecord
  | StatusUpdate u =>
      Update (state (status u))
             (match message (status u) with Some m => parts m | None => [] end)
             (final u) (metadata u)
  end.

(** Exactly one event of the list is final, and it is the last one. *)
Definition oneFinalAtEnd (events : list Event) : Prop :=
  exists before last,
    events = (before ++ [ last ])%list
    /\ isFinal last = true
    /\ forallb (fun e => negb (isFinal e)) before = true.

(** ** The executor *)

Section Executor.
Import JsString.

(** [serverConfig.planId] *)
Variable planId : string.
(** [eval] *)
Variable jsEval : string -> Completion JsValue.
(** Interpolation of a Number in a template literal. *)
Variable numberToString : spec_float -> string.
(** The k-th id drawn by [uuidv4()]. *)
Variable uuidv4 : nat -> string.
(** The k-th value drawn by [Math.random()]. *)
Variable random : nat -> spec_float.
(** The event bus belongs to the SDK: whether a call on it throws is its
    business.  A call that throws publishes nothing. *)
Variable busThrows : BusBehaviour.

Definition newUuid : M string :=
  fun w => (Normal (uuidv4 (uuids w)), countUuid w).

Definition mathRandom : M spec_float :=
  fun w =>
    (Normal (random (draws w)),
     {| busLog := busLog w; busAttempts := busAttempts w; timers := timers w;
        now := now w; uuids := uuids w; draws := S (draws w) |}).

Definition busCall (c : BusCall) : M unit :=
  fun w =>
    match busThrows (busAttempts w) (busLog w) c with
    | Some e => (Throw e, countAttempt w)
    | None => (Normal tt, countAttempt (withLog w (busLog w ++ [c])))
    end.

(** [eventBus.publish(event)] *)
Definition publish (e : Event) : M unit := busCall (Publish e).

(** [eventBus.finished()] *)
Definition finished : M unit := busCall Finished.

(** *** Content detection *)

Definition greetings : list string :=
  [ "hello"; "hi"; "hey"; "good morning"; "good afternoon"; "good evening" ].

Definition isGreeting (text : string) : bool :=
  existsb (fun greeting => includes (toLowerCase text) greeting) greetings.

Definition mathKeywords : list string :=
  [ "calculate"; "math"; "compute"; "solve"; "what is"; "=" ].

Definition isCalculation (text : string) : bool :=
  let hasMathKeywords :=
    existsb (fun keyword => includes (toLowerCase text) keyword) mathKeywords in
  let hasNumbers := testClass isDigit text in
  let hasOperators := testClass isOperatorChar text in
  hasMathKeywords || (hasNumbers && hasOperators).

Definition isWeatherRequest (text : string) : bool :=
  includes (toLowerCase text) "weather".

Definition translationKeywords : list string :=
  [ "translate"; "translation"; "say in"; "how do you say" ].

Definition isTranslationRequest (text : string) : bool :=
  existsb (fun keyword => includes (toLowerCase text) keyword) translationKeywords.

Definition isStreamingRequest (text : string) : bool :=
  includes (toLowerCase text) "stream".

Definition isPushNotificationRequest (text : string) : bool :=
  includes (toLowerCase text) "push notification".

(** *** Task handlers *)

Definition dq : string := String (ascii_of_nat 34) "".

Definition handleGreeting (userText : string) : TaskHandlerResult :=
  let greeting := if isGreeting userText then userText else "Hello" in
  {| resultParts :=
       [ TextPart
           (greeting +:+ "! I'm your AI assistant with payment integration. I can help you with:" +:+ nl
            +:+ "• Greetings and information (1 credit)" +:+ nl
            +:+ "• Mathematical calculations (2 credits)" +:+ nl
            +:+ "• Weather information (3 credits)" +:+ nl
            +:+ "• Language translations (4 credits)" +:+ nl
            +:+ "• Streaming responses (5 credits)" +:+ nl +:+ nl
            +:+ "Just ask me anything!") ];
     resultMetadata :=
       Some {[ "creditsUsed" := MInt 1;
               "planId" := MStr planId;
               "costDescription" := MStr "Basic greeting response";
               "operationType" := MStr "greeting" ]};
     resultState := Some completed |}.

(** [/.*?(calculate|math|compute|solve|what is)\s+/i] *)
Definition triggerPattern : string -> option string :=
  lazyDotThen
    (fun s =>
       match matchAlternatives [ "calculate"; "math"; "compute"; "solve"; "what is" ] s with
       | Some rest => matchSpaces rest
       | None => None
       end).

(** The expression [handleCalculation] extracts from the text. *)
Definition extractExpression (userText : string) : string :=
  keepClass isExpressionChar (removeFirst triggerPattern userText).

Definition handleCalculation (userText : string) : Completion TaskHandlerResult :=
  let expression := extractExpression userText in
  if String.eqb expression "" then
    Normal
      {| resultParts := [ TextPart "Error: Please provide a valid mathematical expression" ];
         resultMetadata :=
           Some {[ "creditsUsed" := MInt 1;
                   "planId" := MStr planId;
                   "operationType" := MStr "calculation_error" ]};
         resultState := Some failed |}
  else
    (* try { const result = eval(expression); ... } catch (error) { ... } *)
    match jsEval expression with
    | Normal result =>
        Normal
          {| resultParts :=
               [ TextPart
                   ("📊 Calculation Result:" +:+ nl +:+ expression +:+ " = "
                    +:+ match result with JsInt n => showZ n | JsOther shown => shown end) ];
             resultMetadata :=
               Some {[ "creditsUsed" := MInt 2;
                       "planId" := MStr planId;
                       "costDescription" := MStr "Mathematical calculation";
                       "operationType" := MStr "calculation";
                       "expression" := MStr expression;
                       "result" := MJs result ]};
             resultState := Some completed |}
    | Throw error =>
        Normal
          {| resultParts := [ TextPart "Error: Invalid mathematical expression" ];
             resultMetadata :=
               Some {[ "creditsUsed" := MInt 1;
                       "planId" := MStr planId;
                       "expression" := MStr expression;
                       "operationType" := MStr "calculation_error" ]};
             resultState := Some failed |}
    end.

(** *** Simulations *)

Definition conditions : list string :=
  [ "Sunny"; "Cloudy"; "Rainy"; "Snowy"; "Windy"; "Partly Cloudy" ].

Definition simulateWeatherAPI (location : string) : M WeatherData :=
  r1 <- mathRandom ;;
  let randomCondition :=
    JsNumber.index conditions
      (JsNumber.floor (JsNumber.mul r1 (JsNumber.ofZ (Z.of_nat (length conditions))))) in
  r2 <- mathRandom ;;
  let randomTemp :=
    JsNumber.add (JsNumber.floor (JsNumber.mul r2 (JsNumber.ofZ 30))) (JsNumber.ofZ 5) in
  r3 <- mathRandom ;;
  let randomHumidity :=
    JsNumber.add (JsNumber.floor (JsNumber.mul r3 (JsNumber.ofZ 40))) (JsNumber.ofZ 30) in
  r4 <- mathRandom ;;
  let randomWind :=
    JsNumber.add (JsNumber.floor (JsNumber.mul r4 (JsNumber.ofZ 20))) (JsNumber.ofZ 5) in
  t <- dateNow ;;
  ret {| location := location;
         description := randomCondition;
         temperature := randomTemp;
         humidity := randomHumidity;
         windSpeed := randomWind;
         weatherTimestamp := t |}.

(** The phrase table.  Only the own properties of the table are modelled:
    a language or phrase that names an inherited property of a JavaScript
    object ([constructor], [__proto__]) is looked up as absent, where the
    code finds the inherited value.  The properties below speak of the
    translation for the entries the table has of its own. *)
Definition translations : gmap string (gmap string string) :=
  {[ "spanish" :=
       {[ "hello" := "hola"; "goodbye" := "adiós"; "thank you" := "gracias";
          "good morning" := "buenos días"; "how are you" := "¿cómo estás?" ]};
     "french" :=
       {[ "hello" := "bonjour"; "goodbye" := "au revoir"; "thank you" := "merci";
          "good morning" := "bonjour"; "how are you" := "comment allez-vous?" ]};
     "german" :=
       {[ "hello" := "hallo"; "goodbye" := "auf wiedersehen"; "thank you" := "danke";
          "good morning" := "guten morgen"; "how are you" := "wie geht es dir?" ]} ]}.

Definition simulateTranslation (text targetLanguage : string) : string :=
  let lang := toLowerCase targetLanguage in
  let lowerText := toLowerCase text in
  match translations !! lang with
  | Some table =>
      match table !! lowerText with
      | Some translated => translated
      | None => text +:+ " (" +:+ targetLanguage +:+ ")"
      end
  | None => text +:+ " (" +:+ targetLanguage +:+ ")"
  end.

(** [/.*?weather\s+(?:in\s+)?/i] *)
Definition weatherPattern : string -> option string :=
  lazyDotThen
    (fun s =>
       match matchLiteral "weather" s with
       | Some r1 =>
           match matchSpaces r1 with
           | Some r2 =>
               match matchLiteral "in" r2 with
               | Some r3 =>
                   match matchSpaces r3 with
                   | Some r4 => Some r4
                   | None => Some r2
                   end
               | None => Some r2
               end
           | None => None
           end
       | None => None
       end).

Definition showDescription (d : option string) : string :=
  match d with
  | Some text => text
  | None => "undefined"
  end.

Definition handleWeatherRequest (userText : string) : M TaskHandlerResult :=
  let location := trim (removeFirst weatherPattern userText) in
  if String.eqb location "" then
    ret {| resultParts := [ TextPart "Error: Please specify a location for weather information" ];
           resultMetadata :=
             Some {[ "creditsUsed" := MInt 1;
                     "planId" := MStr planId;
                     "operationType" := MStr "weather_error" ]};
           resultState := Some failed |}
  else
    weatherData <- simulateWeatherAPI location ;;
    ret {| resultParts :=
             [ TextPart
                 ("🌤️ Weather in " +:+ location +:+ ":" +:+ nl
                  +:+ showDescription (description weatherData) +:+ ", "
                  +:+ numberToString (temperature weatherData) +:+ "°C" +:+ nl
                  +:+ "Humidity: " +:+ numberToString (humidity weatherData) +:+ "%" +:+ nl
                  +:+ "Wind: " +:+ numberToString (windSpeed weatherData) +:+ " km/h") ];
           resultMetadata :=
             Some {[ "creditsUsed" := MInt 3;
                     "planId" := MStr planId;
                     "costDescription" := MStr "Weather information request";
                     "operationType" := MStr "weather";
                     "location" := MStr location;
                     "weatherData" := MWeather weatherData ]};
           resultState := Some completed |}.

(** [/translate\s+Q([^Q]+)Q\s+to\s+(\w+)/i], where [Q] stands for the
    class of the two quote characters, with its two groups. *)
Definition translationPattern (s : string) : option (string * string) :=
  match matchLiteral "translate" s with
  | Some r1 =>
      match matchSpaces r1 with
      | Some (String q1 r2) =>
          if isQuote q1 then
            match matchClassPlus (fun c => negb (isQuote c)) r2 with
            | Some (text, String q2 r3) =>
                if isQuote q2 then
                  match matchSpaces r3 with
                  | Some r4 =>
                      match matchLiteral "to" r4 with
                      | Some r5 =>
                          match matchSpaces r5 with
                          | Some r6 =>
                              match matchClassPlus isWordChar r6 with
                              | Some (targetLanguage, _) => Some (text, targetLanguage)
                              | None => None
                              end
                          | None => None
                          end
                      | None => None
                      end
                  | None => None
                  end
                else None
            | _ => None
            end
          else None
      | _ => None
      end
  | None => None
  end.

Definition handleTranslationRequest (userText : string) : TaskHandlerResult :=
  match firstMatch translationPattern userText with
  | None =>
      {| resultParts :=
           [ TextPart ("Error: Please use format: 'translate " +:+ dq +:+ "text" +:+ dq
                       +:+ " to language'") ];
         resultMetadata :=
           Some {[ "creditsUsed" := MInt 1;
                   "planId" := MStr planId;
                   "operationType" := MStr "translation_error" ]};
         resultState := Some failed |}
  | Some (_, (text, targetLanguage)) =>
      let translation := simulateTranslation text targetLanguage in
      {| resultParts :=
           [ TextPart ("🌍 Translation:" +:+ nl +:+ dq +:+ text +:+ dq +:+ " → " +:+ dq
                       +:+ translation +:+ dq +:+ " (" +:+ targetLanguage +:+ ")") ];
         resultMetadata :=
           Some {[ "creditsUsed" := MInt 4;
                   "planId" := MStr planId;
                   "costDescription" := MStr "Language translation";
                   "operationType" := MStr "translation";
                   "originalText" := MStr text;
                   "targetLanguage" := MStr targetLanguage;
                   "translatedText" := MStr translation ]};
         resultState := Some completed |}
  end.

(** The agent message embedded in a status update. *)
Definition agentMessage (taskId contextId messageId : string) (parts : list Part) : Message :=
  {| role := agent;
     messageId := messageId;
     parts := parts;
     messageMetadata := None;
     messageTaskId := Some taskId;
     messageContextId := Some contextId |}.

(** The status-update object literal of the source. *)
Definition statusEvent (taskId contextId : string) (st : TaskState) (parts : list Part)
    (isLast : bool) (md : option Metadata) (mid : string) (t : N) : Event :=
  StatusUpdate
    {| taskId := taskId;
       contextId := contextId;
       status := {| state := st;
                    message := Some (agentMessage taskId contextId mid parts);
                    timestamp := t |};
       final := isLast;
       metadata := md |}.

(** Its fields are evaluated in the order they are written: the message
    id first, then the time stamp. *)
Definition statusUpdate (taskId contextId : string) (st : TaskState) (parts : list Part)
    (isLast : bool) (md : option Metadata) : M Event :=
  mid <- newUuid ;;
  t <- dateNow ;;
  ret (statusEvent taskId contextId st parts isLast md mid t).

Definition totalMessages : nat := 10.
Definition delayMs : N := 1000.

(** [for (let i = ...; i <= totalMessages; i++) { publish; await delay }],
    with [remaining] iterations to go. *)
Fixpoint streamingLoop (taskId contextId : string) (remaining i : nat) : M unit :=
  match remaining with
  | O => ret tt
  | S remaining' =>
      ev <- statusUpdate taskId contextId working
              [ TextPart ("Streaming message " +:+ showZ (Z.of_nat i) +:+ "/"
                          +:+ showZ (Z.of_nat totalMessages)) ]
              false None ;;
      publish ev ;;
      sleep delayMs ;;
      streamingLoop taskId contextId remaining' (S i)
  end.

Definition handleStreamingRequest (userText : string) (context : RequestContext)
  : M TaskHandlerResult :=
  let taskId := requestTaskId context in
  let contextId := requestContextId context in
  streamingLoop taskId contextId totalMessages 1 ;;
  ev <- statusUpdate taskId contextId working [ TextPart "Streaming finished!" ] false None ;;
  publish ev ;;
  ret {| resultParts :=
           [ TextPart
               ("🚀 Streaming started! You will receive 60 messages via SSE (one per second)."
                +:+ nl +:+ "Check your /message/stream subscription.") ];
         resultMetadata :=
           Some {[ "creditsUsed" := MInt 5;
                   "planId" := MStr planId;
                   "costDescription" := MStr "Streaming response";
                   "operationType" := MStr "streaming";
                   "streamingType" := MStr "text" ]};
         resultState := Some completed |}.

(** The delay of [simulateWaitForPushConfig]. *)
Definition pushConfigWaitMs : N := 10000.

(** What [finalizePushNotificationTask] does once its wait is over. *)
Definition finalizePushNotificationTask (taskId contextId : string) : M unit :=
  ev <- statusUpdate taskId contextId completed
          [ TextPart "Push notification task completed!" ]
          true
          (Some {[ "completed" := MBool true;
                   "creditsUsed" := MInt 5;
                   "planId" := MStr planId;
                   "costDescription" := MStr "Push notification task completed";
                   "operationType" := MStr "push_notification" ]}) ;;
  publish ev ;;
  finished.

Definition handlePushNotificationRequest (userText : string) (context : RequestContext)
  : M TaskHandlerResult :=
  let taskId := requestTaskId context in
  let contextId := requestContextId context in
  ev <- statusUpdate taskId contextId working
          [ TextPart "Push notification request received. Waiting for pushNotificationConfig..." ]
          false None ;;
  publish ev ;;
  (* finalizePushNotificationTask is called and not awaited: it runs up to
     its wait, which sets the timer, and goes on in the background. *)
  setTimer pushConfigWaitMs (FinalizePush taskId contextId) ;;
  ret {| resultParts :=
           [ TextPart "Push notification request received. Waiting for pushNotificationConfig..." ];
         resultMetadata := None;
         resultState := Some working |}.

Definition handleGeneralRequest (userText : string) : TaskHandlerResult :=
  {| resultParts :=
       [ TextPart
           ("🤖 I received your request: " +:+ dq +:+ userText +:+ dq +:+ nl +:+ nl
            +:+ "I'm an AI assistant with payment integration. Each operation costs different credits:" +:+ nl
            +:+ "• Greetings: 1 credit" +:+ nl
            +:+ "• Calculations: 2 credits" +:+ nl
            +:+ "• Weather: 3 credits" +:+ nl
            +:+ "• Translations: 4 credits" +:+ nl
            +:+ "• Streaming: 5 credits" +:+ nl +:+ nl
            +:+ "Try asking me to calculate something, get weather info, or translate text!") ];
     resultMetadata :=
       Some {[ "creditsUsed" := MInt 1;
               "planId" := MStr planId;
               "costDescription" := MStr "General request processing";
               "operationType" := MStr "general" ]};
     resultState := Some completed |}.

(** *** Routing *)

(** The result [handleTask] makes of an exception raised while handling. *)
Definition processingError (error : Thrown) : TaskHandlerResult :=
  {| resultParts :=
       [ TextPart ("Error: " +:+ match error with
                                 | ErrorObject message => message
                                 | ThrownValue _ => "Unknown error occurred"
                                 end) ];
     resultMetadata :=
       Some {[ "creditsUsed" := MInt 1;
               "planId" := MStr planId;
               "errorType" := MStr "processing_error" ]};
     resultState := Some failed |}.

(** The text of the first part of the user message, when it is a text
    part. *)
Definition userTextOf (context : RequestContext) : string :=
  match head (parts (userMessage context)) with
  | Some (TextPart text) => text
  | _ => ""
  end.

(** Returns the handler's result and whether more updates are expected. *)
Definition handleTask (context : RequestContext) : M (TaskHandlerResult * bool) :=
  let userText := userTextOf context in
  tryCatch
    (if isGreeting userText then
       ret (handleGreeting userText, false)
     else if isCalculation userText then
       result <- liftC (handleCalculation userText) ;;
       ret (result, false)
     else if isWeatherRequest userText then
       result <- handleWeatherRequest userText ;;
       ret (result, false)
     else if isTranslationRequest userText then
       ret (handleTranslationRequest userText, false)
     else if isStreamingRequest userText then
       result <- handleStreamingRequest userText context ;;
       ret (result, false)
     else if isPushNotificationRequest userText then
       result <- handlePushNotificationRequest userText context ;;
       ret (result, true)
     else
       ret (handleGeneralRequest userText, false))
    (fun error => ret (processingError error, false)).

(** The intents, and the branch of [handleTask] a text takes. *)
Inductive Intent :=
| Greeting | Calculation | Weather | Translation | Streaming | PushNotification | General.

Definition route (userText : string) : Intent :=
  if isGreeting userText then Greeting
  else if isCalculation userText then Calculation
  else if isWeatherRequest userText then Weather
  else if isTranslationRequest userText then Translation
  else if isStreamingRequest userText then Streaming
  else if isPushNotificationRequest userText then PushNotification
  else General.

(** The classifier as the specification words it: rules in a fixed
    priority order, the first rule that matches wins, [General] when none
    does. *)
Definition priorityRules : list (Intent * (string -> bool)) :=
  [ (Greeting, isGreeting);
    (Calculation, isCalculation);
    (Weather, isWeatherRequest);
    (Translation, isTranslationRequest);
    (Streaming, isStreamingRequest);
    (PushNotification, isPushNotificationRequest) ].

Fixpoint firstRule (rules : list (Intent * (string -> bool))) (text : string) : Intent :=
  match rules with
  | [] => General
  | (intent, matches) :: rest => if matches text then intent else firstRule rest text
  end.

Definition classify (text : string) : Intent := firstRule priorityRules text.

(** What the specification has each intent do: the handler that answers
    it, and whether more updates are to follow (they are for a
    push-notification request only). *)
Definition answer (intent : Intent) (context : RequestContext)
  : M (TaskHandlerResult * bool) :=
  let userText := userTextOf context in
  match intent with
  | Greeting => ret (handleGreeting userText, false)
  | Calculation =>
      result <- liftC (handleCalculation userText) ;;
      ret (result, false)
  | Weather =>
      result <- handleWeatherRequest userText ;;
      ret (result, false)
  | Translation => ret (handleTranslationRequest userText, false)
  | Streaming =>
      result <- handleStreamingRequest userText context ;;
      ret (result, false)
  | PushNotification =>
      result <- handlePushNotificationRequest userText context ;;
      ret (result, true)
  | General => ret (handleGeneralRequest userText, false)
  end.

(** *** The entry point *)

Definition execute (requestContext : RequestContext) : M unit :=
  let taskId := requestTaskId requestContext in
  let contextId := requestContextId requestContext in
  let userMessage := userMessage requestContext in
  tryCatch
    (task <- match task requestContext with
             | Some existing => ret existing
             | None =>
                 t <- dateNow ;;
                 ret {| id := taskId;
                        taskContextId := contextId;
                        taskStatus := {| state := submitted; message := None; timestamp := t |};
                        artifacts := [];
                        history := [ userMessage ];
                        taskMetadata := messageMetadata userMessage |}
             end ;;
     publish (TaskEvent task) ;;
     handled <- handleTask requestContext ;;
     let result := fst handled in
     let expectsMoreUpdates := snd handled in
     if expectsMoreUpdates then ret tt
     else
       finalUpdate <- statusUpdate taskId contextId
                        (default completed (resultState result))
                        (resultParts result) true (resultMetadata result) ;;
       publish finalUpdate ;;
       finished)
    (fun error =>
       errorUpdate <- statusUpdate taskId contextId failed
                        [ TextPart ("Agent error: " +:+ match error with
                                                        | ErrorObject message => message
                                                        | ThrownValue shown => shown
                                                        end) ]
                        true (Some {[ "errorType" := MStr "agent_error" ]}) ;;
       publish errorUpdate ;;
       finished).

(** *** The event loop after [execute] has returned *)

Definition runJob (job : Job) : M unit :=
  match job with
  | FinalizePush taskId contextId => finalizePushNotificationTask taskId contextId
  end.

(** Each pending timer fires at its due time.  Nobody handles the
    rejection of a background promise: what it published stays, and the
    loop goes on. *)
Fixpoint fireTimers (pending : list (N * Job)) (w : World) : World :=
  match pending with
  | [] => w
  | (due, job) :: rest =>
      fireTimers rest (snd (runJob job (withNow w (N.max (now w) due))))
  end.

(** A task from its arrival to the end of its background work. *)
Definition runTask (requestContext : RequestContext) (w : World) : World :=
  let w1 := snd (execute requestContext w) in
  fireTimers (timers w1) (withTimers w1 []).

(** The events a task publishes, in order. *)
Definition eventsOf (requestContext : RequestContext) (w : World) : list Event :=
  publishedEvents (busLog (runTask requestContext w)).

(** *** Vocabulary of the properties *)

(** The capability summary that follows the echoed text in the greeting. *)
Definition capabilitySummary : string :=
  "! I'm your AI assistant with payment integration. I can help you with:" +:+ nl
  +:+ "• Greetings and information (1 credit)" +:+ nl
  +:+ "• Mathematical calculations (2 credits)" +:+ nl
  +:+ "• Weather information (3 credits)" +:+ nl
  +:+ "• Language translations (4 credits)" +:+ nl
  +:+ "• Streaming responses (5 credits)" +:+ nl +:+ nl
  +:+ "Just ask me anything!".

(** A call that publishes an event that is not final. *)
Definition isProgressCall (c : BusCall) : bool :=
  match c with
  | Publish e => negb (isFinal e)
  | Finished => false
  end.

(** From [w] to [w'] the bus accepted progress calls only. *)
Definition progressed (w w' : World) : Prop :=
  exists calls,
    busLog w' = (busLog w ++ calls)%list /\ forallb isProgressCall calls = true.

(** The metadata of a handler result binds [creditsUsed] to an integer
    of at least one. *)
Definition resultHasCredits (r : TaskHandlerResult) : Prop :=
  exists md, resultMetadata r = Some md /\ hasCredits md.

(** The task record [execute] publishes first. *)
Definition taskRecord (requestContext : RequestContext) (t : N) : Task :=
  match task requestContext with
  | Some existing => existing
  | None =>
      {| id := requestTaskId requestContext;
         taskContextId := requestContextId requestContext;
         taskStatus := {| state := submitted; message := None; timestamp := t |};
         artifacts := [];
         history := [ userMessage requestContext ];
         taskMetadata := messageMetadata (userMessage requestContext) |}
  end.

(** The metadata of the final event published by the outer [catch]. *)
Definition agentErrorMetadata : Metadata := {[ "errorType" := MStr "agent_error" ]}.

(** A status update has metadata, and the metadata either carries credits
    or is that of the outer [catch]. *)
Definition creditsOrAgentError (e : Event) : Prop :=
  match e with
  | TaskEvent _ => True
  | StatusUpdate u =>
      exists md, metadata u = Some md /\ (hasCredits md \/ md = agentErrorMetadata)
  end.

Definition goodCall (c : BusCall) : Prop :=
  match c with
  | Publish e => isFinal e = true -> creditsOrAgentError e
  | Finished => True
  end.

(** The progress event of iteration [i] of the streaming loop, as the
    properties read it. *)
Definition progressSummary (i : nat) : EventSummary :=
  Update working
    [ TextPart ("Streaming message " +:+ showZ (Z.of_nat i) +:+ "/10") ]
    false None.

(** Every character of a string is in a class. *)
Fixpoint allClass (cls : ascii -> bool) (s : string) : bool :=
  match s with
  | EmptyString => true
  | String c s' => cls c && allClass cls s'
  end.

(** The credits a completed operation costs, by intent. *)
Definition creditCost (intent : Intent) : Z :=
  match intent with
  | Greeting => 1
  | Calculation => 2
  | Weather => 3
  | Translation => 4
  | Streaming => 5
  | PushNotification => 5
  | General => 1
  end.

(** The message id and the time stamp of a status update. *)
Definition stampOf (e : Event) : option (string * N) :=
  match e with
  | TaskEvent _ => None
  | StatusUpdate u =>
      match message (status u) with
      | Some m => Some (messageId m, timestamp (status u))
      | None => None
      end
  end.

(** The result the translation handler returns when its pattern does not
    match. *)
Definition translationFormatError : TaskHandlerResult :=
  {| resultParts :=
       [ TextPart ("Error: Please use format: 'translate " +:+ dq +:+ "text" +:+ dq
                   +:+ " to language'") ];
     resultMetadata :=
       Some {[ "creditsUsed" := MInt 1;
               "planId" := MStr planId;
               "operationType" := MStr "translation_error" ]};
     resultState := Some failed |}.

(** The result the calculation handler returns when no expression is
    left. *)
Definition missingExpressionError : TaskHandlerResult :=
  {| resultParts := [ TextPart "Error: Please provide a valid mathematical expression" ];
     resultMetadata :=
       Some {[ "creditsUsed" := MInt 1;
               "planId" := MStr planId;
               "operationType" := MStr "calculation_error" ]};
     resultState := Some failed |}.

(** The integer bound to [creditsUsed] in a metadata object. *)
Definition chargedCredits (md : option Metadata) : option Z :=
  match md ≫= lookup "creditsUsed" with
  | Some (MInt n) => Some n
  | _ => None
  end.

(** The world [handleTask] starts in: [execute] has published the task
    record. *)
Definition recordPublished (requestContext : RequestContext) (w : World) : World :=
  countAttempt
    (withLog w (busLog w ++ [ Publish (TaskEvent (taskRecord requestContext (now w))) ])).

(** The message id and the time stamp of the status update built after
    [k] ids were drawn and [k] delays of the streaming loop have passed. *)
Definition streamStamp (w : World) (k : nat) : option (string * N) :=
  Some (uuidv4 (uuids w + k)%nat, (now w + delayMs * N.of_nat k)%N).

(** The result the weather handler returns when no location is left. *)
Definition missingLocationError : TaskHandlerResult :=
  {| resultParts := [ TextPart "Error: Please specify a location for weather information" ];
     resultMetadata :=
       Some {[ "creditsUsed" := MInt 1;
               "planId" := MStr planId;
               "operationType" := MStr "weather_error" ]};
     resultState := Some failed |}.

(** ** Properties of routing and of the pure handlers *)

Lemma route_classify (text : string) : route text = classify text.
Proof.
  unfold route, classify, priorityRules, firstRule.
  repeat match goal with |- context [if ?b then _ else _] => destruct b end;
    reflexivity.
Qed.

(** The conditions of the [if] chain, read back from the branch taken. *)
Lemma route_Streaming (text : string) :
  route text = Streaming ->
  isGreeting text = false /\ isCalculation text = false
  /\ isWeatherRequest text = false /\ isTranslationRequest text = false
  /\ isStreamingRequest text = true.
Proof.
  unfold route.
  destruct (isGreeting text), (isCalculation text), (isWeatherRequest text),
    (isTranslationRequest text), (isStreamingRequest text),
    (isPushNotificationRequest text); intros H; try discriminate H;
    repeat split; reflexivity.
Qed.

Lemma route_PushNotification (text : string) :
  route text = PushNotification ->
  isGreeting text = false /\ isCalculation text = false
  /\ isWeatherRequest text = false /\ isTranslationRequest text = false
  /\ isStreamingRequest text = false /\ isPushNotificationRequest text = true.
Proof.
  unfold route.
  destruct (isGreeting text), (isCalculation text), (isWeatherRequest text),
    (isTranslationRequest text), (isStreamingRequest text),
    (isPushNotificationRequest text); intros H; try discriminate H;
    repeat split; reflexivity.
Qed.

Lemma route_Calculation (text : string) :
  route text = Calculation ->
  isGreeting text = false /\ isCalculation text = true.
Proof.
  unfold route.
  destruct (isGreeting text), (isCalculation text), (isWeatherRequest text),
    (isTranslationRequest text), (isStreamingRequest text),
    (isPushNotificationRequest text); intros H; try discriminate H;
    repeat split; reflexivity.
Qed.

(** C7.  The branch [handleTask] takes is the one the priority list
    Greeting, Calculation, Weather, Translation, Streaming,
    PushNotification selects, the first rule that matches, with General
    when none does: for every request, [handleTask] is the answer of the
    intent so classified, inside its [try].  So a text that contains a
    greeting word and a math keyword, which is a calculation too, is
    classified Greeting, and [handleTask] returns the result of the
    greeting handler. *)
Theorem greeting_wins_over_calculation (context : RequestContext) (w : World) :
  handleTask context w
  = tryCatch (answer (classify (userTextOf context)) context)
      (fun error => ret (processingError error, false)) w
  /\ (includesAny (toLowerCase (userTextOf context)) greetings = true ->
      includesAny (toLowerCase (userTextOf context)) mathKeywords = true ->
      isCalculation (userTextOf context) = true
      /\ classify (userTextOf context) = Greeting
      /\ handleTask context w
         = (Normal (handleGreeting (userTextOf context), false), w)).
Proof.
  assert (Hdispatch :
    handleTask context w
    = tryCatch (answer (classify (userTextOf context)) context)
        (fun error => ret (processingError error, false)) w).
  { unfold handleTask, classify, priorityRules, firstRule, answer.
    destruct (isGreeting (userTextOf context)); [reflexivity |].
    destruct (isCalculation (userTextOf context)); [reflexivity |].
    destruct (isWeatherRequest (userTextOf context)); [reflexivity |].
    destruct (isTranslationRequest (userTextOf context)); [reflexivity |].
    destruct (isStreamingRequest (userTextOf context)); [reflexivity |].
    destruct (isPushNotificationRequest (userTextOf context)); reflexivity. }
  split; [exact Hdispatch |].
  intros Hgreet Hmath.
  assert (Hg : isGreeting (userTextOf context) = true) by exact Hgreet.
  assert (Hclass : classify (userTextOf context) = Greeting).
  { unfold classify, priorityRules, firstRule. rewrite Hg. reflexivity. }
  split; [| split; [exact Hclass |]].
  - assert (Hm : existsb (fun keyword => includes (toLowerCase (userTextOf context)) keyword)
                   mathKeywords = true) by exact Hmath.
    unfold isCalculation. rewrite Hm. reflexivity.
  - rewrite Hdispatch, Hclass. reflexivity.
Qed.

(** C8, as amended.  For a text that contains a greeting word the greeting
    handler returns a completed result with [creditsUsed = 1] whose text
    is the whole input text followed by the capability summary. *)
Theorem greeting_echoes_whole_text (userText : string) :
  isGreeting userText = true ->
  handleGreeting userText
  = {| resultParts := [ TextPart (userText +:+ capabilitySummary) ];
       resultMetadata :=
         Some {[ "creditsUsed" := MInt 1;
                 "planId" := MStr planId;
                 "costDescription" := MStr "Basic greeting response";
                 "operationType" := MStr "greeting" ]};
       resultState := Some completed |}
  /\ (resultMetadata (handleGreeting userText) ≫= lookup "creditsUsed") = Some (MInt 1).
Proof.
  intros Hg. unfold handleGreeting. rewrite Hg. split; reflexivity.
Qed.

(** C5, as amended.  For the input [Calculate 15 * 7] the handler strips
    the trigger phrase and every character that is not a digit, an
    operator, a parenthesis or a dot, white space included, which leaves
    the expression [15*7]; when [eval] gives 105 for it, the result is
    completed, carries 105 and the expression, and costs 2 credits. *)
Theorem calculate_15_times_7 :
  jsEval "15*7" = Normal (JsInt 105) ->
  removeFirst triggerPattern "Calculate 15 * 7" = "15 * 7"
  /\ extractExpression "Calculate 15 * 7" = "15*7"
  /\ handleCalculation "Calculate 15 * 7"
     = Normal
         {| resultParts := [ TextPart ("📊 Calculation Result:" +:+ nl +:+ "15*7 = 105") ];
            resultMetadata :=
              Some {[ "creditsUsed" := MInt 2;
                      "planId" := MStr planId;
                      "costDescription" := MStr "Mathematical calculation";
                      "operationType" := MStr "calculation";
                      "expression" := MStr "15*7";
                      "result" := MJs (JsInt 105) ]};
            resultState := Some completed |}.
Proof.
  intros Heval.
  assert (Hexpr : extractExpression "Calculate 15 * 7" = "15*7") by reflexivity.
  repeat split; try reflexivity.
  unfold handleCalculation. rewrite Hexpr. cbn [String.eqb Ascii.eqb Bool.eqb].
  rewrite Heval. reflexivity.
Qed.

(** C6.  When the expression left after stripping is empty, or when
    evaluating it throws, the calculation handler returns (it does not
    throw) a failed result with [creditsUsed = 1] and an error message,
    and [handleTask] hands that result on for a calculation text. *)
Theorem calculation_input_errors_are_failed_results (userText : string) :
  extractExpression userText = ""
  \/ (exists error, jsEval (extractExpression userText) = Throw error) ->
  exists result,
    handleCalculation userText = Normal result
    /\ resultState result = Some failed
    /\ (resultMetadata result ≫= lookup "creditsUsed") = Some (MInt 1)
    /\ (resultParts result
          = [ TextPart "Error: Please provide a valid mathematical expression" ]
        \/ resultParts result = [ TextPart "Error: Invalid mathematical expression" ])
    /\ forall context w,
         userTextOf context = userText ->
         route userText = Calculation ->
         handleTask context w = (Normal (result, false), w).
Proof.
  intros Herr.
  assert (Hhandler : exists result,
    handleCalculation userText = Normal result
    /\ resultState result = Some failed
    /\ (resultMetadata result ≫= lookup "creditsUsed") = Some (MInt 1)
    /\ (resultParts result
          = [ TextPart "Error: Please provide a valid mathematical expression" ]
        \/ resultParts result = [ TextPart "Error: Invalid mathematical expression" ])).
  { unfold handleCalculation.
    destruct (String.eqb_spec (extractExpression userText) "") as [Hempty | Hnonempty].
    - eexists. split; [reflexivity |]. repeat split; auto.
    - destruct Herr as [Hempty | [error Hthrow]]; [contradiction |].
      rewrite Hthrow. eexists. split; [reflexivity |]. repeat split; auto. }
  destruct Hhandler as (result & Hcalc & Hstate & Hcredits & Hparts).
  exists result. repeat split; auto.
  intros context w Htext Hroute.
  destruct (route_Calculation _ Hroute) as [Hg Hc].
  unfold handleTask, tryCatch, bind, liftC. rewrite Htext, Hg, Hc, Hcalc. reflexivity.
Qed.

(** ** What the handlers do to the event bus and to the timers *)

Lemma progressed_refl (w w' : World) : busLog w' = busLog w -> progressed w w'.
Proof. intros H. exists []. rewrite H, app_nil_r. split; reflexivity. Qed.

Lemma progressed_trans (w1 w2 w3 : World) :
  progressed w1 w2 -> progressed w2 w3 -> progressed w1 w3.
Proof.
  intros (l1 & H1 & F1) (l2 & H2 & F2). exists (l1 ++ l2)%list. split.
  - rewrite H2, H1, app_assoc. reflexivity.
  - rewrite forallb_app, F1, F2. reflexivity.
Qed.

Lemma busCall_cases (c : BusCall) (w : World) :
  (busThrows (busAttempts w) (busLog w) c = None
   /\ busCall c w = (Normal tt, countAttempt (withLog w (busLog w ++ [ c ]))))
  \/ (exists e, busThrows (busAttempts w) (busLog w) c = Some e
                /\ busCall c w = (Throw e, countAttempt w)).
Proof.
  unfold busCall. destruct (busThrows (busAttempts w) (busLog w) c) as [e |].
  - right. exists e. split; reflexivity.
  - left. split; reflexivity.
Qed.

Lemma statusUpdate_run taskId contextId st content isLast md (w : World) :
  statusUpdate taskId contextId st content isLast md w
  = (Normal (statusEvent taskId contextId st content isLast md (uuidv4 (uuids w)) (now w)),
     countUuid w).
Proof. reflexivity. Qed.

Lemma streamingLoop_progress taskId contextId (remaining : nat) :
  forall (i : nat) (w : World),
    exists r w',
      streamingLoop taskId contextId remaining i w = (r, w')
      /\ progressed w w' /\ timers w' = timers w.
Proof.
  induction remaining as [| remaining IH]; intros i w.
  - exists (Normal tt), w. repeat split. apply progressed_refl; reflexivity.
  - cbn [streamingLoop]. unfold bind at 1. rewrite statusUpdate_run.
    unfold bind at 1. unfold publish.
    match goal with
    | |- context [busCall ?c ?w0] =>
        destruct (busCall_cases c w0) as [[_ Hok] | (e & _ & Hthrow)]
    end.
    + rewrite Hok. unfold bind at 1. unfold sleep at 1.
      match goal with
      | |- context [streamingLoop _ _ remaining (S i) ?w1] =>
          destruct (IH (S i) w1) as (r & w' & Hrun & Hprog & Htimers)
      end.
      exists r, w'. split; [exact Hrun |]. split; [| exact Htimers].
      eapply progressed_trans; [| exact Hprog].
      eexists. split; [cbn; reflexivity | reflexivity].
    + rewrite Hthrow. eexists _, _. split; [reflexivity |]. split; [| reflexivity].
      apply progressed_refl; reflexivity.
Qed.

Ltac credits n :=
  eexists; split; [reflexivity | exists n; split; [reflexivity | lia]].

Lemma handleCalculation_returns (userText : string) :
  exists r, handleCalculation userText = Normal r /\ resultHasCredits r.
Proof.
  unfold handleCalculation.
  destruct (String.eqb (extractExpression userText) "").
  - eexists. split; [reflexivity | credits 1].
  - destruct (jsEval (extractExpression userText)) as [v | e].
    + eexists. split; [reflexivity | credits 2].
    + eexists. split; [reflexivity | credits 1].
Qed.

Lemma handleWeatherRequest_returns (userText : string) (w : World) :
  exists r w',
    handleWeatherRequest userText w = (Normal r, w')
    /\ busLog w' = busLog w /\ timers w' = timers w /\ resultHasCredits r.
Proof.
  unfold handleWeatherRequest.
  destruct (String.eqb (trim (removeFirst weatherPattern userText)) "").
  - eexists _, _. split; [reflexivity |]. repeat split. credits 1.
  - eexists _, _. split; [reflexivity |]. repeat split. credits 3.
Qed.

Lemma handleTranslationRequest_credits (userText : string) :
  resultHasCredits (handleTranslationRequest userText).
Proof.
  unfold handleTranslationRequest.
  destruct (firstMatch translationPattern userText) as [[before [text lang]] |].
  - credits 4.
  - credits 1.
Qed.

Lemma handleStreamingRequest_progress (userText : string) (context : RequestContext)
    (w : World) :
  exists c w',
    handleStreamingRequest userText context w = (c, w')
    /\ progressed w w' /\ timers w' = timers w
    /\ forall r, c = Normal r -> resultHasCredits r.
Proof.
  unfold handleStreamingRequest. unfold bind at 1.
  destruct (streamingLoop_progress (requestTaskId context) (requestContextId context)
              totalMessages 1 w) as (c & w1 & Hloop & Hprog & Htimers).
  rewrite Hloop. destruct c as [[] | e].
  - unfold bind at 1. rewrite statusUpdate_run. unfold bind at 1. unfold publish.
    match goal with
    | |- context [busCall ?c ?w0] =>
        destruct (busCall_cases c w0) as [[_ Hok] | (e & _ & Hthrow)]
    end.
    + rewrite Hok. eexists _, _. split; [reflexivity |]. split; [| split].
      * eapply progressed_trans; [exact Hprog |].
        eexists. split; [cbn; reflexivity | reflexivity].
      * exact Htimers.
      * intros r Hr. injection Hr as <-. credits 5.
    + rewrite Hthrow. eexists _, _. split; [reflexivity |]. split; [| split].
      * eapply progressed_trans; [exact Hprog |]. apply progressed_refl; reflexivity.
      * exact Htimers.
      * intros r Hr. discriminate Hr.
  - eexists _, _. split; [reflexivity |]. split; [exact Hprog |]. split; [exact Htimers |].
    intros r Hr. discriminate Hr.
Qed.

Lemma handlePushNotificationRequest_progress (userText : string)
    (context : RequestContext) (w : World) :
  exists c w',
    handlePushNotificationRequest userText context w = (c, w')
    /\ progressed w w'
    /\ ((exists r, c = Normal r
                   /\ timers w'
                      = (timers w ++ [ ((now w + pushConfigWaitMs)%N,
                                        FinalizePush (requestTaskId context)
                                                     (requestContextId context)) ])%list)
        \/ (exists e, c = Throw e /\ timers w' = timers w)).
Proof.
  unfold handlePushNotificationRequest. unfold bind at 1. rewrite statusUpdate_run.
  unfold bind at 1. unfold publish.
  match goal with
  | |- context [busCall ?c ?w0] =>
      destruct (busCall_cases c w0) as [[_ Hok] | (e & _ & Hthrow)]
  end.
  - rewrite Hok. eexists _, _. split; [reflexivity |]. split.
    + eexists. split; [cbn; reflexivity | reflexivity].
    + left. eexists. split; reflexivity.
  - rewrite Hthrow. eexists _, _. split; [reflexivity |]. split.
    + apply progressed_refl; reflexivity.
    + right. eexists. split; reflexivity.
Qed.

(** [handleTask] never throws.  It leaves on the bus progress events only;
    either it expects no more updates, sets no timer and returns a result
    with credits, or it expects more and has set the timer of the
    background finalization. *)
Lemma handleTask_returns (context : RequestContext) (w : World) :
  exists r more w',
    handleTask context w = (Normal (r, more), w')
    /\ progressed w w'
    /\ ((more = false /\ timers w' = timers w /\ resultHasCredits r)
        \/ (more = true
            /\ timers w'
               = (timers w ++ [ ((now w + pushConfigWaitMs)%N,
                                 FinalizePush (requestTaskId context)
                                              (requestContextId context)) ])%list)).
Proof.
  unfold handleTask, tryCatch.
  destruct (isGreeting (userTextOf context)).
  { eexists _, _, _. split; [reflexivity |]. split; [apply progressed_refl; reflexivity |].
    left. repeat split. credits 1. }
  destruct (isCalculation (userTextOf context)).
  { destruct (handleCalculation_returns (userTextOf context)) as (r & Hr & Hc).
    unfold bind, liftC. rewrite Hr.
    eexists _, _, _. split; [reflexivity |]. split; [apply progressed_refl; reflexivity |].
    left. repeat split. exact Hc. }
  destruct (isWeatherRequest (userTextOf context)).
  { destruct (handleWeatherRequest_returns (userTextOf context) w)
      as (r & w' & Hr & Hlog & Htimers & Hc).
    unfold bind at 1. rewrite Hr.
    eexists _, _, _. split; [reflexivity |]. split; [apply progressed_refl; exact Hlog |].
    left. repeat split; assumption. }
  destruct (isTranslationRequest (userTextOf context)).
  { eexists _, _, _. split; [reflexivity |]. split; [apply progressed_refl; reflexivity |].
    left. repeat split. apply handleTranslationRequest_credits. }
  destruct (isStreamingRequest (userTextOf context)).
  { destruct (handleStreamingRequest_progress (userTextOf context) context w)
      as (c & w' & Hr & Hprog & Htimers & Hc).
    unfold bind at 1. rewrite Hr. destruct c as [r | e].
    - eexists _, _, _. split; [reflexivity |]. split; [exact Hprog |].
      left. repeat split; [exact Htimers | apply Hc; reflexivity].
    - eexists _, _, _. split; [reflexivity |]. split; [exact Hprog |].
      left. repeat split; [exact Htimers | credits 1]. }
  destruct (isPushNotificationRequest (userTextOf context)).
  { destruct (handlePushNotificationRequest_progress (userTextOf context) context w)
      as (c & w' & Hr & Hprog & [(r & -> & Htimers) | (e & -> & Htimers)]).
    - unfold bind at 1. rewrite Hr.
      eexists _, _, _. split; [reflexivity |]. split; [exact Hprog |].
      right. split; [reflexivity | exact Htimers].
    - unfold bind at 1. rewrite Hr.
      eexists _, _, _. split; [reflexivity |]. split; [exact Hprog |].
      left. repeat split; [exact Htimers | credits 1]. }
  eexists _, _, _. split; [reflexivity |]. split; [apply progressed_refl; reflexivity |].
  left. repeat split. credits 1.
Qed.

Lemma publishedEvents_app (l1 l2 : list BusCall) :
  publishedEvents (l1 ++ l2) = (publishedEvents l1 ++ publishedEvents l2)%list.
Proof.
  induction l1 as [| [e |] l1 IH]; cbn; [reflexivity | rewrite IH; reflexivity | exact IH].
Qed.

Lemma publishedEvents_progress (calls : list BusCall) :
  forallb isProgressCall calls = true ->
  forallb (fun e => negb (isFinal e)) (publishedEvents calls) = true.
Proof.
  induction calls as [| [e |] calls IH]; cbn; intros H.
  - reflexivity.
  - apply andb_true_iff in H as [He Hrest]. rewrite He. exact (IH Hrest).
  - discriminate H.
Qed.

Lemma busCall_accepted (c : BusCall) (w : World) :
  busThrows (busAttempts w) (busLog w) c = None ->
  busCall c w = (Normal tt, countAttempt (withLog w (busLog w ++ [ c ]))).
Proof. intros H. unfold busCall. rewrite H. reflexivity. Qed.

Lemma execute_unfold (requestContext : RequestContext) (w : World) :
  execute requestContext w
  = tryCatch
      (publish (TaskEvent (taskRecord requestContext (now w))) ;;
       handled <- handleTask requestContext ;;
       if snd handled then ret tt
       else
         finalUpdate <- statusUpdate (requestTaskId requestContext)
                          (requestContextId requestContext)
                          (default completed (resultState (fst handled)))
                          (resultParts (fst handled)) true
                          (resultMetadata (fst handled)) ;;
         publish finalUpdate ;;
         finished)
      (fun error =>
         errorUpdate <- statusUpdate (requestTaskId requestContext)
                          (requestContextId requestContext) failed
                          [ TextPart ("Agent error: " +:+ match error with
                                                          | ErrorObject message => message
                                                          | ThrownValue shown => shown
                                                          end) ]
                          true (Some {[ "errorType" := MStr "agent_error" ]}) ;;
         publish errorUpdate ;;
         finished)
      w.
Proof.
  unfold execute, taskRecord, tryCatch, bind.
  destruct (task requestContext); reflexivity.
Qed.

Section FinalCallsSucceed.
(** The bus takes every final event and every [finished()]. *)
Hypothesis finalAccepted :
  forall n log e, isFinal e = true -> busThrows n log (Publish e) = None.
Hypothesis finishedAccepted :
  forall n log, busThrows n log Finished = None.

(** Publishing a final status update and closing the stream. *)
Lemma finalUpdate_run taskId contextId st content md (w : World) :
  exists e w',
    (ev <- statusUpdate taskId contextId st content true md ;; publish ev ;; finished) w
    = (Normal tt, w')
    /\ busLog w' = (busLog w ++ [ Publish e; Finished ])%list
    /\ timers w' = timers w
    /\ summary e = Update st content true md.
Proof.
  unfold bind at 1. rewrite statusUpdate_run. unfold bind at 1. unfold publish.
  rewrite busCall_accepted by (apply finalAccepted; reflexivity).
  unfold finished. rewrite busCall_accepted by apply finishedAccepted.
  exists (statusEvent taskId contextId st content true md (uuidv4 (uuids w)) (now w)).
  eexists. split; [reflexivity |]. split; [| split; reflexivity].
  cbn. rewrite <- app_assoc. reflexivity.
Qed.

Lemma execute_shape (requestContext : RequestContext) (w : World) :
  exists w',
    execute requestContext w = (Normal tt, w')
    /\ exists calls,
         forallb isProgressCall calls = true
         /\ ((exists e, isFinal e = true
                        /\ busLog w' = (busLog w ++ calls ++ [ Publish e; Finished ])%list
                        /\ timers w' = timers w)
             \/ (exists due,
                   busLog w' = (busLog w ++ calls)%list
                   /\ timers w'
                      = (timers w ++ [ (due, FinalizePush (requestTaskId requestContext)
                                                          (requestContextId requestContext)) ])%list)).
Proof.
  rewrite execute_unfold. unfold tryCatch. unfold bind at 1. unfold publish at 1.
  match goal with
  | |- context [busCall ?c ?w0] =>
      destruct (busCall_cases c w0) as [[_ Hok] | (err & _ & Hthrow)]
  end.
  - rewrite Hok. unfold bind at 1.
    match goal with
    | |- context [handleTask requestContext ?w1] =>
        destruct (handleTask_returns requestContext w1)
          as (r & more & w2 & Hrun & (calls & Hlog & Hcalls) & Hcases)
    end.
    rewrite Hrun. cbn [fst snd].
    destruct Hcases as [(-> & Htimers & _) | (-> & Htimers)].
    + destruct (finalUpdate_run (requestTaskId requestContext)
                  (requestContextId requestContext)
                  (default completed (resultState r)) (resultParts r)
                  (resultMetadata r) w2) as (e & w3 & Hfin & Hlog3 & Htimers3 & Hsum).
      rewrite Hfin. exists w3. split; [reflexivity |].
      exists (Publish (TaskEvent (taskRecord requestContext (now w))) :: calls).
      split; [cbn; exact Hcalls |].
      left. exists e. split; [| split].
      * destruct e as [t | u]; cbn in Hsum; [discriminate Hsum |].
        injection Hsum as _ _ Hf _. exact Hf.
      * rewrite Hlog3, Hlog. cbn. rewrite <- !app_assoc. reflexivity.
      * rewrite Htimers3, Htimers. reflexivity.
    + exists w2. split; [reflexivity |].
      exists (Publish (TaskEvent (taskRecord requestContext (now w))) :: calls).
      split; [cbn; exact Hcalls |].
      right. eexists. split.
      * rewrite Hlog. cbn. rewrite <- !app_assoc. reflexivity.
      * rewrite Htimers. cbn. reflexivity.
  - rewrite Hthrow.
    match goal with
    | |- context [statusUpdate ?t ?c ?st ?ps true ?md] =>
        destruct (finalUpdate_run t c st ps md (countAttempt w))
          as (e & w3 & Hfin & Hlog3 & Htimers3 & Hsum)
    end.
    rewrite Hfin. exists w3. split; [reflexivity |].
    exists []. split; [reflexivity |].
    left. exists e. split; [| split].
    + destruct e as [t | u]; cbn in Hsum; [discriminate Hsum |].
      injection Hsum as _ _ Hf _. exact Hf.
    + rewrite Hlog3. reflexivity.
    + rewrite Htimers3. reflexivity.
Qed.

Lemma runTask_one_final (requestContext : RequestContext) (w : World) :
  busLog w = [] ->
  timers w = [] ->
  oneFinalAtEnd (eventsOf requestContext w).
Proof.
  intros Hlog0 Htimers0. unfold eventsOf, runTask.
  destruct (execute_shape requestContext w) as (w1 & Hrun & calls & Hcalls & Hshape).
  rewrite Hrun. cbn [snd].
  destruct Hshape as [(e & He & Hlog & Htimers) | (due & Hlog & Htimers)].
  - rewrite Htimers, Htimers0. cbn [fireTimers]. cbn [busLog withTimers].
    rewrite Hlog, Hlog0. cbn [app]. rewrite publishedEvents_app. cbn [publishedEvents].
    exists (publishedEvents calls), e. repeat split; auto.
    apply publishedEvents_progress, Hcalls.
  - rewrite Htimers, Htimers0. cbn [app fireTimers runJob].
    unfold finalizePushNotificationTask.
    match goal with
    | |- context [bind (statusUpdate ?t ?c ?st ?ps true ?md) _ ?w0] =>
        destruct (finalUpdate_run t c st ps md w0)
          as (e & w3 & Hfin & Hlog3 & Htimers3 & Hsum)
    end.
    rewrite Hfin. cbn [snd]. rewrite Hlog3. cbn [busLog withNow withTimers].
    rewrite Hlog, Hlog0. cbn [app]. rewrite publishedEvents_app. cbn [publishedEvents].
    exists (publishedEvents calls), e. repeat split; auto.
    + destruct e as [t | u]; cbn in Hsum; [discriminate Hsum |].
      injection Hsum as _ _ Hf _. exact Hf.
    + apply publishedEvents_progress, Hcalls.
Qed.

(** C2, as amended.  Whatever the text, on every path through the
    executor (handler results, the exception caught inside
    [handleTask], the outer [catch] entered because a publication
    threw, the push-notification path with its background
    finalization), when the bus takes every final event and every
    [finished()], a task that starts with an empty bus and no pending
    timer publishes exactly one final event, and that event is the last
    one published. *)
Theorem one_final_event_and_it_is_last (requestContext : RequestContext) (w : World) :
  busLog w = [] ->
  timers w = [] ->
  oneFinalAtEnd (eventsOf requestContext w).
Proof. apply runTask_one_final. Qed.
End FinalCallsSucceed.

(** ** Facts on the string operations and on the patterns *)

Lemma string_length_ind (P : string -> Prop) :
  (forall s, (forall t, (String.length t < String.length s)%nat -> P t) -> P s) ->
  forall s, P s.
Proof.
  intros Hstep.
  assert (H : forall n s, (String.length s <= n)%nat -> P s).
  { induction n as [| n IH]; intros s Hs; apply Hstep; intros t Ht.
    - lia.
    - apply IH. lia. }
  intros s. apply (H (String.length s)). lia.
Qed.

Lemma append_cons (c : ascii) (a b : string) : String c a +:+ b = String c (a +:+ b).
Proof. reflexivity. Qed.

Lemma dropSpaces_suffix (s : string) : exists p, s = p +:+ dropSpaces s.
Proof.
  induction s as [s IH] using string_length_ind.
  destruct s as [| c1 r1]; [exists ""; reflexivity |].
  cbn [dropSpaces]. destruct (isSpace c1).
  { destruct (IH r1) as (p & Hp); [cbn; lia |].
    exists (String c1 p). rewrite append_cons, <- Hp. reflexivity. }
  destruct r1 as [| c2 r2]; [exists ""; reflexivity |].
  destruct (isSpace2 c1 c2).
  { destruct (IH r2) as (p & Hp); [cbn; lia |].
    exists (String c1 (String c2 p)). rewrite !append_cons, <- Hp. reflexivity. }
  destruct r2 as [| c3 r3]; [exists ""; reflexivity |].
  destruct (isSpace3 c1 c2 c3); [| exists ""; reflexivity].
  destruct (IH r3) as (p & Hp); [cbn; lia |].
  exists (String c1 (String c2 (String c3 p))). rewrite !append_cons, <- Hp. reflexivity.
Qed.

Lemma dropSpaces_idem (s : string) : dropSpaces (dropSpaces s) = dropSpaces s.
Proof.
  induction s as [s IH] using string_length_ind.
  destruct s as [| c1 r1]; [reflexivity |].
  cbn [dropSpaces]. destruct (isSpace c1) eqn:H1; [apply IH; cbn; lia |].
  destruct r1 as [| c2 r2]; [cbn [dropSpaces]; rewrite H1; reflexivity |].
  destruct (isSpace2 c1 c2) eqn:H2; [apply IH; cbn; lia |].
  destruct r2 as [| c3 r3]; [cbn [dropSpaces]; rewrite H1, H2; reflexivity |].
  destruct (isSpace3 c1 c2 c3) eqn:H3; [apply IH; cbn; lia |].
  cbn [dropSpaces]. rewrite H1, H2, H3. reflexivity.
Qed.

Lemma keepClass_allClass (cls : ascii -> bool) (s : string) :
  allClass cls (keepClass cls s) = true.
Proof.
  induction s as [| c s IH]; [reflexivity |].
  cbn [keepClass]. destruct (cls c) eqn:Hc; [| exact IH].
  cbn [allClass]. rewrite Hc, IH. reflexivity.
Qed.

Lemma keepClass_none (cls : ascii -> bool) (s : string) :
  testClass cls s = false -> keepClass cls s = "".
Proof.
  induction s as [| c s IH]; [reflexivity |].
  cbn [testClass keepClass]. intros H. apply orb_false_iff in H as [Hc Hs].
  rewrite Hc. exact (IH Hs).
Qed.

Lemma testClass_append (cls : ascii -> bool) (a b : string) :
  testClass cls (a +:+ b) = testClass cls a || testClass cls b.
Proof.
  induction a as [| c a IH]; [reflexivity |].
  change (String c a +:+ b) with (String c (a +:+ b)).
  cbn [testClass]. rewrite IH, orb_assoc. reflexivity.
Qed.


Lemma matchLiteral_keeps_none (cls : ascii -> bool) (lit : string) :
  forall s r,
    matchLiteral lit s = Some r -> testClass cls s = false -> testClass cls r = false.
Proof.
  induction lit as [| a lit IH]; intros s r H Hs.
  - cbn in H. injection H as <-. exact Hs.
  - destruct s as [| b s]; [discriminate H |].
    cbn [matchLiteral] in H.
    destruct (Ascii.eqb (lowerChar a) (lowerChar b)); [| discriminate H].
    cbn [testClass] in Hs. apply orb_false_iff in Hs as [_ Hs].
    exact (IH s r H Hs).
Qed.

Lemma matchAlternatives_keeps_none (cls : ascii -> bool) (alts : list string) :
  forall s r,
    matchAlternatives alts s = Some r -> testClass cls s = false -> testClass cls r = false.
Proof.
  induction alts as [| w alts IH]; intros s r H Hs; [discriminate H |].
  cbn [matchAlternatives] in H.
  destruct (matchLiteral w s) as [r' |] eqn:Hw.
  - injection H as <-. exact (matchLiteral_keeps_none cls w s r' Hw Hs).
  - exact (IH s r H Hs).
Qed.

Lemma matchSpaces_keeps_none (cls : ascii -> bool) (s r : string) :
  matchSpaces s = Some r -> testClass cls s = false -> testClass cls r = false.
Proof.
  unfold matchSpaces. destruct (spaceAt s); [| discriminate].
  intros H Hs. injection H as <-.
  destruct (dropSpaces_suffix s) as (p & Hp).
  remember (dropSpaces s) as r eqn:Hr. rewrite Hp, testClass_append in Hs.
  apply orb_false_iff in Hs as [_ Hs]. exact Hs.
Qed.

Lemma lazyDotThen_keeps_none (cls : ascii -> bool) (body : string -> option string) :
  (forall s r, body s = Some r -> testClass cls s = false -> testClass cls r = false) ->
  forall s r,
    lazyDotThen body s = Some r -> testClass cls s = false -> testClass cls r = false.
Proof.
  intros Hbody. induction s as [| c s IH]; intros r H Hs.
  - cbn [lazyDotThen] in H. destruct (body "") as [r' |] eqn:Hb; [| discriminate H].
    injection H as <-. exact (Hbody _ _ Hb Hs).
  - cbn [lazyDotThen] in H. destruct (body (String c s)) as [r' |] eqn:Hb.
    + injection H as <-. exact (Hbody _ _ Hb Hs).
    + destruct (lineTerminatorAt (String c s)); [discriminate H |].
      cbn [testClass] in Hs. apply orb_false_iff in Hs as [_ Hs].
      exact (IH r H Hs).
Qed.

Lemma toLowerCase_append (a b : string) :
  toLowerCase (a +:+ b) = toLowerCase a +:+ toLowerCase b.
Proof.
  induction a as [| c a IH]; [reflexivity |].
  rewrite append_cons. cbn [toLowerCase]. rewrite IH. reflexivity.
Qed.

Lemma startsWith_append (q n : string) :
  forall s, startsWith s n = true -> startsWith (s +:+ q) n = true.
Proof.
  induction n as [| a n IH]; intros s H; [destruct (s +:+ q); reflexivity |].
  destruct s as [| b s]; [discriminate H |].
  rewrite append_cons. cbn [startsWith] in *.
  apply andb_true_iff in H as [H1 H2]. rewrite H1. exact (IH s H2).
Qed.

Lemma includes_append_r (s q n : string) :
  includes s n = true -> includes (s +:+ q) n = true.
Proof.
  induction s as [| c s IH]; cbn [includes]; intros H.
  - rewrite orb_false_r in H. destruct n as [| a n]; [| discriminate H].
    destruct q; reflexivity.
  - rewrite append_cons. cbn [includes].
    apply orb_true_iff in H as [H | H]; apply orb_true_iff.
    + left. exact (startsWith_append q n (String c s) H).
    + right. exact (IH H).
Qed.

Lemma includes_append_l (p s n : string) :
  includes s n = true -> includes (p +:+ s) n = true.
Proof.
  intros H. induction p as [| c p IH]; [exact H |].
  rewrite append_cons. cbn [includes]. rewrite IH. apply orb_true_r.
Qed.

Lemma matchLiteral_suffix (lit : string) :
  forall s r, matchLiteral lit s = Some r -> exists p, s = p +:+ r.
Proof.
  induction lit as [| a lit IH]; intros s r H.
  - exists "". destruct s; injection H as <-; reflexivity.
  - destruct s as [| b s]; [discriminate H |]. cbn [matchLiteral] in H.
    destruct (Ascii.eqb (lowerChar a) (lowerChar b)); [| discriminate H].
    destruct (IH s r H) as (p & ->). exists (String b p). reflexivity.
Qed.

Lemma matchSpaces_suffix (s r : string) :
  matchSpaces s = Some r -> exists p, s = p +:+ r.
Proof.
  unfold matchSpaces. destruct (spaceAt s); [| discriminate].
  intros H. injection H as <-. apply dropSpaces_suffix.
Qed.

Lemma takeWhile_dropWhile (cls : ascii -> bool) (s : string) :
  s = takeWhile cls s +:+ dropWhile cls s.
Proof.
  induction s as [| c s IH]; [reflexivity |].
  cbn [takeWhile dropWhile]. destruct (cls c); [| reflexivity].
  rewrite append_cons, <- IH. reflexivity.
Qed.

Lemma matchClassPlus_split (cls : ascii -> bool) (s matched rest : string) :
  matchClassPlus cls s = Some (matched, rest) -> s = matched +:+ rest.
Proof.
  unfold matchClassPlus. destruct s as [| c s]; [discriminate |].
  destruct (cls c); [| discriminate].
  intros H. injection H as <- <-. exact (takeWhile_dropWhile cls (String c s)).
Qed.

Lemma includes_lower_suffix (s p r n : string) :
  s = p +:+ r ->
  includes (toLowerCase r) n = true -> includes (toLowerCase s) n = true.
Proof. intros -> H. rewrite toLowerCase_append. apply includes_append_l, H. Qed.

Lemma includes_lower_prefix (s m r n : string) :
  s = m +:+ r ->
  includes (toLowerCase m) n = true -> includes (toLowerCase s) n = true.
Proof. intros -> H. rewrite toLowerCase_append. apply includes_append_r, H. Qed.

Lemma firstMatch_suffix {A} (pat : string -> option A) :
  forall s before x,
    firstMatch pat s = Some (before, x) ->
    exists s', s = before +:+ s' /\ pat s' = Some x.
Proof.
  intros s. induction s as [s IH] using string_length_ind.
  intros before x H.
  assert (Hnext : forall c1 s1,
    s = String c1 s1 ->
    match firstMatch pat s1 with
    | Some (b, r) => Some (String c1 b, r)
    | None => None
    end = Some (before, x) ->
    exists s', s = before +:+ s' /\ pat s' = Some x).
  { intros c1 s1 -> Hn.
    destruct (firstMatch pat s1) as [[b r] |] eqn:Hrec; [| discriminate Hn].
    injection Hn as <- <-.
    destruct (IH s1 ltac:(cbn; lia) b r Hrec) as (s' & -> & Hs').
    exists s'. split; [reflexivity | exact Hs']. }
  destruct s as [| c1 s1]; cbn [firstMatch] in H.
  - destruct (pat "") as [y |] eqn:Hp; [| discriminate H].
    injection H as <- <-. exists "". split; [reflexivity | exact Hp].
  - destruct (pat (String c1 s1)) as [y |] eqn:Hp.
    + injection H as <- <-. exists (String c1 s1). split; [reflexivity | exact Hp].
    + destruct s1 as [| c2 [| c3 s3]]; try exact (Hnext _ _ eq_refl H).
      destruct (isLineTerminator3 c1 c2 c3); [| exact (Hnext _ _ eq_refl H)].
      destruct (firstMatch pat s3) as [[b r] |] eqn:Hrec; [| discriminate H].
      injection H as <- <-.
      destruct (IH s3 ltac:(cbn; lia) b r Hrec) as (s' & -> & Hs').
      exists s'. split; [reflexivity | exact Hs'].
Qed.

Lemma removeFirst_keeps_none (cls : ascii -> bool) (pat : string -> option string) :
  (forall s r, pat s = Some r -> testClass cls s = false -> testClass cls r = false) ->
  forall s, testClass cls s = false -> testClass cls (removeFirst pat s) = false.
Proof.
  intros Hpat s Hs. unfold removeFirst.
  destruct (firstMatch pat s) as [[before r] |] eqn:Hm; [| exact Hs].
  destruct (firstMatch_suffix pat s before r Hm) as (s' & -> & Hs').
  rewrite testClass_append in Hs. apply orb_false_iff in Hs as [Hb Hrest].
  rewrite testClass_append, Hb, (Hpat _ _ Hs' Hrest). reflexivity.
Qed.

Lemma matchLiteral_startsWith (lit : string) :
  forall s r,
    matchLiteral lit s = Some r ->
    startsWith (toLowerCase s) (toLowerCase lit) = true.
Proof.
  induction lit as [| a lit IH]; intros s r H; [destruct s; reflexivity |].
  destruct s as [| b s]; [discriminate H |].
  cbn [matchLiteral] in H.
  destruct (Ascii.eqb (lowerChar a) (lowerChar b)) eqn:Hab; [| discriminate H].
  cbn [toLowerCase startsWith]. rewrite Hab. exact (IH s r H).
Qed.

Lemma firstMatch_includes {A} (pat : string -> option A) (needle : string) :
  (forall s x, pat s = Some x -> startsWith (toLowerCase s) needle = true) ->
  forall s y, firstMatch pat s = Some y -> includes (toLowerCase s) needle = true.
Proof.
  intros Hpat s [before x] H.
  destruct (firstMatch_suffix pat s before x H) as (s' & -> & Hs').
  rewrite toLowerCase_append. apply includes_append_l.
  pose proof (Hpat _ _ Hs') as Hstart.
  destruct (toLowerCase s'); cbn [includes]; rewrite Hstart; reflexivity.
Qed.

(** ** Which final events carry credits *)

Lemma progress_calls_good (calls : list BusCall) :
  forallb isProgressCall calls = true -> Forall goodCall calls.
Proof.
  induction calls as [| c calls IH]; cbn; intros H; [constructor |].
  apply andb_true_iff in H as [Hc Hrest]. constructor; [| exact (IH Hrest)].
  destruct c as [e |]; cbn in *; [| exact I].
  intros Hf. rewrite Hf in Hc. discriminate Hc.
Qed.

(** Publishing a final status update and closing the stream, on any bus:
    whatever throws, only that update can have been published. *)
Lemma finalUpdate_attempt taskId contextId st content md (w : World) :
  (hasCredits md \/ md = agentErrorMetadata) ->
  exists r w' calls,
    (ev <- statusUpdate taskId contextId st content true (Some md) ;;
     publish ev ;; finished) w = (r, w')
    /\ busLog w' = (busLog w ++ calls)%list
    /\ timers w' = timers w
    /\ Forall goodCall calls.
Proof.
  intros Hmd. unfold bind at 1. rewrite statusUpdate_run. unfold bind at 1. unfold publish.
  match goal with
  | |- context [busCall ?c ?w0] =>
      destruct (busCall_cases c w0) as [[_ Hok] | (e & _ & Hthrow)]
  end.
  - rewrite Hok. unfold finished.
    match goal with
    | |- context [busCall Finished ?w0] =>
        destruct (busCall_cases Finished w0) as [[_ Hok2] | (e & _ & Hthrow2)]
    end.
    + rewrite Hok2. eexists _, _, [ _; _ ]. split; [reflexivity |].
      split; [cbn; rewrite <- app_assoc; reflexivity |]. split; [reflexivity |].
      repeat constructor. cbn. intros _. exists md. split; [reflexivity | exact Hmd].
    + rewrite Hthrow2. eexists _, _, [ _ ]. split; [reflexivity |].
      split; [cbn; reflexivity |]. split; [reflexivity |].
      repeat constructor. cbn. intros _. exists md. split; [reflexivity | exact Hmd].
  - rewrite Hthrow. eexists _, _, []. split; [reflexivity |].
    split; [cbn; rewrite app_nil_r; reflexivity |]. split; [reflexivity | constructor].
Qed.

Lemma execute_calls (requestContext : RequestContext) (w : World) :
  exists r w' calls,
    execute requestContext w = (r, w')
    /\ busLog w' = (busLog w ++ calls)%list
    /\ Forall goodCall calls
    /\ (timers w' = timers w
        \/ exists due,
             timers w'
             = (timers w ++ [ (due, FinalizePush (requestTaskId requestContext)
                                                 (requestContextId requestContext)) ])%list).
Proof.
  rewrite execute_unfold. unfold tryCatch. unfold bind at 1. unfold publish at 1.
  match goal with
  | |- context [busCall ?c ?w0] =>
      destruct (busCall_cases c w0) as [[_ Hok] | (err & _ & Hthrow)]
  end.
  - rewrite Hok. unfold bind at 1.
    match goal with
    | |- context [handleTask requestContext ?w1] =>
        destruct (handleTask_returns requestContext w1)
          as (r & more & w2 & Hrun & (calls & Hlog & Hcalls) & Hcases)
    end.
    rewrite Hrun. cbn [fst snd].
    destruct Hcases as [(-> & Htimers & (md & Hmd & Hcredits)) | (-> & Htimers)].
    + rewrite Hmd.
      destruct (finalUpdate_attempt (requestTaskId requestContext)
                  (requestContextId requestContext)
                  (default completed (resultState r)) (resultParts r) md w2
                  (or_introl Hcredits))
        as (r3 & w3 & calls3 & Hfin & Hlog3 & Htimers3 & Hgood3).
      rewrite Hfin. destruct r3 as [[] | err].
      * eexists _, _, (_ :: calls ++ calls3)%list. split; [reflexivity |].
        split; [rewrite Hlog3, Hlog; cbn; rewrite <- !app_assoc; reflexivity |].
        split.
        { constructor; [cbn; discriminate |].
          apply Forall_app. split; [apply progress_calls_good, Hcalls | exact Hgood3]. }
        left. rewrite Htimers3, Htimers. reflexivity.
      * destruct (finalUpdate_attempt (requestTaskId requestContext)
                    (requestContextId requestContext) failed
                    [ TextPart ("Agent error: " +:+ match err with
                                                    | ErrorObject message => message
                                                    | ThrownValue shown => shown
                                                    end) ]
                    agentErrorMetadata w3 (or_intror eq_refl))
          as (r4 & w4 & calls4 & Hfin4 & Hlog4 & Htimers4 & Hgood4).
        unfold agentErrorMetadata in Hfin4. rewrite Hfin4.
        eexists _, _, (_ :: calls ++ calls3 ++ calls4)%list. split; [reflexivity |].
        split; [rewrite Hlog4, Hlog3, Hlog; cbn; rewrite <- !app_assoc; reflexivity |].
        split.
        { constructor; [cbn; discriminate |].
          apply Forall_app. split; [apply progress_calls_good, Hcalls |].
          apply Forall_app. split; assumption. }
        left. rewrite Htimers4, Htimers3, Htimers. reflexivity.
    + eexists _, _, (_ :: calls)%list. split; [reflexivity |].
      split; [rewrite Hlog; cbn; rewrite <- !app_assoc; reflexivity |].
      split.
      { constructor; [cbn; discriminate | apply progress_calls_good, Hcalls]. }
      right. eexists. rewrite Htimers. reflexivity.
  - rewrite Hthrow.
    destruct (finalUpdate_attempt (requestTaskId requestContext)
                (requestContextId requestContext) failed
                [ TextPart ("Agent error: " +:+ match err with
                                                | ErrorObject message => message
                                                | ThrownValue shown => shown
                                                end) ]
                agentErrorMetadata (countAttempt w) (or_intror eq_refl))
      as (r4 & w4 & calls4 & Hfin4 & Hlog4 & Htimers4 & Hgood4).
    unfold agentErrorMetadata in Hfin4. rewrite Hfin4.
    eexists _, _, calls4. split; [reflexivity |].
    split; [rewrite Hlog4; reflexivity |]. split; [exact Hgood4 |].
    left. rewrite Htimers4. reflexivity.
Qed.

Lemma In_publishedEvents (e : Event) (calls : list BusCall) :
  In e (publishedEvents calls) -> In (Publish e) calls.
Proof.
  induction calls as [| [e' |] calls IH]; cbn; intros H.
  - exact H.
  - destruct H as [-> | H]; [left; reflexivity | right; exact (IH H)].
  - right. exact (IH H).
Qed.

(** On every bus and for every text, a final event published for a task
    carries metadata, and that metadata has [creditsUsed >= 1] unless the
    event is the one of the outer [catch] of [execute]. *)
Lemma final_events_have_credits_or_are_agent_errors
    (requestContext : RequestContext) (w : World) (e : Event) :
  busLog w = [] ->
  timers w = [] ->
  In e (eventsOf requestContext w) ->
  isFinal e = true ->
  creditsOrAgentError e.
Proof.
  intros Hlog0 Htimers0 Hin Hfinal.
  assert (Hcalls : exists calls,
    busLog (runTask requestContext w) = calls /\ Forall goodCall calls).
  { unfold runTask.
    destruct (execute_calls requestContext w)
      as (r & w1 & calls & Hrun & Hlog & Hgood & [Htimers | (due & Htimers)]).
    - rewrite Hrun. cbn [snd]. rewrite Htimers, Htimers0. cbn [fireTimers].
      eexists. split; [reflexivity |]. cbn [busLog withTimers].
      rewrite Hlog, Hlog0. exact Hgood.
    - rewrite Hrun. cbn [snd]. rewrite Htimers, Htimers0. cbn [app fireTimers runJob].
      unfold finalizePushNotificationTask.
      match goal with
      | |- context [bind (statusUpdate ?t ?c ?st ?ps true (Some ?md)) _ ?w0] =>
          destruct (finalUpdate_attempt t c st ps md w0) as
            (r3 & w3 & calls3 & Hfin & Hlog3 & _ & Hgood3);
            [left; exists 5; split; [reflexivity | lia] |]
      end.
      rewrite Hfin. cbn [snd]. eexists. split; [reflexivity |].
      rewrite Hlog3. cbn [busLog withNow withTimers]. rewrite Hlog, Hlog0.
      apply Forall_app. split; assumption. }
  destruct Hcalls as (calls & Hlog & Hgood).
  unfold eventsOf in Hin. rewrite Hlog in Hin.
  apply In_publishedEvents in Hin.
  exact (proj1 (List.Forall_forall goodCall calls) Hgood _ Hin Hfinal).
Qed.

(** ** Further properties of the handlers *)

Lemma handleTask_more_is_push (context : RequestContext) (w w' : World)
    (r : TaskHandlerResult) (more : bool) :
  handleTask context w = (Normal (r, more), w') ->
  more = true ->
  route (userTextOf context) = PushNotification.
Proof.
  unfold handleTask, tryCatch, route, bind, liftC, ret.
  destruct (isGreeting (userTextOf context));
    [intros H Hm; injection H as _ Hmore _; congruence |].
  destruct (isCalculation (userTextOf context)).
  { destruct (handleCalculation (userTextOf context));
      intros H Hm; injection H as _ Hmore _; congruence. }
  destruct (isWeatherRequest (userTextOf context)).
  { destruct (handleWeatherRequest (userTextOf context) w) as [[a | e] w1];
      intros H Hm; injection H as _ Hmore _; congruence. }
  destruct (isTranslationRequest (userTextOf context));
    [intros H Hm; injection H as _ Hmore _; congruence |].
  destruct (isStreamingRequest (userTextOf context)).
  { destruct (handleStreamingRequest (userTextOf context) context w) as [[a | e] w1];
      intros H Hm; injection H as _ Hmore _; congruence. }
  destruct (isPushNotificationRequest (userTextOf context)); [reflexivity |].
  intros H Hm; injection H as _ Hmore _; congruence.
Qed.

(** X1.  [handleTask] always returns, on every event bus: an exception
    raised while handling becomes a result.  What it leaves on the bus are
    events that are not final.  Either it reports that no more updates
    follow, has set no timer and returns a result whose metadata has
    [creditsUsed >= 1]; or it reports that more updates follow, the text is
    on the push-notification branch and the finalization timer is set. *)
Theorem handleTask_always_returns (context : RequestContext) (w : World) :
  exists r more w',
    handleTask context w = (Normal (r, more), w')
    /\ progressed w w'
    /\ ((more = false /\ timers w' = timers w /\ resultHasCredits r)
        \/ (more = true
            /\ route (userTextOf context) = PushNotification
            /\ timers w'
               = (timers w ++ [ ((now w + pushConfigWaitMs)%N,
                                 FinalizePush (requestTaskId context)
                                              (requestContextId context)) ])%list)).
Proof.
  destruct (handleTask_returns context w) as (r & more & w' & Hrun & Hprog & Hcases).
  exists r, more, w'. split; [exact Hrun |]. split; [exact Hprog |].
  destruct Hcases as [Hsync | [Hmore Htimers]]; [left; exact Hsync |].
  right. split; [exact Hmore |]. split; [| exact Htimers].
  exact (handleTask_more_is_push context w w' r more Hrun Hmore).
Qed.

(** X2.  On every event bus and for every text, a final event published
    for a task that starts with an empty bus and no pending timer carries
    metadata, and the metadata has [creditsUsed >= 1] unless it is the
    [{ errorType: "agent_error" }] of the outer [catch] of [execute]. *)
Theorem only_the_outer_catch_publishes_a_final_event_without_credits
    (requestContext : RequestContext) (w : World) (e : Event) :
  busLog w = [] ->
  timers w = [] ->
  In e (eventsOf requestContext w) ->
  isFinal e = true ->
  creditsOrAgentError e.
Proof. apply final_events_have_credits_or_are_agent_errors. Qed.

(** X3.  A message whose first part is missing, is not a text part, or is
    an empty text is answered by the general handler, with the empty text
    echoed and one credit. *)
Theorem message_without_text_is_a_general_request (context : RequestContext) (w : World) :
  parts (userMessage context) = []
  \/ (exists kind rest, parts (userMessage context) = OtherPart kind :: rest)
  \/ (exists rest, parts (userMessage context) = TextPart "" :: rest) ->
  userTextOf context = ""
  /\ route (userTextOf context) = General
  /\ handleTask context w = (Normal (handleGeneralRequest "", false), w)
  /\ (resultMetadata (handleGeneralRequest "") ≫= lookup "creditsUsed") = Some (MInt 1).
Proof.
  intros Hparts.
  assert (Htext : userTextOf context = "").
  { unfold userTextOf.
    destruct Hparts as [-> | [(kind & rest & ->) | (rest & ->)]]; reflexivity. }
  split; [exact Htext |]. rewrite Htext.
  split; [reflexivity |]. split; [| reflexivity].
  unfold handleTask, tryCatch. rewrite Htext. reflexivity.
Qed.

(** X4.  A text without any digit, operator, parenthesis or dot leaves no
    expression: the calculation handler returns the failed result with one
    credit, and [eval] is not consulted. *)
Theorem calculation_without_expression_characters_fails (userText : string) :
  testClass isExpressionChar userText = false ->
  extractExpression userText = ""
  /\ handleCalculation userText = Normal missingExpressionError.
Proof.
  intros Hnone.
  assert (Hexpr : extractExpression userText = "").
  { unfold extractExpression. apply keepClass_none.
    apply removeFirst_keeps_none; [| exact Hnone].
    unfold triggerPattern. intros s r.
    apply lazyDotThen_keeps_none. clear s r. intros s r H Hs.
    destruct (matchAlternatives [ "calculate"; "math"; "compute"; "solve"; "what is" ] s)
      as [rest |] eqn:Halt; [| discriminate H].
    eapply matchSpaces_keeps_none; [exact H |].
    eapply matchAlternatives_keeps_none; [exact Halt | exact Hs]. }
  split; [exact Hexpr |].
  unfold handleCalculation. rewrite Hexpr. reflexivity.
Qed.

(** X5.  The translation pattern needs the word [translate]: a text that
    does not contain it, in any case, gets the format error with one
    credit, also when it was routed to the translation handler by one of
    the keywords [say in] or [how do you say]. *)
Theorem translation_needs_the_word_translate (userText : string) :
  includes (toLowerCase userText) "translate" = false ->
  handleTranslationRequest userText = translationFormatError.
Proof.
  intros Hnone. unfold handleTranslationRequest.
  destruct (firstMatch translationPattern userText) as [y |] eqn:Hm; [| reflexivity].
  exfalso.
  assert (Hinc : includes (toLowerCase userText) "translate" = true).
  { apply (firstMatch_includes translationPattern "translate") with (y := y);
      [| exact Hm].
    intros s x Hs. unfold translationPattern in Hs.
    destruct (matchLiteral "translate" s) as [r1 |] eqn:Hlit; [| discriminate Hs].
    exact (matchLiteral_startsWith "translate" s r1 Hlit). }
  rewrite Hinc in Hnone. discriminate Hnone.
Qed.



Lemma handleStreamingRequest_result (userText : string) (context : RequestContext)
    (w w' : World) (r : TaskHandlerResult) :
  handleStreamingRequest userText context w = (Normal r, w') ->
  resultState r = Some completed /\ chargedCredits (resultMetadata r) = Some 5.
Proof.
  unfold handleStreamingRequest. unfold bind at 1.
  destruct (streamingLoop (requestTaskId context) (requestContextId context)
              totalMessages 1 w) as [[[] | e] w1]; [| discriminate].
  unfold bind at 1. rewrite statusUpdate_run. unfold bind at 1. unfold publish.
  match goal with
  | |- context [busCall ?c ?w0] =>
      destruct (busCall_cases c w0) as [[_ Hok] | (e & _ & Hthrow)]
  end.
  - rewrite Hok. intros H. injection H as <- _. split; reflexivity.
  - rewrite Hthrow. discriminate.
Qed.

Lemma handleTask_credit_table (context : RequestContext) (w w' : World)
    (r : TaskHandlerResult) :
  handleTask context w = (Normal (r, false), w') ->
  (resultState r = Some completed
   /\ chargedCredits (resultMetadata r) = Some (creditCost (route (userTextOf context))))
  \/ (resultState r = Some failed /\ chargedCredits (resultMetadata r) = Some 1).
Proof.
  unfold handleTask, tryCatch, route.
  destruct (isGreeting (userTextOf context)).
  { intros H. injection H as <- _. left. split; reflexivity. }
  destruct (isCalculation (userTextOf context)).
  { unfold bind, liftC, handleCalculation.
    destruct (String.eqb (extractExpression (userTextOf context)) "").
    - intros H. injection H as <- _. right. split; reflexivity.
    - destruct (jsEval (extractExpression (userTextOf context))) as [v | e];
        intros H; injection H as <- _; [left | right]; split; reflexivity. }
  destruct (isWeatherRequest (userTextOf context)).
  { unfold bind at 1. unfold handleWeatherRequest.
    destruct (String.eqb (trim (removeFirst weatherPattern (userTextOf context))) "").
    - intros H. injection H as <- _. right. split; reflexivity.
    - unfold simulateWeatherAPI, bind, mathRandom, dateNow, ret.
      intros H. injection H as <- _. left. split; reflexivity. }
  destruct (isTranslationRequest (userTextOf context)).
  { intros H. injection H as <- _. unfold handleTranslationRequest.
    destruct (firstMatch translationPattern (userTextOf context)) as [[before [text lang]] |];
      [left | right]; split; reflexivity. }
  destruct (isStreamingRequest (userTextOf context)).
  { unfold bind at 1.
    destruct (handleStreamingRequest (userTextOf context) context w) as [[r0 | e] w1] eqn:Hs.
    - intros H. injection H as <- _. left.
      exact (handleStreamingRequest_result _ _ _ _ _ Hs).
    - intros H. injection H as <- _. right. split; reflexivity. }
  destruct (isPushNotificationRequest (userTextOf context)).
  { unfold bind at 1.
    destruct (handlePushNotificationRequest (userTextOf context) context w)
      as [[r0 | e] w1].
    - intros H. discriminate H.
    - intros H. injection H as <- _. right. split; reflexivity. }
  intros H. injection H as <- _. left. split; reflexivity.
Qed.

(** X7.  The price list of [handleTask], on every event bus: a result
    returned without more updates to come is either completed, and its
    [creditsUsed] is the price of the branch the text takes (greeting 1,
    calculation 2, weather 3, translation 4, streaming 5, general 1), or
    failed, and its [creditsUsed] is 1. *)
Theorem completed_results_cost_their_price_and_failed_ones_one_credit
    (context : RequestContext) (w w' : World) (r : TaskHandlerResult) :
  handleTask context w = (Normal (r, false), w') ->
  (resultState r = Some completed
   /\ chargedCredits (resultMetadata r) = Some (creditCost (route (userTextOf context))))
  \/ (resultState r = Some failed /\ chargedCredits (resultMetadata r) = Some 1).
Proof. apply handleTask_credit_table. Qed.

(** ** What the translation pattern captures is part of the text *)

Lemma translationPattern_includes (s text targetLanguage n : string) :
  translationPattern s = Some (text, targetLanguage) ->
  includes (toLowerCase text) n = true -> includes (toLowerCase s) n = true.
Proof.
  unfold translationPattern. intros H Hn.
  destruct (matchLiteral "translate" s) as [r1 |] eqn:H1; [| discriminate H].
  destruct (matchSpaces r1) as [[| q1 r2] |] eqn:H2; try discriminate H.
  destruct (isQuote q1); [| discriminate H].
  destruct (matchClassPlus (fun c => negb (isQuote c)) r2) as [[t [| q2 r3]] |] eqn:Ht;
    try discriminate H.
  destruct (isQuote q2); [| discriminate H].
  destruct (matchSpaces r3) as [r4 |]; [| discriminate H].
  destruct (matchLiteral "to" r4) as [r5 |]; [| discriminate H].
  destruct (matchSpaces r5) as [r6 |]; [| discriminate H].
  destruct (matchClassPlus isWordChar r6) as [[l r7] |]; [| discriminate H].
  injection H as <- <-.
  destruct (matchLiteral_suffix _ _ _ H1) as (p1 & E1).
  destruct (matchSpaces_suffix _ _ H2) as (p2 & E2).
  pose proof (matchClassPlus_split _ _ _ _ Ht) as E3.
  eapply includes_lower_suffix; [exact E1 |].
  eapply includes_lower_suffix; [exact E2 |].
  eapply (includes_lower_suffix _ (String q1 "")); [reflexivity |].
  eapply includes_lower_prefix; [exact E3 | exact Hn].
Qed.


(** X11.  A text that reaches the translation handler through
    [handleTask] never has a greeting word inside its quoted text: such a
    text is answered by the greeting handler.  So the phrases [hello] and
    [good morning] of the phrase table are never translated, whatever the
    language. *)
Theorem greeting_phrases_are_never_translated
    (userText before text targetLanguage : string) :
  route userText = Translation ->
  firstMatch translationPattern userText = Some (before, (text, targetLanguage)) ->
  isGreeting text = false
  /\ toLowerCase text <> "hello"
  /\ toLowerCase text <> "good morning".
Proof.
  intros Hroute Hm.
  assert (Hg : isGreeting userText = false).
  { unfold route in Hroute. destruct (isGreeting userText); [discriminate Hroute | reflexivity]. }
  assert (Hnot : isGreeting text = false).
  { destruct (isGreeting text) eqn:E; [| reflexivity]. exfalso.
    unfold isGreeting in E, Hg.
    apply existsb_exists in E as (g & Hin & Hinc).
    destruct (firstMatch_suffix translationPattern userText before (text, targetLanguage) Hm)
      as (s' & Es & Hs').
    assert (Hall : existsb (fun greeting => includes (toLowerCase userText) greeting)
                     greetings = true).
    { apply existsb_exists. exists g. split; [exact Hin |].
      eapply includes_lower_suffix; [exact Es |].
      exact (translationPattern_includes _ _ _ _ Hs' Hinc). }
    rewrite Hall in Hg. discriminate Hg. }
  split; [exact Hnot |].
  split; intros E; unfold isGreeting in Hnot; rewrite E in Hnot; discriminate Hnot.
Qed.

(** X20.  Only the streaming and the push-notification branches touch the
    event bus, the timers or the clock: on every other branch [handleTask]
    makes no call on the bus, sets no timer, lets no time pass and expects
    no more updates; and outside the weather branch, which draws random
    numbers, it leaves the world as it found it. *)
Theorem only_streaming_and_push_handlers_publish
    (context : RequestContext) (w w' : World) (r : TaskHandlerResult) (more : bool) :
  handleTask context w = (Normal (r, more), w') ->
  route (userTextOf context) <> Streaming ->
  route (userTextOf context) <> PushNotification ->
  more = false
  /\ busLog w' = busLog w
  /\ busAttempts w' = busAttempts w
  /\ timers w' = timers w
  /\ now w' = now w
  /\ uuids w' = uuids w
  /\ (route (userTextOf context) <> Weather -> w' = w).
Proof.
  unfold handleTask, tryCatch, route.
  destruct (isGreeting (userTextOf context)).
  { intros H _ _. injection H as _ <- <-. repeat split. }
  destruct (isCalculation (userTextOf context)).
  { unfold bind, liftC.
    destruct (handleCalculation (userTextOf context)) as [r0 | e];
      intros H _ _; injection H as _ <- <-; repeat split. }
  destruct (isWeatherRequest (userTextOf context)).
  { unfold bind at 1. unfold handleWeatherRequest.
    destruct (String.eqb (trim (removeFirst weatherPattern (userTextOf context))) "").
    - intros H _ _. injection H as _ <- <-. repeat split.
    - unfold simulateWeatherAPI, bind, mathRandom, dateNow, ret.
      intros H _ _. injection H as _ <- <-. repeat split. intros Hw. contradiction. }
  destruct (isTranslationRequest (userTextOf context)).
  { intros H _ _. injection H as _ <- <-. repeat split. }
  destruct (isStreamingRequest (userTextOf context)); [intros _ Hs _; contradiction |].
  destruct (isPushNotificationRequest (userTextOf context)); [intros _ _ Hp; contradiction |].
  intros H _ _. injection H as _ <- <-. repeat split.
Qed.

Section StreamClosure.
(** The bus takes every final event and every [finished()]. *)
Hypothesis finalTaken :
  forall n log e, isFinal e = true -> busThrows n log (Publish e) = None.
Hypothesis finishedTaken :
  forall n log, busThrows n log Finished = None.

(** X8.  When the bus takes every final event and every [finished()], the
    calls a task makes on the bus, from an empty bus and no pending timer
    to the end of its background work, are: publications of events that
    are not final, then the publication of one final event, then one
    [finished()], and nothing after it. *)
Theorem finished_is_called_once_right_after_the_final_event
    (requestContext : RequestContext) (w : World) :
  busLog w = [] ->
  timers w = [] ->
  exists calls e,
    busLog (runTask requestContext w) = (calls ++ [ Publish e; Finished ])%list
    /\ isFinal e = true
    /\ forallb isProgressCall calls = true.
Proof.
  intros Hlog0 Htimers0. unfold runTask.
  destruct (execute_shape finalTaken finishedTaken requestContext w)
    as (w1 & Hrun & calls & Hcalls & Hshape).
  rewrite Hrun. cbn [snd].
  destruct Hshape as [(e & He & Hlog & Htimers) | (due & Hlog & Htimers)].
  - rewrite Htimers, Htimers0. cbn [fireTimers busLog withTimers].
    rewrite Hlog, Hlog0. exists calls, e. repeat split; assumption.
  - rewrite Htimers, Htimers0. cbn [app fireTimers runJob].
    unfold finalizePushNotificationTask.
    match goal with
    | |- context [bind (statusUpdate ?t ?c ?st ?ps true ?md) _ ?w0] =>
        destruct (finalUpdate_run finalTaken finishedTaken t c st ps md w0)
          as (e & w3 & Hfin & Hlog3 & Htimers3 & Hsum)
    end.
    rewrite Hfin. cbn [snd]. rewrite Hlog3. cbn [busLog withNow withTimers].
    rewrite Hlog, Hlog0. exists calls, e. split; [reflexivity |]. split; [| exact Hcalls].
    destruct e as [t | u]; cbn in Hsum; [discriminate Hsum |].
    injection Hsum as _ _ Hf _. exact Hf.
Qed.

(** X19.  When the bus refuses the task record, no handler runs, whatever
    the text: the task publishes one event, the final failed update of
    the outer [catch] with the text [Agent error: ] followed by the
    message of the error and the metadata [{ errorType: "agent_error" }];
    one id is drawn, no random number is drawn and no timer is left. *)
Theorem refused_task_record_runs_no_handler
    (requestContext : RequestContext) (w : World) (error : Thrown) :
  busLog w = [] ->
  timers w = [] ->
  busThrows (busAttempts w) (busLog w)
    (Publish (TaskEvent (taskRecord requestContext (now w)))) = Some error ->
  exists u,
    eventsOf requestContext w = [ StatusUpdate u ]
    /\ summary (StatusUpdate u)
       = Update failed
           [ TextPart ("Agent error: " +:+ match error with
                                           | ErrorObject message => message
                                           | ThrownValue shown => shown
                                           end) ]
           true (Some agentErrorMetadata)
    /\ uuids (runTask requestContext w) = S (uuids w)
    /\ draws (runTask requestContext w) = draws w
    /\ timers (runTask requestContext w) = [].
Proof.
  intros Hlog0 Htimers0 Hrefused.
  assert (Hexec : execute requestContext w
    = (Normal tt,
       countAttempt
         (withLog
            (countAttempt
               (withLog (countUuid (countAttempt w))
                  (busLog w
                   ++ [ Publish
                          (statusEvent (requestTaskId requestContext)
                             (requestContextId requestContext) failed
                             [ TextPart ("Agent error: " +:+ match error with
                                                             | ErrorObject message => message
                                                             | ThrownValue shown => shown
                                                             end) ]
                             true (Some {[ "errorType" := MStr "agent_error" ]})
                             (uuidv4 (uuids w)) (now w)) ])))
            ((busLog w
              ++ [ Publish
                     (statusEvent (requestTaskId requestContext)
                        (requestContextId requestContext) failed
                        [ TextPart ("Agent error: " +:+ match error with
                                                        | ErrorObject message => message
                                                        | ThrownValue shown => shown
                                                        end) ]
                        true (Some {[ "errorType" := MStr "agent_error" ]})
                        (uuidv4 (uuids w)) (now w)) ])
             ++ [ Finished ])))).
  { rewrite execute_unfold. unfold tryCatch. unfold bind at 1. unfold publish at 1.
    unfold busCall at 1. rewrite Hrefused.
    unfold bind at 1. rewrite statusUpdate_run. unfold bind at 1. unfold publish.
    rewrite busCall_accepted by (apply finalTaken; reflexivity).
    unfold finished. rewrite busCall_accepted by apply finishedTaken.
    reflexivity. }
  unfold eventsOf, runTask. rewrite Hexec.
  cbn [snd timers countAttempt withLog countUuid]. rewrite Htimers0.
  cbn [fireTimers busLog uuids draws timers withTimers countAttempt withLog countUuid].
  rewrite Hlog0. cbn [app publishedEvents].
  eexists {| taskId := _; contextId := _; status := _; final := _; metadata := _ |}.
  split; [unfold statusEvent; reflexivity |].
  repeat split.
Qed.
End StreamClosure.

Section ReliableBus.
(** No call on the bus throws. *)
Hypothesis busReliable : forall n log c, busThrows n log c = None.

Lemma streamingLoop_reliable taskId contextId (remaining : nat) :
  forall (i : nat) (w : World),
    exists w',
      streamingLoop taskId contextId remaining i w = (Normal tt, w')
      /\ map summary (publishedEvents (busLog w'))
         = (map summary (publishedEvents (busLog w))
            ++ map progressSummary (seq i remaining))%list
      /\ timers w' = timers w
      /\ now w' = (now w + delayMs * N.of_nat remaining)%N.
Proof.
  induction remaining as [| remaining IH]; intros i w.
  - exists w. cbn [streamingLoop seq map]. rewrite app_nil_r.
    repeat split. cbn. lia.
  - cbn [streamingLoop]. unfold bind at 1. rewrite statusUpdate_run.
    unfold bind at 1. unfold publish. rewrite busCall_accepted by apply busReliable.
    unfold bind at 1. unfold sleep at 1.
    match goal with
    | |- context [streamingLoop _ _ remaining (S i) ?w1] =>
        destruct (IH (S i) w1) as (w' & Hrun & Hlog & Htimers & Hnow)
    end.
    exists w'. split; [exact Hrun |]. split; [| split].
    + rewrite Hlog. cbn [busLog withNow countAttempt withLog countUuid].
      rewrite publishedEvents_app, map_app. cbn [seq map].
      rewrite <- app_assoc. reflexivity.
    + rewrite Htimers. reflexivity.
    + rewrite Hnow. cbn [now withNow countAttempt withLog countUuid]. lia.
Qed.

(** C3.  For a streaming text, on a bus that does not throw, the
    streaming handler publishes exactly eleven events, none of them
    final: the progress texts [Streaming message i/10] for i from 1 to
    10 in this order, then the announcement that streaming finished; it
    returns a completed result; the executor then publishes one final
    event that embeds this result, and nothing is published after it. *)
Theorem streaming_publishes_eleven_progress_events_then_one_final
    (requestContext : RequestContext) (w : World) :
  route (userTextOf requestContext) = Streaming ->
  busLog w = [] ->
  timers w = [] ->
  exists result,
    resultState result = Some completed
    /\ (forall w0, exists w1,
          handleStreamingRequest (userTextOf requestContext) requestContext w0
          = (Normal result, w1)
          /\ map summary (publishedEvents (busLog w1))
             = (map summary (publishedEvents (busLog w0))
                ++ map progressSummary (seq 1 10)
                ++ [ Update working [ TextPart "Streaming finished!" ] false None ])%list)
    /\ map summary (eventsOf requestContext w)
       = (TaskRecord
          :: map progressSummary (seq 1 10)
          ++ [ Update working [ TextPart "Streaming finished!" ] false None;
               Update completed (resultParts result) true (resultMetadata result) ])%list
    /\ oneFinalAtEnd (eventsOf requestContext w).
Proof.
  intros Hroute Hlog0 Htimers0.
  destruct (route_Streaming _ Hroute) as (Hg & Hc & Hw & Ht & Hs).
  assert (Hhandler : forall w0, exists w1,
    handleStreamingRequest (userTextOf requestContext) requestContext w0
    = (Normal
         {| resultParts :=
              [ TextPart
                  ("🚀 Streaming started! You will receive 60 messages via SSE (one per second)."
                   +:+ nl +:+ "Check your /message/stream subscription.") ];
            resultMetadata :=
              Some {[ "creditsUsed" := MInt 5;
                      "planId" := MStr planId;
                      "costDescription" := MStr "Streaming response";
                      "operationType" := MStr "streaming";
                      "streamingType" := MStr "text" ]};
            resultState := Some completed |}, w1)
    /\ map summary (publishedEvents (busLog w1))
       = (map summary (publishedEvents (busLog w0))
          ++ map progressSummary (seq 1 10)
          ++ [ Update working [ TextPart "Streaming finished!" ] false None ])%list
    /\ timers w1 = timers w0).
  { intros w0. unfold handleStreamingRequest. unfold bind at 1.
    destruct (streamingLoop_reliable (requestTaskId requestContext)
                (requestContextId requestContext) totalMessages 1 w0)
      as (w1 & Hloop & Hlog & Htimers & _).
    rewrite Hloop. unfold bind at 1. rewrite statusUpdate_run.
    unfold bind at 1. unfold publish. rewrite busCall_accepted by apply busReliable.
    eexists. split; [reflexivity |]. split.
    - cbn [busLog withNow countAttempt withLog countUuid].
      rewrite publishedEvents_app, map_app, Hlog. rewrite <- app_assoc. reflexivity.
    - rewrite <- Htimers. reflexivity. }
  eexists. split; [| split; [| split]].
  2: { intros w0. destruct (Hhandler w0) as (w1 & Hrun & Hlog & _).
       exists w1. split; [exact Hrun | exact Hlog]. }
  - reflexivity.
  - assert (Hexec : exists w2,
      execute requestContext w = (Normal tt, w2)
      /\ timers w2 = []
      /\ map summary (publishedEvents (busLog w2))
         = (TaskRecord
            :: map progressSummary (seq 1 10)
            ++ [ Update working [ TextPart "Streaming finished!" ] false None;
                 Update completed
                   [ TextPart
                       ("🚀 Streaming started! You will receive 60 messages via SSE (one per second)."
                        +:+ nl +:+ "Check your /message/stream subscription.") ]
                   true
                   (Some {[ "creditsUsed" := MInt 5;
                            "planId" := MStr planId;
                            "costDescription" := MStr "Streaming response";
                            "operationType" := MStr "streaming";
                            "streamingType" := MStr "text" ]}) ])%list).
    { rewrite execute_unfold. unfold tryCatch.
      unfold bind at 1. unfold publish at 1.
      rewrite busCall_accepted by apply busReliable.
      unfold bind at 1. unfold handleTask, tryCatch. rewrite Hg, Hc, Hw, Ht, Hs.
      unfold bind at 1.
      match goal with
      | |- context [handleStreamingRequest _ _ ?w0] =>
          destruct (Hhandler w0) as (w1 & Hrun & Hlog & Htimers)
      end.
      rewrite Hrun. unfold ret at 1. cbn [fst snd].
      unfold bind at 1. rewrite statusUpdate_run.
      unfold bind at 1. unfold publish. rewrite busCall_accepted by apply busReliable.
      unfold finished. rewrite busCall_accepted by apply busReliable.
      eexists. split; [reflexivity |]. split.
      - cbn [timers countAttempt withLog countUuid].
        rewrite Htimers. cbn [timers countAttempt withLog]. exact Htimers0.
      - cbn [busLog withTimers countAttempt withLog countUuid].
        rewrite !publishedEvents_app, !map_app, Hlog.
        cbn [busLog countAttempt withLog]. rewrite Hlog0.
        cbn. reflexivity. }
    destruct Hexec as (w2 & Hrun & Htimers2 & Hlog2).
    unfold eventsOf, runTask. rewrite Hrun. cbn [snd]. rewrite Htimers2.
    cbn [fireTimers busLog withTimers]. exact Hlog2.
  - apply runTask_one_final; auto.
Qed.

(** C4.  For a push-notification text, on a bus that does not throw,
    the handler returns a result in state [working]; [execute] returns
    having published the task record and one working event, no final
    event, and leaves the finalization on a timer; when the timer
    fires, after the wait for the push configuration, exactly one more
    event is published: it is final, completed, and its metadata has
    [creditsUsed = 5]. *)
Theorem push_notification_is_finalized_in_the_background
    (requestContext : RequestContext) (w : World) :
  route (userTextOf requestContext) = PushNotification ->
  busLog w = [] ->
  timers w = [] ->
  (forall w0, exists result w1,
     handlePushNotificationRequest (userTextOf requestContext) requestContext w0
     = (Normal result, w1)
     /\ resultState result = Some working)
  /\ exists w1 u,
       execute requestContext w = (Normal tt, w1)
       /\ map summary (publishedEvents (busLog w1))
          = [ TaskRecord;
              Update working
                [ TextPart "Push notification request received. Waiting for pushNotificationConfig..." ]
                false None ]
       /\ existsb isFinal (publishedEvents (busLog w1)) = false
       /\ timers w1
          = [ ((now w + pushConfigWaitMs)%N,
               FinalizePush (requestTaskId requestContext)
                            (requestContextId requestContext)) ]
       /\ eventsOf requestContext w
          = (publishedEvents (busLog w1) ++ [ StatusUpdate u ])%list
       /\ final u = true
       /\ state (status u) = completed
       /\ (metadata u ≫= lookup "creditsUsed") = Some (MInt 5)
       /\ timestamp (status u) = (now w + pushConfigWaitMs)%N
       /\ oneFinalAtEnd (eventsOf requestContext w).
Proof.
  intros Hroute Hlog0 Htimers0.
  destruct (route_PushNotification _ Hroute) as (Hg & Hc & Hw & Ht & Hs & Hp).
  split.
  { intros w0. unfold handlePushNotificationRequest. unfold bind at 1.
    rewrite statusUpdate_run. unfold bind at 1. unfold publish.
    rewrite busCall_accepted by apply busReliable.
    eexists _, _. split; reflexivity. }
  assert (Hexec : exists w1,
    execute requestContext w = (Normal tt, w1)
    /\ busLog w1
       = [ Publish (TaskEvent (taskRecord requestContext (now w)));
           Publish (statusEvent (requestTaskId requestContext)
                      (requestContextId requestContext) working
                      [ TextPart "Push notification request received. Waiting for pushNotificationConfig..." ]
                      false None (uuidv4 (uuids w)) (now w)) ]
    /\ timers w1
       = [ ((now w + pushConfigWaitMs)%N,
            FinalizePush (requestTaskId requestContext)
                         (requestContextId requestContext)) ]
    /\ now w1 = now w).
  { rewrite execute_unfold. unfold tryCatch. unfold bind at 1. unfold publish at 1.
    rewrite busCall_accepted by apply busReliable.
    unfold bind at 1. unfold handleTask, tryCatch. rewrite Hg, Hc, Hw, Ht, Hs, Hp.
    unfold bind at 1. unfold handlePushNotificationRequest. unfold bind at 1.
    rewrite statusUpdate_run. unfold bind at 1. unfold publish.
    rewrite busCall_accepted by apply busReliable.
    eexists. split; [reflexivity |].
    cbn [busLog timers now withTimers countAttempt withLog countUuid].
    rewrite Hlog0, Htimers0. repeat split. }
  destruct Hexec as (w1 & Hrun & Hlog1 & Htimers1 & Hnow1).
  exists w1.
  eexists {| taskId := _; contextId := _; status := _; final := _; metadata := _ |}.
  split; [exact Hrun |].
  split; [rewrite Hlog1; reflexivity |].
  split; [rewrite Hlog1; reflexivity |].
  split; [exact Htimers1 |].
  split.
  { unfold eventsOf, runTask. rewrite Hrun. cbn [snd]. rewrite Htimers1.
    cbn [fireTimers runJob]. unfold finalizePushNotificationTask.
    unfold bind at 1. rewrite statusUpdate_run. unfold bind at 1. unfold publish.
    rewrite busCall_accepted by apply busReliable.
    unfold finished. rewrite busCall_accepted by apply busReliable.
    cbn [snd busLog now withNow withTimers countAttempt withLog countUuid].
    rewrite !publishedEvents_app. cbn [publishedEvents app].
    rewrite app_nil_r. unfold statusEvent. reflexivity. }
  cbn [final state status metadata timestamp].
  split; [reflexivity |]. split; [reflexivity |]. split; [reflexivity |].
  split; [rewrite Hnow1; lia |].
  apply runTask_one_final; auto.
Qed.

Lemma execute_reliable (requestContext : RequestContext) (w : World) :
  exists r more w2 w3,
    handleTask requestContext (recordPublished requestContext w) = (Normal (r, more), w2)
    /\ progressed (recordPublished requestContext w) w2
    /\ execute requestContext w = (Normal tt, w3)
    /\ ((more = true /\ w3 = w2
         /\ route (userTextOf requestContext) = PushNotification
         /\ timers w2
            = (timers w ++ [ ((now w + pushConfigWaitMs)%N,
                              FinalizePush (requestTaskId requestContext)
                                           (requestContextId requestContext)) ])%list)
        \/ (more = false
            /\ timers w3 = timers w
            /\ busLog w3
               = (busLog w2
                  ++ [ Publish (statusEvent (requestTaskId requestContext)
                                  (requestContextId requestContext)
                                  (default completed (resultState r))
                                  (resultParts r) true (resultMetadata r)
                                  (uuidv4 (uuids w2)) (now w2));
                       Finished ])%list)).
Proof.
  destruct (handleTask_returns requestContext (recordPublished requestContext w))
    as (r & more & w2 & Hrun & Hprog & Hcases).
  exists r, more, w2.
  assert (Hexec : execute requestContext w
                  = (if more then ret tt
                     else
                       finalUpdate <- statusUpdate (requestTaskId requestContext)
                                        (requestContextId requestContext)
                                        (default completed (resultState r))
                                        (resultParts r) true (resultMetadata r) ;;
                       publish finalUpdate ;;
                       finished) w2).
  { rewrite execute_unfold. unfold tryCatch. unfold bind at 1. unfold publish at 1.
    rewrite busCall_accepted by apply busReliable.
    unfold bind at 1. unfold recordPublished in Hrun. rewrite Hrun. cbn [fst snd].
    destruct more.
    - reflexivity.
    - unfold bind at 1. rewrite statusUpdate_run. unfold bind at 1. unfold publish.
      rewrite busCall_accepted by apply busReliable.
      unfold finished. rewrite busCall_accepted by apply busReliable.
      unfold bind at 1. rewrite statusUpdate_run. unfold bind at 1.
      rewrite busCall_accepted by apply busReliable.
      rewrite busCall_accepted by apply busReliable. reflexivity. }
  destruct Hcases as [(-> & Htimers & _) | (-> & Htimers)].
  - eexists. split; [exact Hrun |]. split; [exact Hprog |].
    split.
    { rewrite Hexec. unfold bind at 1. rewrite statusUpdate_run. unfold bind at 1.
      unfold publish. rewrite busCall_accepted by apply busReliable.
      unfold finished. rewrite busCall_accepted by apply busReliable. reflexivity. }
    right. split; [reflexivity |].
    cbn [timers busLog countAttempt withLog countUuid].
    split; [rewrite Htimers; reflexivity |].
    rewrite <- app_assoc. reflexivity.
  - exists w2. split; [exact Hrun |]. split; [exact Hprog |].
    split; [exact Hexec |].
    left. split; [reflexivity |]. split; [reflexivity |].
    split; [exact (handleTask_more_is_push _ _ _ _ _ Hrun eq_refl) |].
    rewrite Htimers. reflexivity.
Qed.

(** X9.  On a bus that does not throw, every task that starts with an
    empty bus and no pending timer ends with a final status update that
    bills it: the update is completed and its [creditsUsed] is the price
    of the branch the text takes (5 for a push-notification task, billed
    by the background finalization), or it is failed and its [creditsUsed]
    is 1. *)
Theorem the_final_event_bills_the_task (requestContext : RequestContext) (w : World) :
  busLog w = [] ->
  timers w = [] ->
  exists before u,
    eventsOf requestContext w = (before ++ [ StatusUpdate u ])%list
    /\ final u = true
    /\ ((state (status u) = completed
         /\ chargedCredits (metadata u)
            = Some (creditCost (route (userTextOf requestContext))))
        \/ (state (status u) = failed /\ chargedCredits (metadata u) = Some 1)).
Proof.
  intros Hlog0 Htimers0.
  destruct (execute_reliable requestContext w)
    as (r & more & w2 & w3 & Hrun & _ & Hexec
        & [(-> & -> & Hroute & Htimers) | (-> & Htimers & Hlog)]).
  - unfold eventsOf, runTask. rewrite Hexec. cbn [snd]. rewrite Htimers, Htimers0.
    cbn [app fireTimers runJob]. unfold finalizePushNotificationTask.
    unfold bind at 1. rewrite statusUpdate_run. unfold bind at 1. unfold publish.
    rewrite busCall_accepted by apply busReliable.
    unfold finished. rewrite busCall_accepted by apply busReliable.
    cbn [snd busLog now withNow withTimers countAttempt withLog countUuid].
    rewrite !publishedEvents_app. cbn [publishedEvents app]. rewrite app_nil_r.
    eexists _, {| taskId := _; contextId := _; status := _; final := _; metadata := _ |}.
    split; [unfold statusEvent; reflexivity |].
    split; [reflexivity |]. left. rewrite Hroute. split; reflexivity.
  - unfold eventsOf, runTask. rewrite Hexec. cbn [snd]. rewrite Htimers, Htimers0.
    cbn [fireTimers busLog withTimers]. rewrite Hlog.
    rewrite publishedEvents_app. cbn [publishedEvents].
    eexists _, {| taskId := _; contextId := _; status := _; final := _; metadata := _ |}.
    split; [unfold statusEvent; reflexivity |].
    split; [reflexivity |]. cbn [state status metadata].
    destruct (handleTask_credit_table _ _ _ _ Hrun) as [[Hs Hc] | [Hs Hc]]; rewrite Hs.
    + left. split; [reflexivity | exact Hc].
    + right. split; [reflexivity | exact Hc].
Qed.

Lemma streamingLoop_stamps taskId contextId (remaining : nat) :
  forall (i : nat) (w : World),
    exists w',
      streamingLoop taskId contextId remaining i w = (Normal tt, w')
      /\ map stampOf (publishedEvents (busLog w'))
         = (map stampOf (publishedEvents (busLog w))
            ++ map (streamStamp w) (seq 0 remaining))%list
      /\ uuids w' = (uuids w + remaining)%nat
      /\ now w' = (now w + delayMs * N.of_nat remaining)%N.
Proof.
  induction remaining as [| remaining IH]; intros i w.
  - exists w. cbn [streamingLoop seq map]. rewrite app_nil_r.
    repeat split; [lia | cbn; lia].
  - cbn [streamingLoop]. unfold bind at 1. rewrite statusUpdate_run.
    unfold bind at 1. unfold publish. rewrite busCall_accepted by apply busReliable.
    unfold bind at 1. unfold sleep at 1.
    match goal with
    | |- context [streamingLoop _ _ remaining (S i) ?w1] =>
        destruct (IH (S i) w1) as (w' & Hrun & Hlog & Huuids & Hnow)
    end.
    exists w'. split; [exact Hrun |]. split; [| split].
    + rewrite Hlog. cbn [busLog withNow countAttempt withLog countUuid].
      rewrite publishedEvents_app, map_app. cbn [publishedEvents map seq].
      rewrite <- app_assoc. f_equal. cbn [app]. f_equal.
      * unfold stampOf, statusEvent, streamStamp. cbn.
        f_equal. f_equal; [f_equal; lia | lia].
      * rewrite <- seq_shift, map_map. apply map_ext. intros k.
        unfold streamStamp. cbn [uuids now withNow countAttempt withLog countUuid].
        f_equal. f_equal; [f_equal; lia | lia].
    + rewrite Huuids. cbn [uuids withNow countAttempt withLog countUuid]. lia.
    + rewrite Hnow. cbn [now withNow countAttempt withLog countUuid]. lia.
Qed.

(** X10.  The time line of a streaming task on a bus that does not throw,
    started at time [t] with an empty bus and no pending timer, on a clock
    that a delay advances by its length and computing does not advance:
    the task record comes first; the progress event number [k] (from 1 to 10) is
    stamped [t + 1000 (k - 1)] milliseconds; the event that announces the
    end of the stream and the final event are both stamped [t + 10000];
    and the twelve status updates carry twelve successive ids drawn from
    [uuidv4]. *)
Theorem streaming_events_are_stamped_one_second_apart
    (requestContext : RequestContext) (w : World) :
  route (userTextOf requestContext) = Streaming ->
  busLog w = [] ->
  timers w = [] ->
  map stampOf (eventsOf requestContext w)
  = (None
     :: map (fun k => Some (uuidv4 (uuids w + k)%nat, (now w + 1000 * N.of_nat k)%N))
            (seq 0 10)
     ++ [ Some (uuidv4 (uuids w + 10)%nat, (now w + 10000)%N);
          Some (uuidv4 (uuids w + 11)%nat, (now w + 10000)%N) ])%list.
Proof.
  intros Hroute Hlog0 Htimers0.
  destruct (route_Streaming _ Hroute) as (Hg & Hc & Hw & Ht & Hs).
  assert (Hexec : exists w3,
    execute requestContext w = (Normal tt, w3)
    /\ timers w3 = []
    /\ map stampOf (publishedEvents (busLog w3))
       = (None
          :: map (streamStamp w) (seq 0 10)
          ++ [ streamStamp w 10;
               Some (uuidv4 (uuids w + 11)%nat, (now w + 10000)%N) ])%list).
  { rewrite execute_unfold. unfold tryCatch.
    unfold bind at 1. unfold publish at 1.
    rewrite busCall_accepted by apply busReliable.
    unfold bind at 1. unfold handleTask, tryCatch. rewrite Hg, Hc, Hw, Ht, Hs.
    unfold bind at 1. unfold handleStreamingRequest. unfold bind at 1.
    match goal with
    | |- context [streamingLoop ?t ?c totalMessages 1 ?w0] =>
        destruct (streamingLoop_stamps t c totalMessages 1 w0)
          as (w1 & Hloop & Hstamps & Huuids & Hnow);
        pose proof (streamingLoop_reliable t c totalMessages 1 w0)
          as (w1' & Hloop' & _ & Htimers & _)
    end.
    rewrite Hloop in Hloop'. injection Hloop' as <-.
    rewrite Hloop. unfold bind at 1. rewrite statusUpdate_run.
    unfold bind at 1. unfold publish. rewrite busCall_accepted by apply busReliable.
    unfold ret at 1. unfold ret at 1. cbn [fst snd].
    unfold bind at 1. rewrite statusUpdate_run.
    unfold bind at 1. rewrite busCall_accepted by apply busReliable.
    unfold finished. rewrite busCall_accepted by apply busReliable.
    eexists. split; [reflexivity |]. split.
    - cbn [timers countAttempt withLog countUuid]. rewrite Htimers.
      cbn [timers countAttempt withLog]. exact Htimers0.
    - cbn [busLog withTimers countAttempt withLog countUuid].
      rewrite !publishedEvents_app, !map_app, Hstamps.
      cbn [busLog uuids now countAttempt withLog countUuid] in *.
      rewrite Hlog0. cbn [app publishedEvents map stampOf].
      rewrite <- !app_assoc. f_equal. f_equal.
      cbn [publishedEvents map app].
      unfold stampOf, statusEvent, streamStamp. cbn [message status messageId agentMessage timestamp].
      cbn [uuids now countAttempt withLog countUuid].
      rewrite Huuids, Hnow. unfold totalMessages, delayMs.
      replace (S (uuids w + 10)) with (uuids w + 11)%nat by lia.
      replace (1000 * N.of_nat 10)%N with 10000%N by reflexivity.
      reflexivity. }
  destruct Hexec as (w3 & Hrun & Htimers3 & Hstamps3).
  unfold eventsOf, runTask. rewrite Hrun. cbn [snd]. rewrite Htimers3.
  cbn [fireTimers busLog withTimers]. rewrite Hstamps3.
  unfold streamStamp, delayMs. reflexivity.
Qed.

End ReliableBus.

End Executor.

(** ** Facts on binary64 rounding *)

Module JsNumberFacts.
Import JsNumber.

Lemma digits2_pos_bounds (p : positive) :
  2 ^ (Zpos (digits2_pos p) - 1) <= Zpos p < 2 ^ Zpos (digits2_pos p).
Proof.
  induction p as [p IH | p IH |]; cbn [digits2_pos].
  - rewrite Pos2Z.inj_succ.
    replace (Z.succ (Zpos (digits2_pos p)) - 1) with (Z.succ (Zpos (digits2_pos p) - 1)) by lia.
    rewrite !Z.pow_succ_r by lia. lia.
  - rewrite Pos2Z.inj_succ.
    replace (Z.succ (Zpos (digits2_pos p)) - 1) with (Z.succ (Zpos (digits2_pos p) - 1)) by lia.
    rewrite !Z.pow_succ_r by lia. lia.
  - cbn. lia.
Qed.

Lemma shr_1_spec (m : Z) (r s : bool) :
  0 <= m ->
  let mrs := shr_1 {| shr_m := m; shr_r := r; shr_s := s |} in
  0 <= shr_m mrs /\ m = 2 * shr_m mrs + (if shr_r mrs then 1 else 0).
Proof.
  intros Hm. destruct m as [| [p | p |] | p]; cbn; lia.
Qed.

Section IterPos.
Context {A : Type} (f : A -> A) (Inv : nat -> A -> Prop).
Hypothesis step : forall k x, Inv k x -> Inv (S k) (f x).

Lemma iter_pos_invariant (p : positive) :
  forall k x, Inv k x -> Inv (k + Pos.to_nat p)%nat (SpecFloat.iter_pos f p x).
Proof.
  induction p as [p IH | p IH |]; intros k x H; cbn [SpecFloat.iter_pos].
  - rewrite Pos2Nat.inj_xI.
    replace (k + S (2 * Pos.to_nat p))%nat with (S k + Pos.to_nat p + Pos.to_nat p)%nat by lia.
    apply IH, IH, step, H.
  - rewrite Pos2Nat.inj_xO.
    replace (k + 2 * Pos.to_nat p)%nat with (k + Pos.to_nat p + Pos.to_nat p)%nat by lia.
    apply IH, IH, H.
  - replace (k + Pos.to_nat 1)%nat with (S k) by lia. apply step, H.
Qed.
End IterPos.

Lemma shrInv_step (m0 : Z) (k : nat) (mrs : shr_record) :
  shrInv m0 k mrs -> shrInv m0 (S k) (shr_1 mrs).
Proof.
  destruct mrs as [m r s]. intros (Hm & Hle & _).
  destruct (shr_1_spec m r s Hm) as [Hm' Heq]. cbn [shr_m] in *.
  set (mrs' := shr_1 {| shr_m := m; shr_r := r; shr_s := s |}) in *.
  unfold shrInv. rewrite Nat2Z.inj_succ, Z.pow_succ_r by lia.
  replace (Z.succ (Z.of_nat k) - 1) with (Z.of_nat k) by lia.
  assert (Hpow : 0 < 2 ^ Z.of_nat k) by (apply Z.pow_pos_nonneg; lia).
  split; [exact Hm' |]. split.
  - destruct (shr_r mrs'); nia.
  - intros Hr. rewrite Hr in Heq. split; [lia | nia].
Qed.

Lemma shr_spec (m0 e n : Z) :
  0 <= m0 ->
  let '(mrs, e') := shr {| shr_m := m0; shr_r := false; shr_s := false |} e n in
  e' = e + Z.max 0 n
  /\ 0 <= shr_m mrs
  /\ shr_m mrs * 2 ^ (Z.max 0 n) <= m0
  /\ (shr_r mrs = true -> 1 <= n /\ shr_m mrs * 2 ^ n + 2 ^ (n - 1) <= m0).
Proof.
  intros Hm0. unfold shr. destruct n as [| p | p].
  - cbn [shr_m shr_r]. replace (Z.max 0 0) with 0 by lia. rewrite Z.pow_0_r.
    split; [lia |]. split; [lia |]. split; [lia |].
    intros Hr. discriminate Hr.
  - assert (H0 : shrInv m0 0 {| shr_m := m0; shr_r := false; shr_s := false |}).
    { unfold shrInv. cbn [shr_m shr_r Z.of_nat]. rewrite Z.pow_0_r.
      split; [lia |]. split; [lia |].
      intros Hr. discriminate Hr. }
    pose proof (iter_pos_invariant shr_1 (shrInv m0) (shrInv_step m0) p 0%nat _ H0) as H.
    cbn [Nat.add] in H. unfold shrInv in H. rewrite positive_nat_Z in H.
    destruct H as (H1 & H2 & H3).
    replace (Z.max 0 (Z.pos p)) with (Z.pos p) by lia.
    split; [lia |]. split; [exact H1 |]. split; [exact H2 |].
    intros Hr. destruct (H3 Hr) as [Hk Hhalf]. split; [lia | exact Hhalf].
  - cbn [shr_m shr_r]. replace (Z.max 0 (Z.neg p)) with 0 by lia. rewrite Z.pow_0_r.
    split; [lia |]. split; [lia |]. split; [lia |].
    intros Hr. discriminate Hr.
Qed.

Lemma round_nearest_even_le (mrs : shr_record) :
  let q' := round_nearest_even (shr_m mrs) (loc_of_shr_record mrs) in
  q' = shr_m mrs \/ (shr_r mrs = true /\ q' = shr_m mrs + 1).
Proof.
  destruct mrs as [m [|] [|]]; cbn; auto.
  destruct (Z.even m); auto.
Qed.


Lemma pow2_split (a b : Z) : 0 <= a -> 0 <= b -> 2 ^ (a + b) = 2 ^ a * 2 ^ b.
Proof. intros. apply Z.pow_add_r; assumption. Qed.

Lemma pow2_pos (a : Z) : 0 <= a -> 0 < 2 ^ a.
Proof. intros. apply Z.pow_pos_nonneg; lia. Qed.

Lemma pow2_mono (a b : Z) : 0 <= a <= b -> 2 ^ a <= 2 ^ b.
Proof. intros. apply Z.pow_le_mono_r; lia. Qed.

(** The binary64 product of a draw [m * 2^e] below one and a constant
    [mc * 2^ec = C] whose mantissa is not a power of two: it is not
    negative and its integer part is below [C]. *)
Lemma mul_below (m mc : positive) (e ec C : Z) :
  bounded prec emax m e = true ->
  e <= -53 ->
  2 ^ 52 < Zpos mc < 2 ^ 53 ->
  ec < 0 ->
  1 <= C ->
  Zpos mc = C * 2 ^ (- ec) ->
  belowInt C (SFmul prec emax (S754_finite false m e) (S754_finite false mc ec)).
Proof.
  intros Hb He Hmc Hec HC HmcC.
  unfold bounded, canonical_mantissa in Hb.
  apply andb_true_iff in Hb as [Hcanon _]. apply Z.eqb_eq in Hcanon.
  unfold fexp, emin, prec, emax in Hcanon.
  pose proof (digits2_pos_bounds m) as Hdm.
  assert (Hd53 : Zpos (digits2_pos m) <= 53) by lia.
  assert (Hemin : -1074 <= e) by lia.
  assert (Hm : Zpos m + 1 <= 2 ^ (- e)).
  { pose proof (pow2_mono (Zpos (digits2_pos m)) 53 ltac:(lia)).
    pose proof (pow2_mono 53 (- e) ltac:(lia)). lia. }
  (* the exponent of the constant *)
  assert (Hec52 : - ec <= 52).
  { destruct (Z_le_gt_dec (- ec) 52) as [H | H]; [exact H |].
    pose proof (pow2_mono 53 (- ec) ltac:(lia)). nia. }
  cbn [SFmul xorb]. unfold binary_round_aux.
  set (P := Zpos (m * mc)). set (ex := e + ec).
  assert (HP : P = Zpos m * Zpos mc) by reflexivity.
  assert (HPpos : 0 <= P) by lia.
  unfold shr_fexp at 1. cbn [shr_record_of_loc].
  set (n1 := fexp prec emax (Zdigits2 P + ex) - ex).
  assert (Hn1 : n1 <= 53).
  { unfold n1, fexp, emin, prec, emax, P. cbn [Zdigits2].
    pose proof (digits2_pos_bounds (m * mc)) as Hd.
    assert (Zpos (m * mc) < 2 ^ 106).
    { rewrite Pos2Z.inj_mul. change (2 ^ 106) with (2 ^ 53 * 2 ^ 53).
      pose proof (pow2_mono (Zpos (digits2_pos m)) 53 ltac:(lia)). nia. }
    assert (Zpos (digits2_pos (m * mc)) <= 106).
    { destruct (Z_le_gt_dec (Zpos (digits2_pos (m * mc))) 106) as [H1 | H1]; [exact H1 |].
      pose proof (pow2_mono 106 (Zpos (digits2_pos (m * mc)) - 1) ltac:(lia)). lia. }
    unfold ex. lia. }
  pose proof (shr_spec P ex n1 HPpos) as Hshr1.
  destruct (shr {| shr_m := P; shr_r := false; shr_s := false |} ex n1) as [mrs1 e1].
  destruct Hshr1 as (He1 & Hq0 & Hqle & Hqr). cbv beta iota.
  pose proof (round_nearest_even_le mrs1) as Hround. cbn zeta in Hround.
  set (q' := round_nearest_even (shr_m mrs1) (loc_of_shr_record mrs1)) in *.
  assert (Hq'0 : 0 <= q') by (destruct Hround as [-> | [_ ->]]; lia).
  (* the rounded mantissa stays below the next multiple of the constant *)
  assert (Hq' : q' * 2 ^ (Z.max 0 n1) < P + Zpos mc).
  { destruct Hround as [-> | [Hr ->]]; [lia |].
    destruct (Hqr Hr) as [Hn Hhalf].
    replace (Z.max 0 n1) with n1 by lia.
    assert (2 ^ n1 = 2 * 2 ^ (n1 - 1)).
    { replace n1 with (Z.succ (n1 - 1)) at 1 by lia. apply Z.pow_succ_r. lia. }
    pose proof (pow2_mono (n1 - 1) 52 ltac:(lia)). nia. }
  unfold shr_fexp. cbn [shr_record_of_loc].
  set (n2 := fexp prec emax (Zdigits2 q' + e1) - e1).
  pose proof (shr_spec q' e1 n2 Hq'0) as Hshr2.
  destruct (shr {| shr_m := q'; shr_r := false; shr_s := false |} e1 n2) as [mrs2 e2].
  destruct Hshr2 as (He2 & Hm2 & Hm2le & _). cbv beta iota.
  (* the value of the result is below C *)
  set (d1 := Z.max 0 n1) in *. set (d2 := Z.max 0 n2) in *.
  assert (Hd1 : 0 <= d1) by (unfold d1; lia).
  assert (Hd2 : 0 <= d2) by (unfold d2; lia).
  assert (Hval : shr_m mrs2 * 2 ^ (d1 + d2) < C * 2 ^ (- ex)).
  { rewrite (pow2_split d1 d2) by assumption.
    pose proof (pow2_pos d1 Hd1). pose proof (pow2_pos d2 Hd2).
    unfold ex. replace (- (e + ec)) with (- ec + - e) by lia.
    rewrite (pow2_split (- ec) (- e)) by lia.
    pose proof (pow2_pos (- e) ltac:(lia)).
    assert (P + Zpos mc <= Zpos mc * 2 ^ (- e)) by nia.
    nia. }
  destruct (shr_m mrs2) as [| m2 | m2] eqn:Em2; [reflexivity | | lia].
  assert (He2ex : e2 = ex + (d1 + d2)) by lia.
  assert (He2small : e2 < 53).
  { destruct (Z_lt_ge_dec e2 53) as [H | H]; [exact H |].
    assert (- ex <= d1 + d2) by lia.
    pose proof (pow2_mono (- ex) (d1 + d2) ltac:(unfold ex; lia)).
    pose proof (pow2_pos (- ex) ltac:(unfold ex; lia)).
    assert (C < 2 ^ 53).
    { pose proof (pow2_pos (- ec) ltac:(lia)). nia. }
        assert (2 ^ (d1 + d2) = 2 ^ (- ex) * 2 ^ e2).
    { rewrite <- pow2_split by (unfold ex; lia). f_equal. lia. }
    pose proof (pow2_mono 53 e2 ltac:(lia)). nia. }
  replace (e2 <=? emax - prec) with true by (symmetry; apply Z.leb_le; unfold emax, prec; lia).
  split; [reflexivity |].
  unfold floorInt. destruct (Z.leb_spec 0 e2) as [Hpos | Hneg].
  - assert (2 ^ (d1 + d2) = 2 ^ (- ex) * 2 ^ e2).
    { rewrite <- pow2_split by (unfold ex; lia). f_equal. lia. }
    pose proof (pow2_pos (- ex) ltac:(unfold ex; lia)).
    pose proof (pow2_pos e2 Hpos). nia.
  - assert (2 ^ (- ex) = 2 ^ (d1 + d2) * 2 ^ (- e2)).
    { rewrite <- pow2_split by lia. f_equal. lia. }
    pose proof (pow2_pos (d1 + d2) ltac:(lia)).
    pose proof (pow2_pos (- e2) ltac:(lia)).
    split.
    + apply Z.div_pos; lia.
    + assert (Z.pos m2 / 2 ^ (- e2) < C); [| lia].
      apply Z.div_lt_upper_bound; [lia |]. nia.
Qed.

(** A value [Math.random()] may return is a zero, or a positive finite
    value in canonical form whose exponent is at most -53. *)
Lemma unitDraw_cases (r : spec_float) :
  isUnitDraw r = true ->
  (exists s, r = S754_zero s)
  \/ (exists m e, r = S754_finite false m e
                 /\ bounded prec emax m e = true /\ e <= -53).
Proof.
  unfold isUnitDraw. intros H.
  replace (ofZ 1) with (S754_finite false 4503599627370496 (-52)) in H
    by (vm_compute; reflexivity).
  apply andb_true_iff in H as [H Hlt]. apply andb_true_iff in H as [Hvalid Hle].
  destruct r as [s | s | | s m e].
  - left. exists s. reflexivity.
  - destruct s; [discriminate Hle | discriminate Hlt].
  - discriminate Hle.
  - right. destruct s; [discriminate Hle |].
    exists m, e. split; [reflexivity |]. split; [exact Hvalid |].
    unfold SFltb, SFcompare in Hlt.
    destruct (Z.compare_spec e (-52)) as [Heq | Hlow | Hhigh].
    + exfalso. subst e. cbn [valid_binary] in Hvalid.
      unfold bounded, canonical_mantissa in Hvalid.
      apply andb_true_iff in Hvalid as [Hcanon _]. apply Z.eqb_eq in Hcanon.
      unfold fexp, emin, prec, emax in Hcanon.
      pose proof (digits2_pos_bounds m) as Hd.
      assert (Hd53 : Zpos (digits2_pos m) = 53) by lia.
      rewrite Hd53 in Hd.
      assert (Hpow : 2 ^ (53 - 1) = 4503599627370496) by (vm_compute; reflexivity).
      rewrite Hpow in Hd.
      destruct (Pos.compare_cont Eq m 4503599627370496) eqn:Hcmp;
        try discriminate Hlt.
      assert (Hm : Z.pos m < 4503599627370496) by (apply Pos2Z.pos_lt_pos; exact Hcmp).
      clear - Hd Hm. lia.
    + lia.
    + discriminate Hlt.
Qed.

(** [Math.floor(Math.random() * C)] for a constant [C] whose mantissa is
    not a power of two: an integer from 0 to [C - 1], or the negative
    zero when the draw is the negative zero. *)
Lemma floor_mul_unitDraw (r : spec_float) (C : Z) (mc : positive) (ec : Z) :
  isUnitDraw r = true ->
  ofZ C = S754_finite false mc ec ->
  2 ^ 52 < Zpos mc < 2 ^ 53 ->
  ec < 0 ->
  1 <= C ->
  Zpos mc = C * 2 ^ (- ec) ->
  (exists k, 0 <= k <= C - 1 /\ floor (mul r (ofZ C)) = ofZ k)
  \/ floor (mul r (ofZ C)) = S754_zero true.
Proof.
  intros Hr HC Hmc Hec H1 HmcC. rewrite HC.
  destruct (unitDraw_cases r Hr) as [[s ->] | (m & e & -> & Hb & He)].
  - destruct s; [right; reflexivity |].
    left. exists 0. split; [lia | reflexivity].
  - pose proof (mul_below m mc e ec C Hb He Hmc Hec H1 HmcC) as Hbelow.
    unfold mul. left.
    destruct (SFmul prec emax (S754_finite false m e) (S754_finite false mc ec))
      as [s | s | | s m' e']; cbn [belowInt] in Hbelow; try contradiction.
    + subst s. exists 0. split; [lia | reflexivity].
    + destruct Hbelow as [-> Hk]. exists (floorInt false m' e').
      split; [exact Hk | reflexivity].
Qed.

(** Additions and integer readings of the small integers, by
    enumeration. *)
Lemma small_integers (k : Z) :
  0 <= k < 64 ->
  add (ofZ k) (ofZ 5) = ofZ (k + 5)
  /\ add (ofZ k) (ofZ 30) = ofZ (k + 30)
  /\ toInteger (ofZ k) = Some k
  /\ toInteger (ofZ (k + 5)) = Some (k + 5)
  /\ toInteger (ofZ (k + 30)) = Some (k + 30).
Proof.
  intros H. destruct k as [| p | p]; [vm_compute; repeat split; reflexivity | | lia].
  do 6 (try destruct p as [p | p |]); try lia; vm_compute; repeat split; reflexivity.
Qed.

(** [Math.floor(Math.random() * C) + a] for the constants and offsets of
    the weather simulation: an integer from [a] to [a + C - 1]. *)
Lemma floor_mul_plus (r : spec_float) (C a : Z) (mc : positive) (ec : Z) :
  isUnitDraw r = true ->
  ofZ C = S754_finite false mc ec ->
  2 ^ 52 < Zpos mc < 2 ^ 53 ->
  ec < 0 ->
  1 <= C <= 64 ->
  Zpos mc = C * 2 ^ (- ec) ->
  a = 5 \/ a = 30 ->
  exists t,
    toInteger (add (floor (mul r (ofZ C))) (ofZ a)) = Some t
    /\ a <= t <= a + C - 1.
Proof.
  intros Hr HC Hmc Hec H1 HmcC Ha.
  destruct (floor_mul_unitDraw r C mc ec Hr HC Hmc Hec ltac:(lia) HmcC)
    as [(k & Hk & ->) | ->].
  - destruct (small_integers k ltac:(lia)) as (H5 & H30 & _ & T5 & T30).
    destruct Ha as [-> | ->].
    + exists (k + 5). rewrite H5, T5. split; [reflexivity | lia].
    + exists (k + 30). rewrite H30, T30. split; [reflexivity | lia].
  - exists a. split; [| lia].
    destruct Ha as [-> | ->]; vm_compute; reflexivity.
Qed.

(** [list[Math.floor(Math.random() * list.length)]] for a list of six
    elements: one of its elements. *)
Lemma index_six {A} (l : list A) (r : spec_float) :
  isUnitDraw r = true ->
  length l = 6%nat ->
  exists x, index l (floor (mul r (ofZ (Z.of_nat (length l))))) = Some x /\ In x l.
Proof.
  intros Hr Hlen. rewrite Hlen.
  assert (Hfloor : (exists k, 0 <= k <= 5
                              /\ toInteger (floor (mul r (ofZ (Z.of_nat 6)))) = Some k)).
  { destruct (floor_mul_unitDraw r 6 6755399441055744 (-50) Hr
                ltac:(vm_compute; reflexivity) ltac:(vm_compute; split; reflexivity)
                ltac:(lia) ltac:(lia) ltac:(vm_compute; reflexivity))
      as [(k & Hk & E) | E].
    - exists k. split; [lia |]. change (Z.of_nat 6) with 6. rewrite E.
      apply (small_integers k). lia.
    - exists 0. split; [lia |]. change (Z.of_nat 6) with 6. rewrite E. reflexivity. }
  destruct Hfloor as (k & Hk & Hint). unfold index. rewrite Hint.
  destruct (Z.leb_spec 0 k) as [_ | Hneg]; [| lia].
  destruct (nth_error l (Z.to_nat k)) as [x |] eqn:Hnth.
  - exists x. split; [reflexivity |]. eapply nth_error_In, Hnth.
  - apply nth_error_None in Hnth. lia.
Qed.

Lemma temperature_range (r : spec_float) :
  isUnitDraw r = true ->
  exists t, toInteger (add (floor (mul r (ofZ 30))) (ofZ 5)) = Some t /\ 5 <= t <= 34.
Proof.
  intros Hr.
  destruct (floor_mul_plus r 30 5 8444249301319680 (-48) Hr
              ltac:(vm_compute; reflexivity) ltac:(vm_compute; split; reflexivity)
              ltac:(lia) ltac:(lia) ltac:(vm_compute; reflexivity)
              ltac:(left; reflexivity)) as (t & Ht & Hrange).
  exists t. split; [exact Ht | lia].
Qed.

Lemma humidity_range (r : spec_float) :
  isUnitDraw r = true ->
  exists h, toInteger (add (floor (mul r (ofZ 40))) (ofZ 30)) = Some h /\ 30 <= h <= 69.
Proof.
  intros Hr.
  destruct (floor_mul_plus r 40 30 5629499534213120 (-47) Hr
              ltac:(vm_compute; reflexivity) ltac:(vm_compute; split; reflexivity)
              ltac:(lia) ltac:(lia) ltac:(vm_compute; reflexivity)
              ltac:(right; reflexivity)) as (h & Hh & Hrange).
  exists h. split; [exact Hh | lia].
Qed.

Lemma wind_range (r : spec_float) :
  isUnitDraw r = true ->
  exists v, toInteger (add (floor (mul r (ofZ 20))) (ofZ 5)) = Some v /\ 5 <= v <= 24.
Proof.
  intros Hr.
  destruct (floor_mul_plus r 20 5 5629499534213120 (-48) Hr
              ltac:(vm_compute; reflexivity) ltac:(vm_compute; split; reflexivity)
              ltac:(lia) ltac:(lia) ltac:(vm_compute; reflexivity)
              ltac:(left; reflexivity)) as (v & Hv & Hrange).
  exists v. split; [exact Hv | lia].
Qed.

End JsNumberFacts.

(** ** The weather simulation *)

(** C10.  Whatever values in [0, 1) the random draws take,
    [simulateWeatherAPI] returns an integer temperature from 5 to 34, an
    integer humidity from 30 to 69 and an integer wind speed from 5 to 24:
    the upper endpoints 35, 70 and 25 are never produced.  The condition
    is one of the six of the list. *)
Theorem weather_numbers_never_reach_the_upper_endpoints
    (random : nat -> spec_float) (location : string) (w : World) :
  (forall k, JsNumber.isUnitDraw (random k) = true) ->
  exists data w' t h v c,
    simulateWeatherAPI random location w = (Normal data, w')
    /\ JsNumber.toInteger (temperature data) = Some t /\ 5 <= t <= 34
    /\ JsNumber.toInteger (humidity data) = Some h /\ 30 <= h <= 69
    /\ JsNumber.toInteger (windSpeed data) = Some v /\ 5 <= v <= 24
    /\ temperature data <> JsNumber.ofZ 35
    /\ humidity data <> JsNumber.ofZ 70
    /\ windSpeed data <> JsNumber.ofZ 25
    /\ description data = Some c /\ In c conditions.
Proof.
  intros Hdraw.
  destruct (JsNumberFacts.index_six conditions (random (draws w)) (Hdraw _) eq_refl)
    as (c & Hc & Hin).
  destruct (JsNumberFacts.temperature_range (random (S (draws w))) (Hdraw _))
    as (t & Ht & Htr).
  destruct (JsNumberFacts.humidity_range (random (S (S (draws w)))) (Hdraw _))
    as (h & Hh & Hhr).
  destruct (JsNumberFacts.wind_range (random (S (S (S (draws w))))) (Hdraw _))
    as (v & Hv & Hvr).
  eexists _, _, t, h, v, c.
  split; [unfold simulateWeatherAPI, bind, mathRandom, dateNow, ret; reflexivity |].
  cbn [temperature humidity windSpeed description draws].
  split; [exact Ht |]. split; [lia |].
  split; [exact Hh |]. split; [lia |].
  split; [exact Hv |]. split; [lia |].
  split; [intros E; rewrite E in Ht; vm_compute in Ht; injection Ht as <-; lia |].
  split; [intros E; rewrite E in Hh; vm_compute in Hh; injection Hh as <-; lia |].
  split; [intros E; rewrite E in Hv; vm_compute in Hv; injection Hv as <-; lia |].
  split; [exact Hc | exact Hin].
Qed.

(** ** What [eval] is given *)

(** X12.  The string the calculation handler gives to [eval] is never
    empty and holds only digits, the operators [+ - * /], parentheses and
    dots: no letter reaches [eval].  So two evaluators that agree on such
    strings give the same result for every text. *)
Theorem eval_is_given_expression_characters_only
    (planId : string) (eval1 eval2 : string -> Completion JsValue) (userText : string) :
  (forall e, e <> "" -> allClass JsString.isExpressionChar e = true -> eval1 e = eval2 e) ->
  allClass JsString.isExpressionChar (extractExpression userText) = true
  /\ handleCalculation planId eval1 userText = handleCalculation planId eval2 userText.
Proof.
  intros Hagree.
  assert (Hclass : allClass JsString.isExpressionChar (extractExpression userText) = true)
    by apply keepClass_allClass.
  split; [exact Hclass |].
  unfold handleCalculation.
  destruct (String.eqb (extractExpression userText) "") eqn:E; [reflexivity |].
  rewrite (Hagree (extractExpression userText)); [reflexivity | | exact Hclass].
  intros E0. rewrite E0 in E. discriminate E.
Qed.

(** ** The weather handler *)

Lemma weather_in_location (city : string) :
  JsString.trim (JsString.removeFirst weatherPattern ("Weather in " +:+ city))
  = JsString.trim city.
Proof.
  replace (JsString.removeFirst weatherPattern ("Weather in " +:+ city))
    with (JsString.dropSpaces city) by (vm_compute; reflexivity).
  unfold JsString.trim. rewrite dropSpaces_idem. reflexivity.
Qed.

(** X13.  For the text [Weather in ] followed by any [city], whatever
    values in [0, 1) the random draws take: when the city is blank the
    weather handler returns the failed result with one credit and draws
    nothing; otherwise it returns a completed result with three credits
    that records the trimmed city as location and weather data for it
    with a temperature from 5 to 34, a humidity from 30 to 69, a wind
    speed from 5 to 24 and one of the six conditions, having drawn four
    random numbers and published nothing. *)
Theorem weather_in_a_city_reports_that_city
    (planId : string) (numberToString : spec_float -> string)
    (random : nat -> spec_float) (city : string) (w : World) :
  (forall k, JsNumber.isUnitDraw (random k) = true) ->
  (JsString.trim city = ""
   /\ handleWeatherRequest planId numberToString random ("Weather in " +:+ city) w
      = (Normal (missingLocationError planId), w))
  \/ (JsString.trim city <> ""
      /\ exists r w' data t h v c,
           handleWeatherRequest planId numberToString random ("Weather in " +:+ city) w
           = (Normal r, w')
           /\ busLog w' = busLog w
           /\ draws w' = (draws w + 4)%nat
           /\ resultState r = Some completed
           /\ chargedCredits (resultMetadata r) = Some 3
           /\ (resultMetadata r ≫= lookup "location") = Some (MStr (JsString.trim city))
           /\ (resultMetadata r ≫= lookup "weatherData") = Some (MWeather data)
           /\ location data = JsString.trim city
           /\ JsNumber.toInteger (temperature data) = Some t /\ 5 <= t <= 34
           /\ JsNumber.toInteger (humidity data) = Some h /\ 30 <= h <= 69
           /\ JsNumber.toInteger (windSpeed data) = Some v /\ 5 <= v <= 24
           /\ description data = Some c /\ In c conditions).
Proof.
  intros Hdraw. unfold handleWeatherRequest. rewrite weather_in_location.
  destruct (String.eqb (JsString.trim city) "") eqn:E.
  - left. apply String.eqb_eq in E. split; [exact E | reflexivity].
  - right. split; [intros E0; rewrite E0 in E; discriminate E |].
    destruct (JsNumberFacts.index_six conditions (random (draws w)) (Hdraw _) eq_refl)
      as (c & Hc & Hin).
    destruct (JsNumberFacts.temperature_range (random (S (draws w))) (Hdraw _))
      as (t & Ht & Htr).
    destruct (JsNumberFacts.humidity_range (random (S (S (draws w)))) (Hdraw _))
      as (h & Hh & Hhr).
    destruct (JsNumberFacts.wind_range (random (S (S (S (draws w))))) (Hdraw _))
      as (v & Hv & Hvr).
    eexists _, _, _, t, h, v, c.
    split; [unfold simulateWeatherAPI, bind, mathRandom, dateNow, ret; reflexivity |].
    cbn [busLog draws resultState resultMetadata].
    split; [reflexivity |]. split; [lia |]. split; [reflexivity |].
    split; [reflexivity |]. split; [reflexivity |]. split; [reflexivity |].
    cbn [location temperature humidity windSpeed description].
    split; [reflexivity |].
    split; [exact Ht |]. split; [lia |].
    split; [exact Hh |]. split; [lia |].
    split; [exact Hv |]. split; [lia |].
    split; [exact Hc | exact Hin].
Qed.

(** ** The transport client *)

(** C9.  When [sendMessage], [sendStreamingMessage] or
    [setPushNotificationConfig] is called with the empty string as bearer
    token, the request carries no [Authorization] header: it is the
    request made when no token is given. *)
Theorem empty_bearer_token_sends_no_authorization_header
    (baseUrl messageId message taskId : string)
    (pushNotification : option Client.Json) (pushNotificationConfig : Client.Json) :
  (Client.headers (Client.sendMessage baseUrl messageId message (Some ""))
     !! "Authorization" = None
   /\ Client.sendMessage baseUrl messageId message (Some "")
      = Client.sendMessage baseUrl messageId message None)
  /\ (Client.headers
        (Client.sendStreamingMessage baseUrl messageId message (Some "") pushNotification)
        !! "Authorization" = None
      /\ Client.sendStreamingMessage baseUrl messageId message (Some "") pushNotification
         = Client.sendStreamingMessage baseUrl messageId message None pushNotification)
  /\ (Client.headers
        (Client.setPushNotificationConfig baseUrl taskId pushNotificationConfig (Some ""))
        !! "Authorization" = None
      /\ Client.setPushNotificationConfig baseUrl taskId pushNotificationConfig (Some "")
         = Client.setPushNotificationConfig baseUrl taskId pushNotificationConfig None).
Proof. repeat split; reflexivity. Qed.

(** A token that is not empty does put the header. *)
Lemma bearer_token_sends_authorization_header
    (baseUrl messageId message : string) :
  Client.headers (Client.sendMessage baseUrl messageId message (Some "abc"))
    !! "Authorization" = Some "Bearer abc".
Proof. reflexivity. Qed.

(** ** The listener of the streaming client *)

Section StreamListener.
Import JsString Client ClientStream.
Variable jsonParse : string -> option Json.

Lemma append_empty_r (s : string) : s +:+ "" = s.
Proof.
  induction s as [| c s IH]; [reflexivity |]. rewrite append_cons, IH. reflexivity.
Qed.

Lemma append_assoc (a b c : string) : (a +:+ b) +:+ c = a +:+ (b +:+ c).
Proof.
  induction a as [| x a IH]; [reflexivity |]. rewrite !append_cons, IH. reflexivity.
Qed.

Lemma sliceFrom_length (n : nat) :
  forall s, String.length (sliceFrom n s) = (String.length s - n)%nat.
Proof.
  induction n as [| n IH]; intros s; cbn [sliceFrom].
  - lia.
  - destruct s as [| c s]; [reflexivity |]. rewrite IH. reflexivity.
Qed.

Lemma sliceFrom_append (c : string) (n : nat) :
  forall s, (n <= String.length s)%nat -> sliceFrom n (s +:+ c) = sliceFrom n s +:+ c.
Proof.
  induction n as [| n IH]; intros s Hn; [reflexivity |].
  destruct s as [| x s]; [cbn in Hn; lia |].
  rewrite append_cons. cbn [sliceFrom]. apply IH. cbn in Hn. lia.
Qed.

Lemma startsWith_length (p : string) :
  forall s, startsWith s p = true -> (String.length p <= String.length s)%nat.
Proof.
  induction p as [| a p IH]; intros s H; [cbn; lia |].
  destruct s as [| b s]; [discriminate H |]. cbn [startsWith] in H.
  apply andb_true_iff in H as [_ H]. apply IH in H. cbn. lia.
Qed.

Lemma startsWith_false_append (c p : string) :
  forall s,
    startsWith s p = false ->
    (String.length p <= String.length s)%nat ->
    startsWith (s +:+ c) p = false.
Proof.
  induction p as [| a p IH]; intros s H Hlen.
  - destruct s; discriminate H.
  - destruct s as [| b s]; [cbn in Hlen; lia |].
    rewrite append_cons. cbn [startsWith] in *.
    apply andb_false_iff in H as [H | H]; [rewrite H; reflexivity |].
    rewrite (IH s H); [apply andb_false_r | cbn in Hlen; lia].
Qed.

Lemma cutAt_length (sep : string) :
  forall s before after,
    cutAt sep s = Some (before, after) ->
    (String.length sep + String.length after <= String.length s)%nat.
Proof.
  induction s as [| c s IH]; intros before after H; cbn [cutAt] in H.
  - destruct (startsWith "" sep) eqn:Hs; [| discriminate H].
    injection H as _ <-. apply startsWith_length in Hs.
    rewrite sliceFrom_length. lia.
  - destruct (startsWith (String c s) sep) eqn:Hs.
    + injection H as _ <-. apply startsWith_length in Hs.
      rewrite sliceFrom_length. lia.
    + destruct (cutAt sep s) as [[b a] |] eqn:Hrec; [| discriminate H].
      injection H as _ <-. specialize (IH b a eq_refl). cbn [String.length]. lia.
Qed.

Lemma cutAt_append (sep c : string) :
  forall s before after,
    cutAt sep s = Some (before, after) ->
    cutAt sep (s +:+ c) = Some (before, after +:+ c).
Proof.
  induction s as [| x s IH]; intros before after H; cbn [cutAt] in H.
  - destruct (startsWith "" sep) eqn:Hs; [| discriminate H].
    injection H as <- <-. destruct sep as [| a sep]; [| discriminate Hs].
    destruct c; reflexivity.
  - destruct (startsWith (String x s) sep) eqn:Hs.
    + injection H as <- <-. rewrite append_cons. cbn [cutAt].
      pose proof (startsWith_append c sep (String x s) Hs) as Hs'.
      rewrite append_cons in Hs'. rewrite Hs'.
      rewrite <- (sliceFrom_append c (String.length sep) (String x s))
        by (apply startsWith_length, Hs).
      rewrite append_cons. reflexivity.
    + destruct (cutAt sep s) as [[b a] |] eqn:Hrec; [| discriminate H].
      injection H as <- <-.
      pose proof (cutAt_length sep s b a Hrec) as Hlen.
      pose proof (startsWith_false_append c sep (String x s) Hs
                    ltac:(cbn [String.length]; lia)) as Hs'.
      rewrite append_cons in *. cbn [cutAt]. rewrite Hs'.
      rewrite (IH b a eq_refl). reflexivity.
Qed.

Lemma cutAt_blankLine_shorter (s before after : string) :
  cutAt blankLine s = Some (before, after) ->
  (String.length after < String.length s)%nat.
Proof.
  intros H. apply cutAt_length in H. cbn [blankLine String.length] in H. lia.
Qed.

Lemma drain_fuel (n : nat) :
  forall m s,
    (String.length s <= n)%nat -> (String.length s <= m)%nat ->
    drain jsonParse n s = drain jsonParse m s.
Proof.
  induction n as [| n IH]; intros m s Hn Hm.
  - destruct s; [| cbn in Hn; lia]. destruct m; reflexivity.
  - destruct m as [| m].
    + destruct s; [| cbn in Hm; lia]. reflexivity.
    + cbn [drain]. destruct (cutAt blankLine s) as [[raw rest] |] eqn:Hcut; [| reflexivity].
      destruct (processEvent jsonParse raw) as [out [|]]; [reflexivity |].
      pose proof (cutAt_blankLine_shorter _ _ _ Hcut) as Hlt.
      rewrite (IH m rest) by lia. reflexivity.
Qed.

(** The loop, one iteration unrolled. *)
Lemma drainAll_eq (s : string) :
  drainAll jsonParse s
  = match cutAt blankLine s with
    | None => (s, false, [])
    | Some (rawEvent, rest) =>
        match processEvent jsonParse rawEvent with
        | (out, true) => (rest, true, out)
        | (out, false) =>
            let '(leftover, closed, more) := drainAll jsonParse rest in
            (leftover, closed, (out ++ more)%list)
        end
    end.
Proof.
  unfold drainAll. destruct s as [| c s]; [reflexivity |].
  cbn [String.length drain].
  destruct (cutAt blankLine (String c s)) as [[raw rest] |] eqn:Hcut; [| reflexivity].
  destruct (processEvent jsonParse raw) as [out [|]]; [reflexivity |].
  pose proof (cutAt_blankLine_shorter _ _ _ Hcut) as Hlt. cbn [String.length] in Hlt.
  rewrite (drain_fuel (String.length s) (String.length rest) rest) by lia.
  reflexivity.
Qed.

Lemma drainAll_append (c : string) :
  forall s,
    drainAll jsonParse (s +:+ c)
    = match drainAll jsonParse s with
      | (leftover, true, out) => (leftover +:+ c, true, out)
      | (leftover, false, out) =>
          let '(leftover', closed, more) := drainAll jsonParse (leftover +:+ c) in
          (leftover', closed, (out ++ more)%list)
      end.
Proof.
  intros s. induction s as [s IH] using string_length_ind.
  rewrite (drainAll_eq s).
  destruct (cutAt blankLine s) as [[raw rest] |] eqn:Hcut.
  - rewrite (drainAll_eq (s +:+ c)), (cutAt_append _ c _ _ _ Hcut).
    destruct (processEvent jsonParse raw) as [out [|]]; [reflexivity |].
    rewrite (IH rest) by (eapply cutAt_blankLine_shorter, Hcut).
    destruct (drainAll jsonParse rest) as [[leftover [|]] more]; [reflexivity |].
    destruct (drainAll jsonParse (leftover +:+ c)) as [[leftover' closed] more'].
    rewrite app_assoc. reflexivity.
  - destruct (drainAll jsonParse (s +:+ c)) as [[leftover' closed] more']. reflexivity.
Qed.

(** What one run of the loop leaves: closed on a final frame logged last,
    or a buffer without a complete event. *)
Lemma drainAll_shape :
  forall s leftover closed out,
    drainAll jsonParse s = (leftover, closed, out) ->
    (closed = true
     /\ exists before data,
          out = (before ++ [ StreamingEvent data; FinalEventReceived ])%list
          /\ isFinalFrame data = true
          /\ forallb quiet before = true)
    \/ (closed = false
        /\ forallb quiet out = true
        /\ cutAt blankLine leftover = None).
Proof.
  intros s. induction s as [s IH] using string_length_ind.
  intros leftover closed out. rewrite (drainAll_eq s).
  destruct (cutAt blankLine s) as [[raw rest] |] eqn:Hcut.
  - assert (Hone : forall o b, processEvent jsonParse raw = (o, b) ->
      (b = true /\ exists data, o = [ StreamingEvent data; FinalEventReceived ]
                                /\ isFinalFrame data = true)
      \/ (b = false /\ forallb quiet o = true)).
    { unfold processEvent. intros o b.
      destruct (dataLineOf raw) as [line |]; [| intros H; injection H as <- <-; right; split; reflexivity].
      destruct (truthy (Some line)); [| intros H; injection H as <- <-; right; split; reflexivity].
      destruct (jsonParse (trim (sliceFrom 5 line))) as [data |];
        [| intros H; injection H as <- <-; right; split; reflexivity].
      destruct (isFinalFrame data) eqn:Hf; intros H; injection H as <- <-.
      - left. split; [reflexivity |]. exists data. split; [reflexivity | exact Hf].
      - right. split; [reflexivity |]. cbn. rewrite Hf. reflexivity. }
    destruct (processEvent jsonParse raw) as [o b].
    destruct (Hone o b eq_refl) as [(-> & data & -> & Hf) | (-> & Hq)].
    + intros H. injection H as <- <- <-. left. split; [reflexivity |].
      exists [], data. repeat split; assumption.
    + destruct (drainAll jsonParse rest) as [[leftover' closed'] more] eqn:Hrest.
      intros H. injection H as <- <- <-.
      destruct (IH rest (cutAt_blankLine_shorter _ _ _ Hcut) _ _ _ Hrest)
        as [(-> & before & data & -> & Hf & Hb) | (-> & Hm & Hleft)].
      * left. split; [reflexivity |]. exists (o ++ before)%list, data.
        rewrite app_assoc. split; [reflexivity |]. split; [exact Hf |].
        rewrite forallb_app, Hq, Hb. reflexivity.
      * right. split; [reflexivity |]. split; [| exact Hleft].
        rewrite forallb_app, Hq, Hm. reflexivity.
  - intros H. injection H as <- <- <-. right. repeat split. exact Hcut.
Qed.

Lemma drainAll_settled (s : string) :
  cutAt blankLine s = None -> drainAll jsonParse s = (s, false, []).
Proof. intros H. rewrite drainAll_eq, H. reflexivity. Qed.

(** The listener on chunks that are text already. *)
Lemma receive_joined (chunks : list string) :
  forall st,
    settled st ->
    console (receive jsonParse (fun text => text) chunks st)
    = console (onData jsonParse (fun text => text) (joined chunks) st)
    /\ streamClosed (receive jsonParse (fun text => text) chunks st)
       = streamClosed (onData jsonParse (fun text => text) (joined chunks) st)
    /\ (streamClosed (receive jsonParse (fun text => text) chunks st) = false ->
        settled (receive jsonParse (fun text => text) chunks st)).
Proof.
  induction chunks as [| chunk later IH]; intros st [Hopen Hbuf].
  - cbn [receive joined]. unfold onData. cbv beta. rewrite append_empty_r.
    rewrite (drainAll_settled _ Hbuf). cbn [console streamClosed].
    rewrite app_nil_r, orb_false_r. repeat split; assumption.
  - cbn [receive joined]. rewrite Hopen.
    unfold onData at 2 4. cbv beta. rewrite <- append_assoc, drainAll_append.
    unfold onData in IH. unfold onData. cbv beta in *.
    destruct (drainAll jsonParse (buffer st +:+ chunk)) as [[leftover closed] out] eqn:Hd.
    destruct (drainAll_shape _ _ _ _ Hd) as [(-> & _) | (-> & _ & Hleft)].
    + cbn [console streamClosed]. rewrite Hopen. cbn [orb].
      destruct later; cbn [receive streamClosed console];
        (split; [reflexivity |]; split; [reflexivity | discriminate]).
    + match goal with
      | |- context [receive jsonParse _ later ?st1] =>
          destruct (IH st1) as (Hc & Hs & Hset)
      end.
      { split; [cbn; rewrite Hopen; reflexivity | exact Hleft]. }
      cbn [buffer console streamClosed] in Hc, Hs.
      destruct (drainAll jsonParse (leftover +:+ joined later)) as [[leftover' closed'] more].
      cbn [console streamClosed] in *.
      split; [rewrite Hc, app_assoc; reflexivity |].
      split; [rewrite Hs, Hopen; reflexivity | exact Hset].
Qed.

Lemma settled_listening : settled listening.
Proof. split; reflexivity. Qed.

Lemma receive_text_shape (texts : list string) :
  (streamClosed (receive jsonParse (fun text => text) texts listening) = true
   /\ exists before data,
        console (receive jsonParse (fun text => text) texts listening)
        = (before ++ [ StreamingEvent data; FinalEventReceived ])%list
        /\ isFinalFrame data = true
        /\ forallb quiet before = true)
  \/ (streamClosed (receive jsonParse (fun text => text) texts listening) = false
      /\ forallb quiet (console (receive jsonParse (fun text => text) texts listening)) = true
      /\ cutAt blankLine (buffer (receive jsonParse (fun text => text) texts listening))
         = None).
Proof.
  destruct (receive_joined texts listening settled_listening) as (Hc & Hs & Hset).
  rewrite Hc, Hs. rewrite Hs in Hset. unfold onData in *. cbv beta in *.
  cbn [buffer listening] in *.
  change ("" +:+ joined texts) with (joined texts) in *.
  destruct (drainAll jsonParse (joined texts)) as [[leftover closed] out] eqn:Hd.
  cbn [console streamClosed listening orb app] in *.
  destruct (drainAll_shape _ _ _ _ Hd) as [(-> & Hshape) | (-> & Hq & _)].
  - left. split; [reflexivity | exact Hshape].
  - right. split; [reflexivity |]. split; [exact Hq |].
    destruct (Hset eq_refl) as [_ Hbuf]. exact Hbuf.
Qed.

(** The listener on chunks of bytes is the listener on their texts. *)
Variable toStringUtf8 : string -> string.

Lemma receive_decoded (chunks : list string) :
  forall st,
    receive jsonParse toStringUtf8 chunks st
    = receive jsonParse (fun text => text) (map toStringUtf8 chunks) st.
Proof.
  induction chunks as [| chunk later IH]; intros st; [reflexivity |].
  cbn [receive map]. destruct (streamClosed st); [reflexivity |].
  rewrite IH. reflexivity.
Qed.

(** X14.  What the listener of [sendStreamingMessage] logs, and whether
    it closes the stream, does not depend on how the response body is cut
    into chunks, as long as no chunk is cut inside a character: when every
    chunk, and the body as a whole, is well-formed UTF-8 and so decodes to
    itself, the chunks received one by one give what the whole body
    received as one chunk gives. *)
Theorem chunking_does_not_change_what_the_listener_logs (chunks : list string) :
  (forall chunk, In chunk chunks -> toStringUtf8 chunk = chunk) ->
  toStringUtf8 (joined chunks) = joined chunks ->
  console (receive jsonParse toStringUtf8 chunks listening)
  = console (receive jsonParse toStringUtf8 [ joined chunks ] listening)
  /\ streamClosed (receive jsonParse toStringUtf8 chunks listening)
     = streamClosed (receive jsonParse toStringUtf8 [ joined chunks ] listening).
Proof.
  intros Hchunks Hbody. rewrite !receive_decoded. cbn [map]. rewrite Hbody.
  replace (map toStringUtf8 chunks) with chunks.
  - destruct (receive_joined chunks listening settled_listening) as (Hc & Hs & _).
    cbn [receive streamClosed listening]. split; assumption.
  - clear Hbody. induction chunks as [| chunk later IH]; [reflexivity |].
    cbn [map]. rewrite (Hchunks chunk (or_introl eq_refl)).
    rewrite <- IH; [reflexivity |].
    intros c Hc. apply Hchunks. right. exact Hc.
Qed.

(** X15.  Whatever chunks arrive, the listener ends in one of two ways.
    Either it has closed the stream: then the report of a final event is
    the last thing it logged, just after the event that passed the stop
    test, and nothing logged before it is such a report or an event that
    passes the test.  Or it has not: then it logged no report of a final
    event and no event that passes the test, and its buffer holds no
    complete event, every complete event received having been handled. *)
Theorem nothing_is_logged_after_a_final_event (chunks : list string) :
  (streamClosed (receive jsonParse toStringUtf8 chunks listening) = true
   /\ exists before data,
        console (receive jsonParse toStringUtf8 chunks listening)
        = (before ++ [ StreamingEvent data; FinalEventReceived ])%list
        /\ isFinalFrame data = true
        /\ forallb quiet before = true)
  \/ (streamClosed (receive jsonParse toStringUtf8 chunks listening) = false
      /\ forallb quiet (console (receive jsonParse toStringUtf8 chunks listening)) = true
      /\ cutAt blankLine (buffer (receive jsonParse toStringUtf8 chunks listening)) = None).
Proof. rewrite receive_decoded. apply receive_text_shape. Qed.

End StreamListener.

(** ** The stop test and the status updates of the executor *)

Lemma isFinalFrame_statusUpdate
    (isoString : N -> string) (messageJson : Message -> Client.Json)
    (metadataJson : Metadata -> Client.Json)
    (data : Client.Json) (u : TaskStatusUpdateEvent) :
  ClientStream.member "result" (Some data)
  = Some (ClientStream.statusUpdateJson isoString messageJson metadataJson u) ->
  ClientStream.isFinalFrame data = false.
Proof.
  intros H. unfold ClientStream.isFinalFrame. rewrite H.
  unfold ClientStream.statusUpdateJson, ClientStream.statusJson.
  destruct (message (status u)); reflexivity.
Qed.

(** X16.  The stop test of the clients, [data?.result?.status?.final ===
    true], looks for the flag inside [status].  A status update as the
    executor builds it has its [final] flag beside [status], not inside:
    for a frame whose [result] is such an update the test is false, also
    when the update is final, and the flag is what [data.result.final]
    holds. *)
Theorem stop_test_misses_the_final_flag_of_a_status_update
    (isoString : N -> string) (messageJson : Message -> Client.Json)
    (metadataJson : Metadata -> Client.Json)
    (data : Client.Json) (u : TaskStatusUpdateEvent) :
  ClientStream.member "result" (Some data)
  = Some (ClientStream.statusUpdateJson isoString messageJson metadataJson u) ->
  ClientStream.isFinalFrame data = false
  /\ ClientStream.isTrue
       (ClientStream.member "final" (ClientStream.member "result" (Some data)))
     = final u.
Proof.
  intros H. split; [exact (isFinalFrame_statusUpdate _ _ _ _ _ H) |].
  rewrite H. cbn. destruct (final u); reflexivity.
Qed.

(** X17.  The loops of [payments-client.ts] over a stream whose events
    all carry a status update of the executor as [result] never break:
    they log every event of the stream and never report a final event. *)
Theorem stream_loops_run_to_the_end_on_status_updates
    (isoString : N -> string) (messageJson : Message -> Client.Json)
    (metadataJson : Metadata -> Client.Json) (stream : list Client.Json) :
  (forall event, In event stream ->
     exists u, ClientStream.member "result" (Some event)
               = Some (ClientStream.statusUpdateJson isoString messageJson metadataJson u)) ->
  ClientStream.consume stream = map ClientStream.StreamingEvent stream
  /\ ~ In ClientStream.FinalEventReceived (ClientStream.consume stream).
Proof.
  intros Hshape.
  assert (Hrun : ClientStream.consume stream = map ClientStream.StreamingEvent stream).
  { induction stream as [| event later IH]; [reflexivity |].
    cbn [ClientStream.consume map].
    destruct (Hshape event (or_introl eq_refl)) as (u & Hu).
    rewrite (isFinalFrame_statusUpdate _ _ _ _ _ Hu).
    rewrite IH; [reflexivity |].
    intros e He. apply Hshape. right. exact He. }
  split; [exact Hrun |]. rewrite Hrun. intros Hin.
  apply in_map_iff in Hin as (e & He & _). discriminate He.
Qed.

(** ** The bearer token from the client to the middleware *)

Lemma bearerTokenOf_bearer (token : string) :
  ClientStream.bearerTokenOf (Some ("Bearer " +:+ token)) = Some token.
Proof. destruct token; reflexivity. Qed.

Lemma bearerTokenOf_withBearer (bearerToken : option string) :
  ClientStream.bearerTokenOf
    (Client.withBearer bearerToken Client.baseHeaders !! "Authorization")
  = if Client.truthy bearerToken then bearerToken else None.
Proof.
  destruct bearerToken as [token |]; [| reflexivity].
  unfold Client.withBearer, Client.truthy.
  destruct (String.eqb token "") eqn:E; cbn [negb]; [reflexivity |].
  rewrite lookup_insert_eq, bearerTokenOf_bearer. reflexivity.
Qed.

Lemma injectedBearerToken_withBearer
    (url method : string) (payload : list (string * Client.Json))
    (bearerToken : option string) :
  ClientStream.injectedBearerToken
    {| Client.url := url; Client.method := method;
       Client.headers := Client.withBearer bearerToken Client.baseHeaders;
       Client.body := Client.JObj payload |}
  = if Client.truthy bearerToken then bearerToken else None.
Proof.
  unfold ClientStream.injectedBearerToken. cbn [Client.headers Client.body].
  rewrite bearerTokenOf_withBearer.
  destruct bearerToken as [token |]; [| reflexivity].
  destruct (Client.truthy (Some token)) eqn:E; [| reflexivity].
  rewrite E. reflexivity.
Qed.

(** X18.  The token the server-side middleware puts in the metadata of
    the request body, for a request of [sendMessage],
    [sendStreamingMessage] or [setPushNotificationConfig], is the token
    the client was given, when that token is truthy; when the client was
    given no token or the empty string, the middleware puts none. *)
Theorem middleware_reads_back_the_token_of_the_client
    (baseUrl messageId message taskId : string)
    (pushNotification : option Client.Json) (pushNotificationConfig : Client.Json)
    (bearerToken : option string) :
  ClientStream.injectedBearerToken
    (Client.sendMessage baseUrl messageId message bearerToken)
  = (if Client.truthy bearerToken then bearerToken else None)
  /\ ClientStream.injectedBearerToken
       (Client.sendStreamingMessage baseUrl messageId message bearerToken pushNotification)
     = (if Client.truthy bearerToken then bearerToken else None)
  /\ ClientStream.injectedBearerToken
       (Client.setPushNotificationConfig baseUrl taskId pushNotificationConfig bearerToken)
     = (if Client.truthy bearerToken then bearerToken else None).
Proof. repeat split; apply injectedBearerToken_withBearer. Qed.

(** ** The outer catch of [execute] *)

(** C1, where the code departs from it.  On an event bus whose first call
    throws, the task for the text [Hello] publishes one event: the final
    event of the outer [catch].  Its metadata is present and is
    [{ errorType: "agent_error" }], with no [creditsUsed]. *)
Theorem outer_catch_final_event_has_no_credits
    (planId : string) (jsEval : string -> Completion JsValue)
    (numberToString : spec_float -> string) (uuidv4 : nat -> string)
    (random : nat -> spec_float) :
  exists u md,
    eventsOf planId jsEval numberToString uuidv4 random firstCallThrowsBus
      (textRequest "task-1" "ctx-1" "Hello") initialWorld
    = [ StatusUpdate u ]
    /\ final u = true
    /\ state (status u) = failed
    /\ metadata u = Some md
    /\ md = {[ "errorType" := MStr "agent_error" ]}
    /\ md !! "creditsUsed" = None
    /\ ~ hasCredits md.
Proof.
  eexists {| taskId := _; contextId := _; status := _; final := _; metadata := _ |}, _.
  split; [reflexivity |]. cbn [final state status metadata].
  repeat (split; [reflexivity |]).
  intros (n & Hn & _). discriminate Hn.
Qed.

(** ** Inputs at which claims of the specification fail *)

(** C2 fails when [finished()] throws: for the text [Hello] the final event
    with the handler's result is published, [finished()] throws, and the
    outer [catch] publishes a second final event. *)
Lemma two_final_events_when_finished_throws :
  map isFinal
    (eventsOf "plan" SampleEval.eval (fun _ => "0") (fun _ => "id")
       (fun _ => S754_zero false) finishedThrowsBus
       (textRequest "task-1" "ctx-1" "Hello") initialWorld)
  = [ false; true; true ]
  /\ ~ oneFinalAtEnd
         (eventsOf "plan" SampleEval.eval (fun _ => "0") (fun _ => "id")
            (fun _ => S754_zero false) finishedThrowsBus
            (textRequest "task-1" "ctx-1" "Hello") initialWorld).
Proof.
  assert (E : map isFinal
                (eventsOf "plan" SampleEval.eval (fun _ => "0") (fun _ => "id")
                   (fun _ => S754_zero false) finishedThrowsBus
                   (textRequest "task-1" "ctx-1" "Hello") initialWorld)
              = [ false; true; true ]) by (vm_compute; reflexivity).
  split; [exact E |].
  intros (before & last & Heq & Hlast & Hbefore).
  rewrite Heq, map_app in E. clear Heq.
  destruct before as [| e1 [| e2 [| e3 rest]]]; cbn in E, Hbefore.
  - discriminate E.
  - discriminate E.
  - injection E as _ He2 _. rewrite He2 in Hbefore.
    rewrite andb_false_r in Hbefore. discriminate Hbefore.
  - injection E as _ _ _ Hrest. destruct (map isFinal rest); discriminate Hrest.
Qed.

(** C5 fails on the expression: white space is stripped with everything
    else that is not a digit, an operator, a parenthesis or a dot, so what
    is evaluated and reported for [Calculate 15 * 7] is [15*7]. *)
Lemma expression_of_calculate_15_times_7_has_no_spaces :
  extractExpression "Calculate 15 * 7" <> "15 * 7"
  /\ (resultMetadata
        (match handleCalculation "plan" SampleEval.eval "Calculate 15 * 7" with
         | Normal result => result
         | Throw _ => handleGeneralRequest "plan" ""
         end) ≫= lookup "expression") <> Some (MStr "15 * 7").
Proof.
  split.
  - assert (E : extractExpression "Calculate 15 * 7" = "15*7") by reflexivity.
    rewrite E. discriminate.
  - vm_compute. discriminate.
Qed.

Lemma length_append (a b : string) :
  String.length (a +:+ b) = (String.length a + String.length b)%nat.
Proof.
  induction a as [| c a IH]; [reflexivity |].
  change (String c a +:+ b) with (String c (a +:+ b)).
  cbn [String.length Nat.add]. f_equal. exact IH.
Qed.

Lemma length_toLowerCase (s : string) :
  String.length (JsString.toLowerCase s) = String.length s.
Proof. induction s as [| c s IH]; cbn; [reflexivity | f_equal; exact IH]. Qed.

(** C8 fails on what is echoed: for the greeting text [hi there] the
    result text starts with the whole input, and it is not a greeting word
    followed by the capability summary. *)
Lemma greeting_echo_is_not_the_greeting_word :
  isGreeting "hi there" = true
  /\ ~ (exists word,
          In (JsString.toLowerCase word) greetings
          /\ JsString.includes "hi there" word = true
          /\ resultParts (handleGreeting "plan" "hi there")
             = [ TextPart (word +:+ capabilitySummary) ]).
Proof.
  split; [reflexivity |].
  intros (word & Hin & _ & Heq).
  assert (Hecho : resultParts (handleGreeting "plan" "hi there")
                  = [ TextPart ("hi there" +:+ capabilitySummary) ]) by reflexivity.
  rewrite Hecho in Heq.
  assert (Htext : "hi there" +:+ capabilitySummary = word +:+ capabilitySummary)
    by congruence.
  clear Heq. rename Htext into Heq.
  apply (f_equal String.length) in Heq. rewrite !length_append in Heq.
  assert (Hlen : String.length word = 8%nat) by (cbn [String.length] in Heq; lia).
  rewrite <- length_toLowerCase in Hlen.
  cbn [In greetings] in Hin.
  repeat (destruct Hin as [Hin | Hin]; [rewrite <- Hin in Hlen; discriminate Hlen |]).
  exact Hin.
Qed.

(** ** The theorems at concrete inputs *)

(** C2 on the outer exception path: the bus refuses the task record, the
    outer [catch] publishes the only final event. *)
Lemma one_final_event_and_it_is_last_witness :
  map summary
    (eventsOf "plan" SampleEval.eval (fun _ => "0") (fun _ => "id")
       (fun _ => oneHalf) taskRecordRefusingBus
       (textRequest "task-1" "ctx-1" "Weather in London") initialWorld)
  = [ Update failed [ TextPart "Agent error: unknown task" ] true
        (Some {[ "errorType" := MStr "agent_error" ]}) ]
  /\ oneFinalAtEnd
       (eventsOf "plan" SampleEval.eval (fun _ => "0") (fun _ => "id")
          (fun _ => oneHalf) taskRecordRefusingBus
          (textRequest "task-1" "ctx-1" "Weather in London") initialWorld).
Proof.
  split; [vm_compute; reflexivity |].
  apply (one_final_event_and_it_is_last "plan" SampleEval.eval (fun _ => "0")
           (fun _ => "id") (fun _ => oneHalf) taskRecordRefusingBus).
  - intros n log e He. destruct e as [t | u]; [discriminate He | reflexivity].
  - intros n log. reflexivity.
  - reflexivity.
  - reflexivity.
Defined.

Lemma streaming_publishes_eleven_progress_events_then_one_final_witness :
  route (userTextOf (textRequest "task-1" "ctx-1" "Start streaming")) = Streaming
  /\ exists result,
       map summary
         (eventsOf "plan" SampleEval.eval (fun _ => "0") (fun _ => "id")
            (fun _ => oneHalf) reliableBus
            (textRequest "task-1" "ctx-1" "Start streaming") initialWorld)
       = (TaskRecord
          :: map progressSummary (seq 1 10)
          ++ [ Update working [ TextPart "Streaming finished!" ] false None;
               Update completed (resultParts result) true (resultMetadata result) ])%list.
Proof.
  split; [reflexivity |].
  destruct (streaming_publishes_eleven_progress_events_then_one_final
              "plan" SampleEval.eval (fun _ => "0") (fun _ => "id") (fun _ => oneHalf)
              reliableBus (fun _ _ _ => eq_refl)
              (textRequest "task-1" "ctx-1" "Start streaming") initialWorld
              eq_refl eq_refl eq_refl)
    as (result & _ & _ & Hevents & _).
  exists result. exact Hevents.
Defined.

Lemma push_notification_is_finalized_in_the_background_witness :
  route (userTextOf (textRequest "task-1" "ctx-1" "Testing push notification!"))
  = PushNotification
  /\ oneFinalAtEnd
       (eventsOf "plan" SampleEval.eval (fun _ => "0") (fun _ => "id")
          (fun _ => oneHalf) reliableBus
          (textRequest "task-1" "ctx-1" "Testing push notification!") initialWorld).
Proof.
  split; [reflexivity |].
  destruct (push_notification_is_finalized_in_the_background
              "plan" SampleEval.eval (fun _ => "0") (fun _ => "id") (fun _ => oneHalf)
              reliableBus (fun _ _ _ => eq_refl)
              (textRequest "task-1" "ctx-1" "Testing push notification!") initialWorld
              eq_refl eq_refl eq_refl)
    as (_ & w1 & u & _ & _ & _ & _ & _ & _ & _ & _ & _ & Hone).
  exact Hone.
Defined.

Lemma calculate_15_times_7_witness :
  SampleEval.eval "15*7" = Normal (JsInt 105)
  /\ extractExpression "Calculate 15 * 7" = "15*7"
  /\ (resultMetadata
        (match handleCalculation "plan" SampleEval.eval "Calculate 15 * 7" with
         | Normal result => result
         | Throw _ => handleGeneralRequest "plan" ""
         end) ≫= lookup "result") = Some (MJs (JsInt 105)).
Proof.
  split; [reflexivity |].
  destruct (calculate_15_times_7 "plan" SampleEval.eval eq_refl) as (_ & Hexpr & Hresult).
  split; [exact Hexpr |]. rewrite Hresult. reflexivity.
Defined.

Lemma calculation_input_errors_are_failed_results_witness :
  extractExpression "Calculate " = ""
  /\ exists result,
       handleCalculation "plan" SampleEval.eval "Calculate " = Normal result
       /\ resultState result = Some failed
       /\ (resultMetadata result ≫= lookup "creditsUsed") = Some (MInt 1).
Proof.
  split; [reflexivity |].
  destruct (calculation_input_errors_are_failed_results
              "plan" SampleEval.eval (fun _ => "0") (fun _ => "id") (fun _ => oneHalf)
              reliableBus "Calculate " (or_introl eq_refl))
    as (result & Hrun & Hstate & Hcredits & _).
  exists result. split; [exact Hrun |]. split; [exact Hstate | exact Hcredits].
Defined.

Lemma greeting_wins_over_calculation_witness :
  JsString.includesAny (JsString.toLowerCase "Hello, calculate 2+2") greetings = true
  /\ JsString.includesAny (JsString.toLowerCase "Hello, calculate 2+2") mathKeywords = true
  /\ classify "Hello, calculate 2+2" = Greeting.
Proof.
  split; [reflexivity |]. split; [reflexivity |].
  destruct (greeting_wins_over_calculation
              "plan" SampleEval.eval (fun _ => "0") (fun _ => "id") (fun _ => oneHalf)
              reliableBus (textRequest "task-1" "ctx-1" "Hello, calculate 2+2")
              initialWorld)
    as (_ & Hgreeting).
  destruct (Hgreeting eq_refl eq_refl) as (_ & Hclassify & _).
  exact Hclassify.
Defined.

Lemma greeting_echoes_whole_text_witness :
  isGreeting "Hello there!" = true
  /\ resultParts (handleGreeting "plan" "Hello there!")
     = [ TextPart ("Hello there!" +:+ capabilitySummary) ].
Proof.
  split; [reflexivity |].
  destruct (greeting_echoes_whole_text "plan" "Hello there!" eq_refl) as [Hresult _].
  rewrite Hresult. reflexivity.
Defined.

Lemma weather_numbers_never_reach_the_upper_endpoints_witness :
  JsNumber.isUnitDraw oneHalf = true
  /\ exists data w',
       simulateWeatherAPI (fun _ => oneHalf) "London" initialWorld = (Normal data, w')
       /\ temperature data <> JsNumber.ofZ 35.
Proof.
  split; [reflexivity |].
  destruct (weather_numbers_never_reach_the_upper_endpoints
              (fun _ => oneHalf) "London" initialWorld (fun _ => eq_refl))
    as (data & w' & t & h & v & c & Hrun & _ & _ & _ & _ & _ & _ & Htemp & _).
  exists data, w'. split; [exact Hrun | exact Htemp].
Defined.

(** ** The further properties at concrete inputs *)

Lemma only_the_outer_catch_publishes_a_final_event_without_credits_witness :
  exists e,
    In e (eventsOf "plan" SampleEval.eval (fun _ => "0") (fun _ => "id")
            (fun _ => oneHalf) firstCallThrowsBus
            (textRequest "task-1" "ctx-1" "Hello") initialWorld)
    /\ isFinal e = true
    /\ creditsOrAgentError e.
Proof.
  assert (Hin : exists e,
    In e (eventsOf "plan" SampleEval.eval (fun _ => "0") (fun _ => "id")
            (fun _ => oneHalf) firstCallThrowsBus
            (textRequest "task-1" "ctx-1" "Hello") initialWorld)
    /\ isFinal e = true).
  { eexists. split; [left; reflexivity | reflexivity]. }
  destruct Hin as (e & Hin & Hfinal). exists e.
  split; [exact Hin |]. split; [exact Hfinal |].
  exact (only_the_outer_catch_publishes_a_final_event_without_credits
           "plan" SampleEval.eval (fun _ => "0") (fun _ => "id") (fun _ => oneHalf)
           firstCallThrowsBus (textRequest "task-1" "ctx-1" "Hello") initialWorld e
           eq_refl eq_refl Hin Hfinal).
Defined.

Lemma message_without_text_is_a_general_request_witness :
  parts (userMessage
           {| requestTaskId := "task-1";
              requestContextId := "ctx-1";
              userMessage :=
                {| role := user; messageId := "m-1"; parts := [ OtherPart "file" ];
                   messageMetadata := None; messageTaskId := None;
                   messageContextId := None |};
              task := None |})
  = [ OtherPart "file" ]
  /\ route (userTextOf
              {| requestTaskId := "task-1";
                 requestContextId := "ctx-1";
                 userMessage :=
                   {| role := user; messageId := "m-1"; parts := [ OtherPart "file" ];
                      messageMetadata := None; messageTaskId := None;
                      messageContextId := None |};
                 task := None |})
     = General.
Proof.
  split; [reflexivity |].
  destruct (message_without_text_is_a_general_request
              "plan" SampleEval.eval (fun _ => "0") (fun _ => "id") (fun _ => oneHalf)
              reliableBus
              {| requestTaskId := "task-1";
                 requestContextId := "ctx-1";
                 userMessage :=
                   {| role := user; messageId := "m-1"; parts := [ OtherPart "file" ];
                      messageMetadata := None; messageTaskId := None;
                      messageContextId := None |};
                 task := None |}
              initialWorld
              (or_intror (or_introl (ex_intro _ "file" (ex_intro _ [] eq_refl)))))
    as (_ & Hroute & _).
  exact Hroute.
Defined.

Lemma calculation_without_expression_characters_fails_witness :
  JsString.testClass JsString.isExpressionChar "Solve this" = false
  /\ isCalculation "Solve this" = true
  /\ handleCalculation "plan" SampleEval.eval "Solve this"
     = Normal (missingExpressionError "plan").
Proof.
  split; [reflexivity |]. split; [reflexivity |].
  destruct (calculation_without_expression_characters_fails
              "plan" SampleEval.eval "Solve this" eq_refl) as [_ Hrun].
  exact Hrun.
Defined.

Lemma translation_needs_the_word_translate_witness :
  JsString.includes (JsString.toLowerCase "How do you say 'goodbye' in French?") "translate"
  = false
  /\ route "How do you say 'goodbye' in French?" = Translation
  /\ handleTranslationRequest "plan" "How do you say 'goodbye' in French?"
     = translationFormatError "plan".
Proof.
  split; [reflexivity |]. split; [reflexivity |].
  exact (translation_needs_the_word_translate
           "plan" "How do you say 'goodbye' in French?" eq_refl).
Defined.

Lemma completed_results_cost_their_price_and_failed_ones_one_credit_witness :
  exists r w',
    handleTask "plan" SampleEval.eval (fun _ => "0") (fun _ => "id") (fun _ => oneHalf)
      reliableBus (textRequest "task-1" "ctx-1" "Calculate 15 * 7") initialWorld
    = (Normal (r, false), w')
    /\ creditCost (route "Calculate 15 * 7") = 2
    /\ ((resultState r = Some completed /\ chargedCredits (resultMetadata r) = Some 2)
        \/ (resultState r = Some failed /\ chargedCredits (resultMetadata r) = Some 1)).
Proof.
  assert (Hrun : exists r w',
    handleTask "plan" SampleEval.eval (fun _ => "0") (fun _ => "id") (fun _ => oneHalf)
      reliableBus (textRequest "task-1" "ctx-1" "Calculate 15 * 7") initialWorld
    = (Normal (r, false), w')).
  { eexists _, _. reflexivity. }
  destruct Hrun as (r & w' & Hrun). exists r, w'.
  split; [exact Hrun |]. split; [reflexivity |].
  exact (completed_results_cost_their_price_and_failed_ones_one_credit
           "plan" SampleEval.eval (fun _ => "0") (fun _ => "id") (fun _ => oneHalf)
           reliableBus (textRequest "task-1" "ctx-1" "Calculate 15 * 7")
           initialWorld w' r Hrun).
Defined.

Lemma finished_is_called_once_right_after_the_final_event_witness :
  exists calls e,
    busLog (runTask "plan" SampleEval.eval (fun _ => "0") (fun _ => "id")
              (fun _ => oneHalf) taskRecordRefusingBus
              (textRequest "task-1" "ctx-1" "Start streaming") initialWorld)
    = (calls ++ [ Publish e; Finished ])%list
    /\ isFinal e = true
    /\ forallb isProgressCall calls = true.
Proof.
  apply (finished_is_called_once_right_after_the_final_event
           "plan" SampleEval.eval (fun _ => "0") (fun _ => "id") (fun _ => oneHalf)
           taskRecordRefusingBus).
  - intros n log e He. destruct e as [t | u]; [discriminate He | reflexivity].
  - intros n log. reflexivity.
  - reflexivity.
  - reflexivity.
Defined.

Lemma the_final_event_bills_the_task_witness :
  creditCost (route (userTextOf (textRequest "task-1" "ctx-1" "Testing push notification!")))
  = 5
  /\ exists before u,
       eventsOf "plan" SampleEval.eval (fun _ => "0") (fun _ => "id") (fun _ => oneHalf)
         reliableBus (textRequest "task-1" "ctx-1" "Testing push notification!")
         initialWorld
       = (before ++ [ StatusUpdate u ])%list
       /\ final u = true
       /\ ((state (status u) = completed /\ chargedCredits (metadata u) = Some 5)
           \/ (state (status u) = failed /\ chargedCredits (metadata u) = Some 1)).
Proof.
  split; [reflexivity |].
  exact (the_final_event_bills_the_task
           "plan" SampleEval.eval (fun _ => "0") (fun _ => "id") (fun _ => oneHalf)
           reliableBus (fun _ _ _ => eq_refl)
           (textRequest "task-1" "ctx-1" "Testing push notification!") initialWorld
           eq_refl eq_refl).
Defined.

Lemma streaming_events_are_stamped_one_second_apart_witness :
  route (userTextOf (textRequest "task-1" "ctx-1" "Start streaming")) = Streaming
  /\ nth 3 (map stampOf
              (eventsOf "plan" SampleEval.eval (fun _ => "0")
                 (fun k => JsString.showZ (Z.of_nat k)) (fun _ => oneHalf)
                 reliableBus (textRequest "task-1" "ctx-1" "Start streaming")
                 initialWorld))
         None
     = Some ("2", 2000%N).
Proof.
  split; [reflexivity |].
  rewrite (streaming_events_are_stamped_one_second_apart
             "plan" SampleEval.eval (fun _ => "0")
             (fun k => JsString.showZ (Z.of_nat k)) (fun _ => oneHalf)
             reliableBus (fun _ _ _ => eq_refl)
             (textRequest "task-1" "ctx-1" "Start streaming") initialWorld
             eq_refl eq_refl eq_refl).
  reflexivity.
Defined.

Lemma greeting_phrases_are_never_translated_witness :
  route "Translate 'goodbye' to French" = Translation
  /\ JsString.firstMatch translationPattern "Translate 'goodbye' to French"
     = Some ("", ("goodbye", "French"))
  /\ isGreeting "goodbye" = false.
Proof.
  split; [reflexivity |]. split; [reflexivity |].
  destruct (greeting_phrases_are_never_translated
              "Translate 'goodbye' to French" "" "goodbye" "French" eq_refl eq_refl)
    as [Hnot _].
  exact Hnot.
Defined.

Lemma eval_is_given_expression_characters_only_witness :
  handleCalculation "plan" SampleEval.eval "Calculate 15 * 7"
  = handleCalculation "plan"
      (fun e => if allClass JsString.isExpressionChar e then SampleEval.eval e
                else Normal (JsOther "not an expression"))
      "Calculate 15 * 7".
Proof.
  destruct (eval_is_given_expression_characters_only
              "plan" SampleEval.eval
              (fun e => if allClass JsString.isExpressionChar e then SampleEval.eval e
                        else Normal (JsOther "not an expression"))
              "Calculate 15 * 7"
              ltac:(intros e _ Hclass; cbv beta; rewrite Hclass; reflexivity))
    as [_ Hsame].
  exact Hsame.
Defined.

Lemma weather_in_a_city_reports_that_city_witness :
  JsNumber.isUnitDraw oneHalf = true
  /\ exists r w',
       handleWeatherRequest "plan" (fun _ => "0") (fun _ => oneHalf)
         ("Weather in " +:+ "London") initialWorld
       = (Normal r, w')
       /\ (resultMetadata r ≫= lookup "location") = Some (MStr "London").
Proof.
  split; [reflexivity |].
  destruct (weather_in_a_city_reports_that_city
              "plan" (fun _ => "0") (fun _ => oneHalf) "London" initialWorld
              (fun _ => eq_refl))
    as [[Hblank _] | (_ & r & w' & data & t & h & v & c & Hrun & _ & _ & _ & _ & Hloc & _)].
  - discriminate Hblank.
  - exists r, w'. split; [exact Hrun | exact Hloc].
Defined.

Lemma stop_test_misses_the_final_flag_of_a_status_update_witness :
  final {| taskId := "task-1"; contextId := "ctx-1";
           status := {| state := completed; message := None; timestamp := 0%N |};
           final := true; metadata := None |}
  = true
  /\ ClientStream.isFinalFrame
       (Client.JObj
          [ ("jsonrpc", Client.JStr "2.0");
            ("id", Client.JNum 1);
            ("result",
              ClientStream.statusUpdateJson
                (fun _ => "1970-01-01T00:00:00.000Z")
                (fun _ => Client.JNull) (fun _ => Client.JNull)
                {| taskId := "task-1"; contextId := "ctx-1";
                   status := {| state := completed; message := None; timestamp := 0%N |};
                   final := true; metadata := None |}) ])
     = false.
Proof.
  split; [reflexivity |].
  destruct (stop_test_misses_the_final_flag_of_a_status_update
              (fun _ => "1970-01-01T00:00:00.000Z")
              (fun _ => Client.JNull) (fun _ => Client.JNull)
              (Client.JObj
                 [ ("jsonrpc", Client.JStr "2.0");
                   ("id", Client.JNum 1);
                   ("result",
                     ClientStream.statusUpdateJson
                       (fun _ => "1970-01-01T00:00:00.000Z")
                       (fun _ => Client.JNull) (fun _ => Client.JNull)
                       {| taskId := "task-1"; contextId := "ctx-1";
                          status := {| state := completed; message := None;
                                       timestamp := 0%N |};
                          final := true; metadata := None |}) ])
              {| taskId := "task-1"; contextId := "ctx-1";
                 status := {| state := completed; message := None; timestamp := 0%N |};
                 final := true; metadata := None |}
              eq_refl)
    as [Htest _].
  exact Htest.
Defined.

Lemma stream_loops_run_to_the_end_on_status_updates_witness :
  ClientStream.consume
    [ Client.JObj
        [ ("result",
            ClientStream.statusUpdateJson
              (fun _ => "1970-01-01T00:00:00.000Z")
              (fun _ => Client.JNull) (fun _ => Client.JNull)
              {| taskId := "task-1"; contextId := "ctx-1";
                 status := {| state := completed; message := None; timestamp := 0%N |};
                 final := true; metadata := None |}) ];
      Client.JObj
        [ ("result",
            ClientStream.statusUpdateJson
              (fun _ => "1970-01-01T00:00:00.000Z")
              (fun _ => Client.JNull) (fun _ => Client.JNull)
              {| taskId := "task-1"; contextId := "ctx-1";
                 status := {| state := working; message := None; timestamp := 0%N |};
                 final := false; metadata := None |}) ] ]
  = map ClientStream.StreamingEvent
      [ Client.JObj
          [ ("result",
              ClientStream.statusUpdateJson
                (fun _ => "1970-01-01T00:00:00.000Z")
                (fun _ => Client.JNull) (fun _ => Client.JNull)
                {| taskId := "task-1"; contextId := "ctx-1";
                   status := {| state := completed; message := None; timestamp := 0%N |};
                   final := true; metadata := None |}) ];
        Client.JObj
          [ ("result",
              ClientStream.statusUpdateJson
                (fun _ => "1970-01-01T00:00:00.000Z")
                (fun _ => Client.JNull) (fun _ => Client.JNull)
                {| taskId := "task-1"; contextId := "ctx-1";
                   status := {| state := working; message := None; timestamp := 0%N |};
                   final := false; metadata := None |}) ] ].
Proof.
  refine (proj1 (stream_loops_run_to_the_end_on_status_updates
                   (fun _ => "1970-01-01T00:00:00.000Z")
                   (fun _ => Client.JNull) (fun _ => Client.JNull) _ _)).
  intros event [<- | [<- | []]]; eexists; reflexivity.
Defined.

Lemma refused_task_record_runs_no_handler_witness :
  taskRecordRefusingBus 0%nat []
    (Publish (TaskEvent (taskRecord (textRequest "task-1" "ctx-1" "Weather in London") 0%N)))
  = Some (ErrorObject "unknown task")
  /\ draws (runTask "plan" SampleEval.eval (fun _ => "0") (fun _ => "id")
              (fun _ => oneHalf) taskRecordRefusingBus
              (textRequest "task-1" "ctx-1" "Weather in London") initialWorld)
     = 0%nat.
Proof.
  split; [reflexivity |].
  destruct (refused_task_record_runs_no_handler
              "plan" SampleEval.eval (fun _ => "0") (fun _ => "id") (fun _ => oneHalf)
              taskRecordRefusingBus
              ltac:(intros n log e He; destruct e; [discriminate He | reflexivity])
              (fun _ _ => eq_refl)
              (textRequest "task-1" "ctx-1" "Weather in London") initialWorld
              (ErrorObject "unknown task") eq_refl eq_refl eq_refl)
    as (u & _ & _ & _ & Hdraws & _).
  exact Hdraws.
Defined.

Lemma only_streaming_and_push_handlers_publish_witness :
  route (userTextOf (textRequest "task-1" "ctx-1" "Weather in London")) = Weather
  /\ exists r w',
       handleTask "plan" SampleEval.eval (fun _ => "0") (fun _ => "id") (fun _ => oneHalf)
         firstCallThrowsBus (textRequest "task-1" "ctx-1" "Weather in London") initialWorld
       = (Normal (r, false), w')
       /\ busAttempts w' = 0%nat
       /\ draws w' = 4%nat.
Proof.
  split; [reflexivity |].
  assert (Hrun : exists r w',
    handleTask "plan" SampleEval.eval (fun _ => "0") (fun _ => "id") (fun _ => oneHalf)
      firstCallThrowsBus (textRequest "task-1" "ctx-1" "Weather in London") initialWorld
    = (Normal (r, false), w')
    /\ draws w' = 4%nat).
  { eexists _, _. split; reflexivity. }
  destruct Hrun as (r & w' & Hrun & Hdraws). exists r, w'.
  split; [exact Hrun |].
  destruct (only_streaming_and_push_handlers_publish
              "plan" SampleEval.eval (fun _ => "0") (fun _ => "id") (fun _ => oneHalf)
              firstCallThrowsBus (textRequest "task-1" "ctx-1" "Weather in London")
              initialWorld w' r false Hrun
              ltac:(discriminate) ltac:(discriminate))
    as (_ & _ & Hattempts & _).
  split; [exact Hattempts | exact Hdraws].
Defined.


Lemma chunking_does_not_change_what_the_listener_logs_witness :
  SampleUtf8.toStringUtf8 ("data: é" +:+ JsString.nl) = "data: é" +:+ JsString.nl
  /\ ClientStream.console
       (ClientStream.receive
          (fun text => if String.eqb text "{}" then Some (Client.JObj []) else None)
          SampleUtf8.toStringUtf8
          [ "data: é" +:+ JsString.nl; JsString.nl +:+ "data: {}" +:+ JsString.nl +:+ JsString.nl ]
          ClientStream.listening)
     = ClientStream.console
         (ClientStream.receive
            (fun text => if String.eqb text "{}" then Some (Client.JObj []) else None)
            SampleUtf8.toStringUtf8
            [ ClientStream.joined
                [ "data: é" +:+ JsString.nl;
                  JsString.nl +:+ "data: {}" +:+ JsString.nl +:+ JsString.nl ] ]
            ClientStream.listening).
Proof.
  split; [vm_compute; reflexivity |].
  refine (proj1 (chunking_does_not_change_what_the_listener_logs
                   (fun text => if String.eqb text "{}" then Some (Client.JObj []) else None)
                   SampleUtf8.toStringUtf8 _ _ _)).
  - intros chunk [<- | [<- | []]]; vm_compute; reflexivity.
  - vm_compute. reflexivity.
Defined.
